(** * crypto_trading_bot: the analysis and signal pipeline

    A shallow embedding of [src/market_analyzer.py] (class [MarketAnalyzer])
    and [src/signal_generator.py] (class [SignalGenerator]), of the symbol
    helper of [utils/helpers.py] and of the descriptions and the risk and
    key-level sections of [src/report_formatter.py], and the properties of
    the specification that concern them.

    Conventions of the embedding.
    - Prices, scores and indicator values are Python floats; they are
      modelled by exact rationals [Q], compared with [==], [<] and [<=].
      Comparisons, [min], [max], [abs] and [int] are exact on floats as
      on rationals; sums, products and quotients are not rounded here, and
      infinities and NaN are outside the model.  Where a division of Python
      numbers by 0 raises [ZeroDivisionError] the model takes the [except]
      branch of the enclosing method explicitly (a zero of type
      [numpy.float64] divides to an infinity or NaN instead, which the
      model does not cover: prices are positive).
    - A Python [dict] from indicator or parameter names to numbers is a
      [gmap string Q].  A key bound to [None] behaves on every path of the
      source like an absent key, so [None] values are modelled by absence.
    - The nested result dictionaries are records; a field read with
      [.get(key)] is an [option].
    - Every method of the source wraps its body in [try/except] and returns
      a default in the handler; the functions below are therefore total and
      return that default on the paths that raise.
    - The TA-Lib primitives, the pandas statistics and the wall clock are
      external; they are taken as an interface record or as an argument. *)

From Stdlib Require Import Ascii QArith Qabs Lqa Lia.
From stdpp Require Import base option list sorting gmap strings pretty.

Local Open Scope Q_scope.

(** ** Python numbers *)

Module Py.

(** [a < b] on floats. *)
Definition ltb (a b : Q) : bool := negb (Qle_bool b a).

(** [a <= b] on floats. *)
Definition leb (a b : Q) : bool := Qle_bool a b.

(** [a == b] on floats. *)
Definition eqb (a b : Q) : bool := Qeq_bool a b.

(** [min(a, b)]: the second argument only when it is strictly smaller. *)
Definition min (a b : Q) : Q := if ltb b a then b else a.

(** [max(a, b)]: the second argument only when it is strictly larger. *)
Definition max (a b : Q) : Q := if ltb a b then b else a.

(** [max(l, default=d)]. *)
Definition max_default (l : list Q) (d : Q) : Q :=
  match l with
  | [] => d
  | x :: xs => fold_left max xs x
  end.

(** [min(l, default=d)]. *)
Definition min_default (l : list Q) (d : Q) : Q :=
  match l with
  | [] => d
  | x :: xs => fold_left min xs x
  end.

(** [int(x)]: truncation towards zero. *)
Definition int (x : Q) : Z := Z.quot (Qnum x) (Z.pos (Qden x)).

(** An [int] used as a float. *)
Definition of_nat (n : nat) : Q := inject_Z (Z.of_nat n).

(** [a[-k]] for [k >= 1]; [None] stands for [IndexError]. *)
Definition idx_neg {A} (a : list A) (k : nat) : option A :=
  if (k <=? length a)%nat then a !! (length a - k)%nat else None.

(** [o == s] for a value read with [dict.get]. *)
Definition is_label (o : option string) (s : string) : bool :=
  match o with
  | Some x => String.eqb x s
  | None => false
  end.

(** Stable insertion sort on a float key: [sorted(l, key=key)], and
    [sorted(l, key=key, reverse=True)] when [rev] is set.  Python's sort
    is stable in both directions, and a stable sort has one result. *)
Section Sort.
Context {A : Type} (key : A → Q) (rev : bool).

Definition before (x y : A) : bool :=
  if rev then leb (key y) (key x) else leb (key x) (key y).

Fixpoint insert_sorted (x : A) (l : list A) : list A :=
  match l with
  | [] => [x]
  | y :: l' => if before x y then x :: y :: l' else y :: insert_sorted x l'
  end.

Fixpoint sorted (l : list A) : list A :=
  match l with
  | [] => []
  | x :: l' => insert_sorted x (sorted l')
  end.
End Sort.

End Py.

(** ** Data model *)

(** One OHLCV row of the data frame. *)
Record PriceBar := mkBar {
  bar_open : Q;
  bar_high : Q;
  bar_low : Q;
  bar_close : Q;
  bar_volume : Q
}.

(** The data frame [df], oldest row first. *)
Abbreviation DataFrame := (list PriceBar).

Definition col_close (df : DataFrame) : list Q := bar_close <$> df.
Definition col_high (df : DataFrame) : list Q := bar_high <$> df.
Definition col_low (df : DataFrame) : list Q := bar_low <$> df.
Definition col_volume (df : DataFrame) : list Q := bar_volume <$> df.

(** [{'support': [...], 'resistance': [...]}]. *)
Record LevelSet := mkLevels {
  support : list Q;
  resistance : list Q
}.

(** [{'structure': ..., 'strength': ..., 'description': ...}]. *)
Record Structure := mkStructure {
  structure : option string;
  structure_strength : option Q;
  structure_description : option string
}.

(** [{'overall', 'long_short_ratio', 'state', 'funding_rate_impact'}]. *)
Record Sentiment := mkSentiment {
  overall : option string;
  long_short_ratio : option Q;
  state : option string;
  funding_rate_impact : option string
}.

(** [{'direction': ..., 'strength': ..., 'description': ...}]. *)
Record Trend := mkTrend {
  direction : option string;
  strength : option Q;
  trend_description : option string
}.

(** [{'current', 'average', 'state', 'description'}]. *)
Record Volatility := mkVolatility {
  current : option Q;
  average : option Q;
  volatility_state : option string;
  volatility_description : option string
}.

(** The dictionary returned by [MarketAnalyzer.analyze]. *)
Record AnalysisResult := mkAnalysis {
  symbol : option string;
  timeframe : option string;
  indicators : gmap string Q;
  support_resistance : LevelSet;
  market_structure : Structure;
  sentiment : Sentiment;
  trend : Trend;
  volatility : Volatility;
  last_price : option Q
}.

(** Trade direction: ['long'], ['short'] or ['neutral']. *)
Inductive Direction := long | short | neutral.

(** The [risk_params] dictionary of a signal. *)
Record RiskParams := mkRisk {
  risk_percent : Q;
  reward_percent : Q;
  risk_reward_ratio : Q;
  suggested_leverage : Z;
  position_size_percent : Q;
  risk_volatility : Q
}.

(** The [signal_strength] dictionary of a signal. *)
Record SignalStrength := mkStrength {
  stars : Z;
  reliability : string;
  timing : string
}.

(** A reading of the wall clock, [pd.Timestamp.now()], in nanoseconds. *)
Abbreviation Timestamp := Z (only parsing).

(** The dictionary returned by [SignalGenerator.generate_signal]. *)
Record Signal := mkSignal {
  signal_symbol : option string;
  signal_timeframe : option string;
  signal_direction : Direction;
  score : Q;
  entry_price : Q;
  stop_loss : Q;
  target_price : Q;
  risk_params : RiskParams;
  signal_strength : SignalStrength;
  timestamp : Timestamp
}.

(** ** [src/signal_generator.py] *)

Module SignalGenerator.

(** The [params] dictionary of the generator. *)
Record Params := mkParams {
  weights : option (gmap string Q);
  thresholds : option (gmap string Q)
}.

(** The literal passed to [self.params.get('weights', ...)]. *)
Definition default_weights : gmap string Q :=
  <["trend" := 0.3]> (<["oscillators" := 0.3]>
    (<["volume" := 0.2]> (<["sentiment" := 0.2]> ∅))).

(** The literal passed to [self.params.get('thresholds', ...)]. *)
Definition default_thresholds : gmap string Q :=
  <["strong_buy" := 80]> (<["buy" := 60]> (<["neutral" := 40]>
    (<["sell" := 20]> (<["strong_sell" := 0]> ∅)))).

Definition get_weights (params : Params) : gmap string Q :=
  default default_weights (weights params).

Definition get_thresholds (params : Params) : gmap string Q :=
  default default_thresholds (thresholds params).

(** *** [_calculate_score] *)

Definition trend_score (t : Trend) : Q :=
  if Py.is_label (direction t) "uptrend"
  then Py.min 100 (50 + default 0 (strength t))
  else if Py.is_label (direction t) "downtrend"
  then Py.max 0 (50 - default 0 (strength t))
  else 50.

Definition rsi_contribution (ind : gmap string Q) : Q :=
  match ind !! "rsi" with
  | Some rsi =>
      if Py.ltb 70 rsi then 20
      else if Py.ltb 60 rsi then 10
      else if Py.ltb rsi 30 then - 20
      else if Py.ltb rsi 40 then - 10
      else 0
  | None => 0
  end.

Definition macd_contribution (ind : gmap string Q) : Q :=
  match ind !! "macd", ind !! "macd_signal", ind !! "macd_hist" with
  | Some macd, Some macd_signal, Some macd_hist =>
      if Py.ltb macd_signal macd && Py.ltb 0 macd_hist then 15
      else if Py.ltb macd_signal macd && Py.ltb macd_hist 0 then 5
      else if Py.ltb macd macd_signal && Py.ltb macd_hist 0 then - 15
      else if Py.ltb macd macd_signal && Py.ltb 0 macd_hist then - 5
      else 0
  | _, _, _ => 0
  end.

Definition oscillator_score (ind : gmap string Q) : Q :=
  let oscillator_score := 50 + rsi_contribution ind + macd_contribution ind in
  Py.max 0 (Py.min 100 oscillator_score).

Definition volume_score : Q := 50.

Definition sentiment_score (s : Sentiment) : Q :=
  let sentiment_score :=
    if Py.is_label (overall s) "bullish" then 75
    else if Py.is_label (overall s) "bearish" then 25
    else 50 in
  let sentiment_score :=
    if Py.is_label (funding_rate_impact s) "long_pay" then sentiment_score - 10
    else if Py.is_label (funding_rate_impact s) "short_pay" then sentiment_score + 10
    else sentiment_score in
  let sentiment_score :=
    if Py.is_label (state s) "overbought" then Py.max 30 (sentiment_score - 20)
    else if Py.is_label (state s) "oversold" then Py.min 70 (sentiment_score + 20)
    else sentiment_score in
  Py.max 0 (Py.min 100 sentiment_score).

(** The weighted sum; a weight key that is missing raises [KeyError],
    and the handler returns the neutral score 50. *)
Definition _calculate_score (params : Params) (ar : AnalysisResult) : Q :=
  let weights := get_weights params in
  match weights !! "trend", weights !! "oscillators",
        weights !! "volume", weights !! "sentiment" with
  | Some w_trend, Some w_oscillators, Some w_volume, Some w_sentiment =>
      trend_score (trend ar) * w_trend +
      oscillator_score (indicators ar) * w_oscillators +
      volume_score * w_volume +
      sentiment_score (sentiment ar) * w_sentiment
  | _, _, _, _ => 50
  end.

(** *** [_determine_direction] *)

(** [score >= thresholds[k]] and [score <= thresholds[k]]; [None] is
    [KeyError]. *)
Definition at_least (th : gmap string Q) (score : Q) (k : string) : option bool :=
  t ← th !! k; Some (Py.leb t score).

Definition at_most (th : gmap string Q) (score : Q) (k : string) : option bool :=
  t ← th !! k; Some (Py.leb score t).

(** Python's short-circuit [a or b] when either side may raise. *)
Definition or_else (a b : option bool) : option bool :=
  match a with
  | Some true => Some true
  | Some false => b
  | None => None
  end.

Definition _determine_direction (params : Params) (score : Q)
    (ar : AnalysisResult) : Direction :=
  let thresholds := get_thresholds params in
  match at_least thresholds score "buy" with
  | Some true => long
  | Some false =>
      match at_most thresholds score "sell" with
      | Some true => short
      | Some false => neutral
      | None => neutral
      end
  | None => neutral
  end.

(** *** [_determine_entry_price] *)

Definition _determine_entry_price (direction : Direction) (current_price : Q)
    (ar : AnalysisResult) : Q :=
  current_price.

(** *** [_determine_stop_loss] *)

(** [indicators.get('atr', 0)], replaced by 1% of the entry when it is 0. *)
Definition stop_atr (ind : gmap string Q) (entry_price : Q) : Q :=
  let atr := default 0 (ind !! "atr") in
  if Py.eqb atr 0 then entry_price * 0.01 else atr.

(** The division by [entry_price] raises when the entry is 0; the handler
    then returns the 2% default of the direction. *)
Definition _determine_stop_loss (direction : Direction) (entry_price : Q)
    (ar : AnalysisResult) : Q :=
  let supports := support (support_resistance ar) in
  let resistances := resistance (support_resistance ar) in
  let atr := stop_atr (indicators ar) entry_price in
  match direction with
  | long =>
      match supports with
      | _ :: _ =>
          let nearest_support :=
            Py.max_default (List.filter (λ s, Py.ltb s entry_price) supports)
                           (entry_price * 0.98) in
          if Py.eqb entry_price 0 then entry_price * 0.98
          else if Py.ltb ((entry_price - nearest_support) / entry_price) 0.01
          then entry_price * 0.98
          else nearest_support
      | [] => entry_price - 2 * atr
      end
  | short =>
      match resistances with
      | _ :: _ =>
          let nearest_resistance :=
            Py.min_default (List.filter (λ r, Py.ltb entry_price r) resistances)
                           (entry_price * 1.02) in
          if Py.eqb entry_price 0 then entry_price * 1.02
          else if Py.ltb ((nearest_resistance - entry_price) / entry_price) 0.01
          then entry_price * 1.02
          else nearest_resistance
      | [] => entry_price + 2 * atr
      end
  | neutral => entry_price
  end.

(** *** [_determine_target_price] *)

Definition _determine_target_price (direction : Direction)
    (entry_price stop_loss : Q) (ar : AnalysisResult) : Q :=
  let supports := support (support_resistance ar) in
  let resistances := resistance (support_resistance ar) in
  let stop_distance := Qabs (entry_price - stop_loss) in
  let risk_reward := 2.0 in
  match direction with
  | long =>
      let target_by_risk := entry_price + risk_reward * stop_distance in
      match resistances with
      | _ :: _ =>
          let next_resistance :=
            Py.min_default (List.filter (λ r, Py.ltb entry_price r) resistances)
                           target_by_risk in
          Py.min target_by_risk next_resistance
      | [] => target_by_risk
      end
  | short =>
      let target_by_risk := entry_price - risk_reward * stop_distance in
      match supports with
      | _ :: _ =>
          let next_support :=
            Py.max_default (List.filter (λ s, Py.ltb s entry_price) supports)
                           target_by_risk in
          Py.max target_by_risk next_support
      | [] => target_by_risk
      end
  | neutral => entry_price
  end.

(** *** [_calculate_risk_parameters] *)

(** The dictionary returned by the [except] handler. *)
Definition default_risk_params : RiskParams :=
  {| risk_percent := 2.0; reward_percent := 4.0; risk_reward_ratio := 2.0;
     suggested_leverage := 5; position_size_percent := 20.0;
     risk_volatility := 3.0 |}.

(** [volatility.get('current', 0.01)], floored at 0.01. *)
Definition floored_volatility (v : Volatility) : Q :=
  let current_volatility := default 0.01 (current v) in
  if Py.ltb current_volatility 0.01 then 0.01 else current_volatility.

Definition base_leverage (current_volatility : Q) : Q :=
  if Py.ltb current_volatility 0.02 then 10
  else if Py.ltb current_volatility 0.05 then 5
  else 3.

Definition adjusted_leverage (base_leverage risk_percent : Q) : Q :=
  if Py.ltb 0 risk_percent then Py.min base_leverage (0.5 / risk_percent)
  else base_leverage.

Definition max_leverage : Z := 20.

(** [abs(...) / entry_price] raises when the entry is 0; the handler then
    returns [default_risk_params]. *)
Definition _calculate_risk_parameters (entry_price stop_loss target_price : Q)
    (direction : Direction) (ar : AnalysisResult) : RiskParams :=
  if Py.eqb entry_price 0 then default_risk_params
  else
    let risk_percent := Qabs (entry_price - stop_loss) / entry_price in
    let reward_percent := Qabs (target_price - entry_price) / entry_price in
    let risk_reward_ratio :=
      if Py.ltb 0 risk_percent then reward_percent / risk_percent else 0 in
    let current_volatility := floored_volatility (volatility ar) in
    let base_leverage := base_leverage current_volatility in
    let adjusted_leverage := adjusted_leverage base_leverage risk_percent in
    let suggested_leverage := Z.min (Py.int adjusted_leverage) max_leverage in
    let position_size_percent := Py.min (0.1 * risk_reward_ratio) 0.3 in
    {| risk_percent := risk_percent * 100;
       reward_percent := reward_percent * 100;
       risk_reward_ratio := risk_reward_ratio;
       suggested_leverage := suggested_leverage;
       position_size_percent := position_size_percent * 100;
       risk_volatility := current_volatility * 100 |}.

(** *** [_evaluate_signal_strength] *)

(** The star count of the [try] block; [None] is [KeyError]. *)
Definition star_count (th : gmap string Q) (score : Q) : option Z :=
  strong ← or_else (at_least th score "strong_buy") (at_most th score "strong_sell");
  if strong : bool then Some 5%Z
  else
    clear ← or_else (at_least th score "buy") (at_most th score "sell");
    if clear : bool then Some 4%Z
    else if Py.leb 55 score || Py.leb score 45 then Some 3%Z
    else if Py.leb 52 score || Py.leb score 48 then Some 2%Z
    else Some 1%Z.

Definition reliability_of (stars : Z) : string :=
  if (4 <=? stars)%Z then "高度可靠"
  else if (3 <=? stars)%Z then "较为可靠"
  else if (2 <=? stars)%Z then "一般可靠"
  else "参考为主".

Definition timing_of (stars : Z) : string :=
  if (4 <=? stars)%Z then "建议进场"
  else if (3 <=? stars)%Z then "可以考虑"
  else if (2 <=? stars)%Z then "等待确认"
  else "暂不操作".

Definition _evaluate_signal_strength (params : Params) (score : Q)
    (ar : AnalysisResult) : SignalStrength :=
  match star_count (get_thresholds params) score with
  | Some stars =>
      {| stars := stars; reliability := reliability_of stars;
         timing := timing_of stars |}
  | None =>
      {| stars := 3; reliability := "一般可靠"; timing := "等待确认" |}
  end.

(** *** [generate_signal] *)

(** [now] is the value [pd.Timestamp.now()] returns during the call. *)
Definition generate_signal (params : Params) (now : Timestamp)
    (analysis_result : option AnalysisResult) : option Signal :=
  ar ← analysis_result;
  current_price ← last_price ar;
  let score := _calculate_score params ar in
  let direction := _determine_direction params score ar in
  let entry_price := _determine_entry_price direction current_price ar in
  let stop_loss := _determine_stop_loss direction entry_price ar in
  let target_price := _determine_target_price direction entry_price stop_loss ar in
  let risk_params :=
    _calculate_risk_parameters entry_price stop_loss target_price direction ar in
  let signal_strength := _evaluate_signal_strength params score ar in
  Some {| signal_symbol := symbol ar;
          signal_timeframe := timeframe ar;
          signal_direction := direction;
          score := score;
          entry_price := entry_price;
          stop_loss := stop_loss;
          target_price := target_price;
          risk_params := risk_params;
          signal_strength := signal_strength;
          timestamp := now |}.

End SignalGenerator.

(** ** [src/market_analyzer.py] *)

Module MarketAnalyzer.

(** *** External primitives *)

(** The TA-Lib functions the analyzer calls.  Each returns the output
    array(s) of the call, or [None] when the call raises. *)
Record Talib := mkTalib {
  SMA : list Q → nat → option (list Q);
  EMA : list Q → nat → option (list Q);
  RSI : list Q → nat → option (list Q);
  MACD : list Q → nat → nat → nat → option (list Q * list Q * list Q);
  STOCH : list Q → list Q → list Q → nat → nat → nat → option (list Q * list Q);
  BBANDS : list Q → nat → Q → Q → option (list Q * list Q * list Q);
  ATR : list Q → list Q → list Q → nat → option (list Q);
  SAR : list Q → list Q → Q → Q → option (list Q);
  CCI : list Q → list Q → list Q → nat → option (list Q);
  OBV : list Q → list Q → option (list Q);
  ADX : list Q → list Q → list Q → nat → option (list Q)
}.

(** The pandas and numpy statistics of [_analyze_volatility]: the sample
    standard deviation, the mean of the rolling standard deviation over a
    window, and [np.sqrt(365)]. *)
Record Stats := mkStats {
  std : list Q → Q;
  rolling_std_mean : nat → list Q → Q;
  sqrt_365 : Q
}.

(** The [params] dictionary of the analyzer, with the nested
    dictionaries flattened. *)
Record Params := mkParams {
  ma_periods : option (list nat);
  rsi_period : option nat;
  macd_fast_period : option nat;
  macd_slow_period : option nat;
  macd_signal_period : option nat;
  kdj_k_period : option nat;
  kdj_d_period : option nat;
  kdj_j_period : option nat;
  bollinger_period : option nat;
  bollinger_std_dev : option Q
}.

Definition default_ma_periods : list nat := [5; 10; 20; 50; 100; 200]%nat.

(** The formatted key [f'ma_{period}']. *)
Definition ma_key (period : nat) : string := "ma_" +:+ pretty period.

(** The formatted key [f'ema_{period}']. *)
Definition ema_key (period : nat) : string := "ema_" +:+ pretty period.

(** *** [_calculate_indicators] *)

(** The body of the method fills the dictionary [indicators] step by step
    inside one [try]; when a step raises, the handler returns the
    dictionary as filled so far.  A computation therefore carries the
    dictionary and yields a value, or [None] once something has raised. *)
Definition Build (A : Type) : Type := gmap string Q → gmap string Q * option A.

Definition build_ret {A} (a : A) : Build A := λ ind, (ind, Some a).

Definition build_bind {A B} (m : Build A) (f : A → Build B) : Build B :=
  λ ind, match m ind with
         | (ind', Some a) => f a ind'
         | (ind', None) => (ind', None)
         end.

Notation "x <- m ;; k" := (build_bind m (λ x, k))
  (at level 100, m at next level, right associativity).
Notation "m ;; k" := (build_bind m (λ _, k))
  (at level 100, right associativity).

(** A call or an index that may raise. *)
Definition call {A} (o : option A) : Build A := λ ind, (ind, o).

(** [indicators[k] = v]. *)
Definition store (k : string) (v : Q) : Build unit :=
  λ ind, (<[k := v]> ind, Some tt).

(** [if b: body]. *)
Definition when (b : bool) (body : Build unit) : Build unit :=
  if b then body else build_ret tt.

(** [for x in l: body]. *)
Fixpoint for_each {A} (l : list A) (body : A → Build unit) : Build unit :=
  match l with
  | [] => build_ret tt
  | x :: l' => body x ;; for_each l' body
  end.

(** The dictionary the method returns, on the normal and on the
    exceptional path alike. *)
Definition returned (m : Build unit) : gmap string Q := (m ∅).1.

Definition sma_entry (T : Talib) (close : list Q) (period : nat) : Build unit :=
  when (period <=? length close)%nat (
    ma <- call (SMA T close period) ;;
    v <- call (Py.idx_neg ma 1) ;;
    store (ma_key period) v).

Definition ema_entry (T : Talib) (close : list Q) (period : nat) : Build unit :=
  when (period <=? length close)%nat (
    ema <- call (EMA T close period) ;;
    v <- call (Py.idx_neg ema 1) ;;
    store (ema_key period) v).

Definition rsi_entry (T : Talib) (p : Params) (close : list Q) : Build unit :=
  let rsi_period := default 14%nat (rsi_period p) in
  when (rsi_period <=? length close)%nat (
    rsi <- call (RSI T close rsi_period) ;;
    v <- call (Py.idx_neg rsi 1) ;;
    store "rsi" v).

Definition macd_entries (T : Talib) (p : Params) (close : list Q) : Build unit :=
  let fast_period := default 12%nat (macd_fast_period p) in
  let slow_period := default 26%nat (macd_slow_period p) in
  let signal_period := default 9%nat (macd_signal_period p) in
  when (slow_period + signal_period <=? length close)%nat (
    r <- call (MACD T close fast_period slow_period signal_period) ;;
    let '(macd, macd_signal, macd_hist) := r in
    m <- call (Py.idx_neg macd 1) ;;
    store "macd" m ;;
    s <- call (Py.idx_neg macd_signal 1) ;;
    store "macd_signal" s ;;
    h <- call (Py.idx_neg macd_hist 1) ;;
    store "macd_hist" h).

Definition kdj_entries (T : Talib) (p : Params) (high low close : list Q) : Build unit :=
  let k_period := default 9%nat (kdj_k_period p) in
  let d_period := default 3%nat (kdj_d_period p) in
  let j_period := default 3%nat (kdj_j_period p) in
  when (k_period + d_period <=? length close)%nat (
    r <- call (STOCH T high low close k_period d_period j_period) ;;
    let '(k, d) := r in
    k1 <- call (Py.idx_neg k 1) ;;
    store "k" k1 ;;
    d1 <- call (Py.idx_neg d 1) ;;
    store "d" d1 ;;
    store "j" (3 * k1 - 2 * d1)).

(** The quotients below are numpy divisions, which do not raise. *)
Definition bollinger_entries (T : Talib) (p : Params) (close : list Q) : Build unit :=
  let bb_period := default 20%nat (bollinger_period p) in
  let bb_std := default 2 (bollinger_std_dev p) in
  when (bb_period <=? length close)%nat (
    r <- call (BBANDS T close bb_period bb_std bb_std) ;;
    let '(upper, middle, lower) := r in
    u <- call (Py.idx_neg upper 1) ;;
    store "bb_upper" u ;;
    m <- call (Py.idx_neg middle 1) ;;
    store "bb_middle" m ;;
    l <- call (Py.idx_neg lower 1) ;;
    store "bb_lower" l ;;
    store "bb_width" ((u - l) / m)).

Definition atr_entries (T : Talib) (high low close : list Q) : Build unit :=
  let atr_period := 14%nat in
  when (atr_period <=? length close)%nat (
    atr <- call (ATR T high low close atr_period) ;;
    a <- call (Py.idx_neg atr 1) ;;
    store "atr" a ;;
    c <- call (Py.idx_neg close 1) ;;
    store "atr_percent" (a / c)).

Definition sar_entry (T : Talib) (high low close : list Q) : Build unit :=
  when (15 <=? length close)%nat (
    sar <- call (SAR T high low 0.02 0.2) ;;
    v <- call (Py.idx_neg sar 1) ;;
    store "sar" v).

Definition cci_entry (T : Talib) (high low close : list Q) : Build unit :=
  let cci_period := 14%nat in
  when (cci_period <=? length close)%nat (
    cci <- call (CCI T high low close cci_period) ;;
    v <- call (Py.idx_neg cci 1) ;;
    store "cci" v).

Definition obv_entries (T : Talib) (close volume : list Q) : Build unit :=
  when (2 <=? length close)%nat (
    obv <- call (OBV T close volume) ;;
    o1 <- call (Py.idx_neg obv 1) ;;
    store "obv" o1 ;;
    o10 <- call (Py.idx_neg obv 10) ;;
    store "obv_change"
      (if Py.ltb 0 (Qabs o10) then (o1 - o10) / Qabs o10 else 0)).

Definition _calculate_indicators (T : Talib) (p : Params) (df : DataFrame)
    : gmap string Q :=
  returned (
    if (length df <? 50)%nat then build_ret tt
    else
      let close := col_close df in
      let high := col_high df in
      let low := col_low df in
      let volume := col_volume df in
      let periods := default default_ma_periods (ma_periods p) in
      for_each periods (sma_entry T close) ;;
      for_each periods (ema_entry T close) ;;
      rsi_entry T p close ;;
      macd_entries T p close ;;
      kdj_entries T p high low close ;;
      bollinger_entries T p close ;;
      atr_entries T high low close ;;
      sar_entry T high low close ;;
      cci_entry T high low close ;;
      obv_entries T close volume).

(** *** [_identify_support_resistance] *)

(** A local extremum: the bar index (a float once averaged) and the price. *)
Abbreviation Level := (Q * Q)%type.

(** [a[i]] for an index known to be in range. *)
Definition at_index (a : list Q) (i : nat) : Q := nth i a 0.

(** [high[i]] exceeds its two neighbours on each side. *)
Definition is_local_high (high : list Q) (i : nat) : bool :=
  Py.ltb (at_index high (i - 1)) (at_index high i) &&
  Py.ltb (at_index high (i - 2)) (at_index high i) &&
  Py.ltb (at_index high (i + 1)) (at_index high i) &&
  Py.ltb (at_index high (i + 2)) (at_index high i).

(** [low[i]] is below its two neighbours on each side. *)
Definition is_local_low (low : list Q) (i : nat) : bool :=
  Py.ltb (at_index low i) (at_index low (i - 1)) &&
  Py.ltb (at_index low i) (at_index low (i - 2)) &&
  Py.ltb (at_index low i) (at_index low (i + 1)) &&
  Py.ltb (at_index low i) (at_index low (i + 2)).

(** [range(2, n - 2)]. *)
Definition inner_indices (n : nat) : list nat := seq 2 (n - 4).

Definition find_local_highs (high : list Q) : list Level :=
  (λ i, (Py.of_nat i, at_index high i)) <$>
    List.filter (is_local_high high) (inner_indices (length high)).

Definition find_local_lows (low : list Q) : list Level :=
  (λ i, (Py.of_nat i, at_index low i)) <$>
    List.filter (is_local_low low) (inner_indices (length low)).

(** [abs(x[1] - current[1]) / current[1] < threshold] on numpy floats: a
    zero divisor gives an infinity or a NaN, and the test is false. *)
Definition is_close (threshold : Q) (current x : Level) : bool :=
  if Py.eqb current.2 0 then false
  else Py.ltb (Qabs (x.2 - current.2) / current.2) threshold.

(** The loop of [merge_levels] over [sorted_levels[1:]]. *)
Fixpoint merge_loop (threshold : Q) (rest : list Level) (current : Level)
    (merged : list Level) : list Level :=
  match rest with
  | [] => merged ++ [current]
  | x :: rest' =>
      if is_close threshold current x
      then merge_loop threshold rest'
             ((current.1 + x.1) / 2, (current.2 + x.2) / 2) merged
      else merge_loop threshold rest' x (merged ++ [current])
  end.

Definition merge_levels (levels : list Level) (threshold : Q) : list Level :=
  match Py.sorted snd false levels with
  | [] => []
  | first :: rest => merge_loop threshold rest first []
  end.

(** The merged local highs above the current price, nearest first. *)
Definition highs_above (high : list Q) (current_price : Q) : list Level :=
  Py.sorted snd false
    (List.filter (λ l : Level, Py.ltb current_price l.2)
       (merge_levels (find_local_highs high) 0.005)).

(** The merged local lows below the current price, nearest first. *)
Definition lows_below (low : list Q) (current_price : Q) : list Level :=
  Py.sorted snd true
    (List.filter (λ l : Level, Py.ltb l.2 current_price)
       (merge_levels (find_local_lows low) 0.005)).

(** The levels taken from real extrema: [highs_above[:n_levels]] and
    [lows_below[:n_levels]]. *)
Definition real_resistance (df : DataFrame) (n_levels : nat) : list Q :=
  snd <$> take n_levels (highs_above (col_high df) (List.last (col_close df) 0)).

Definition real_support (df : DataFrame) (n_levels : nat) : list Q :=
  snd <$> take n_levels (lows_below (col_low df) (List.last (col_close df) 0)).

(** The levels appended for [i in range(additional_levels)]. *)
Definition atr_resistance (current_price atr : Q) (additional_levels : nat) : list Q :=
  (λ i, current_price * (1 + 0.5 * (Py.of_nat i + 1) * atr / current_price)) <$>
    seq 0 additional_levels.

Definition atr_support (current_price atr : Q) (additional_levels : nat) : list Q :=
  (λ i, current_price * (1 - 0.5 * (Py.of_nat i + 1) * atr / current_price)) <$>
    seq 0 additional_levels.

(** [talib.ATR(high, low, close, timeperiod=14)[-1]]. *)
Definition last_atr (T : Talib) (df : DataFrame) : option Q :=
  atr ← ATR T (col_high df) (col_low df) (col_close df) 14;
  Py.idx_neg atr 1.

(** The method proper.  The only steps that can raise are the two ATR
    calls, which come before anything is appended; the handler then
    returns [result] holding the levels of the real extrema. *)
Definition _identify_support_resistance (T : Talib) (df : DataFrame)
    (n_levels : nat) : LevelSet :=
  if (length df <? 30)%nat then {| support := []; resistance := [] |}
  else
    let current_price := List.last (col_close df) 0 in
    let res := real_resistance df n_levels in
    let sup := real_support df n_levels in
    let raised := {| support := sup; resistance := res |} in
    let extended_res :=
      if (length res <? n_levels)%nat
      then atr ← last_atr T df;
           Some (res ++ atr_resistance current_price atr (n_levels - length res))
      else Some res in
    let extended_sup :=
      if (length sup <? n_levels)%nat
      then atr ← last_atr T df;
           Some (sup ++ atr_support current_price atr (n_levels - length sup))
      else Some sup in
    match extended_res, extended_sup with
    | Some res', Some sup' =>
        {| support := Py.sorted id true sup';
           resistance := Py.sorted id false res' |}
    | _, _ => raised
    end.

(** *** [_analyze_market_structure] *)

(** The entries visited by [for key, value in indicators.items()] whose
    key starts with ['ma_']. *)
Definition ma_entries (ind : gmap string Q) : list (string * Q) :=
  List.filter (λ kv, String.prefix "ma_" kv.1) (map_to_list ind).

Definition ma_score (ind : gmap string Q) (current_price : Q) : Q :=
  let ma_total := length (ma_entries ind) in
  let ma_count_above :=
    length (List.filter (λ kv : string * Q, Py.ltb kv.2 current_price) (ma_entries ind)) in
  if (0 <? ma_total)%nat
  then Py.of_nat ma_count_above / Py.of_nat ma_total * 100
  else 0.

Definition rsi_score (ind : gmap string Q) : Q :=
  match ind !! "rsi" with
  | Some rsi =>
      if Py.ltb 70 rsi then 90
      else if Py.ltb 60 rsi then 70
      else if Py.ltb 50 rsi then 60
      else if Py.ltb 40 rsi then 40
      else if Py.ltb 30 rsi then 30
      else 10
  | None => 0
  end.

Definition macd_score (ind : gmap string Q) : Q :=
  match ind !! "macd", ind !! "macd_signal", ind !! "macd_hist" with
  | Some macd, Some macd_signal, Some macd_hist =>
      if Py.ltb macd_signal macd && Py.ltb 0 macd_hist then 80
      else if Py.ltb macd_signal macd && Py.ltb macd_hist 0 then 60
      else if Py.ltb macd macd_signal && Py.ltb macd_hist 0 then 20
      else 40
  | _, _, _ => 50
  end.

Definition bb_score (ind : gmap string Q) (current_price : Q) : Q :=
  match ind !! "bb_upper", ind !! "bb_middle", ind !! "bb_lower" with
  | Some bb_upper, Some bb_middle, Some bb_lower =>
      if Py.ltb bb_upper current_price then 90
      else if Py.ltb bb_middle current_price then 70
      else if Py.ltb current_price bb_lower then 10
      else if Py.ltb current_price bb_middle then 30
      else 50
  | _, _, _ => 50
  end.

Definition structure_default : Structure :=
  {| structure := Some "neutral"; structure_strength := Some 0;
     structure_description := Some "" |}.

Definition _analyze_market_structure (df : DataFrame) (ind : gmap string Q)
    : Structure :=
  if (length df <? 20)%nat then structure_default
  else
    let current_price := List.last (col_close df) 0 in
    let strength :=
      ma_score ind current_price * 0.4 + rsi_score ind * 0.2 +
      macd_score ind * 0.2 + bb_score ind current_price * 0.2 in
    if Py.leb 70 strength then
      {| structure := Some "bullish"; structure_strength := Some strength;
         structure_description := Some "看涨结构，价格站在大多数均线上方" |}
    else if Py.leb strength 30 then
      {| structure := Some "bearish"; structure_strength := Some strength;
         structure_description := Some "看跌结构，价格站在大多数均线下方" |}
    else
      {| structure := Some "neutral"; structure_strength := Some strength;
         structure_description := Some "中性结构，价格在均线附近波动" |}.

(** *** [_determine_trend] *)

(** The pairs [(period, indicators[key])] collected for the periods
    5, 10, 20, 50, 100 and sorted by period. *)
Definition ma_values (ind : gmap string Q) : list (nat * Q) :=
  Py.sorted (λ x : nat * Q, Py.of_nat x.1) false
    (omap (λ period, v ← ind !! ma_key period; Some (period, v))
          [5; 10; 20; 50; 100]%nat).

(** The loop over [range(len(ma_values) - 1)], carrying the two flags
    [(ma_aligned_up, ma_aligned_down)]. *)
Fixpoint alignment_loop (ma_values : list (nat * Q)) (flags : bool * bool)
    : bool * bool :=
  match ma_values with
  | a :: (b :: _) as rest =>
      alignment_loop rest
        (if Py.ltb b.2 a.2 then false else flags.1,
         if Py.ltb a.2 b.2 then false else flags.2)
  | _ => flags
  end.

Definition ma_alignment (ma_values : list (nat * Q)) : bool * bool :=
  if (3 <=? length ma_values)%nat then alignment_loop ma_values (true, true)
  else (true, true).

(** [current_price > ma] for an average read with [indicators.get]. *)
Definition above (ind : gmap string Q) (key : string) (current_price : Q) : bool :=
  match ind !! key with
  | Some ma => Py.ltb ma current_price
  | None => false
  end.

(** [talib.ADX(high, low, close, timeperiod=14)[-1]], and 0 when the call
    or the index raises. *)
Definition last_adx (T : Talib) (df : DataFrame) : Q :=
  default 0 (adx ← ADX T (col_high df) (col_low df) (col_close df) 14;
             Py.idx_neg adx 1).

Definition trend_default : Trend :=
  {| direction := Some "sideways"; strength := Some 0;
     trend_description := Some "" |}.

Definition _determine_trend (T : Talib) (df : DataFrame) (ind : gmap string Q)
    : Trend :=
  if (length df <? 20)%nat then trend_default
  else
    let current_price := List.last (col_close df) 0 in
    let '(ma_aligned_up, ma_aligned_down) := ma_alignment (ma_values ind) in
    let above_ma50 := above ind "ma_50" current_price in
    let above_ma100 := above ind "ma_100" current_price in
    let adx := last_adx T df in
    if ma_aligned_up && above_ma50 && above_ma100 then
      {| direction := Some "uptrend";
         strength := Some (Py.min 100 (50 + adx / 2));
         trend_description :=
           Some (if Py.ltb 25 adx then "强劲上升趋势，均线多头排列"
                 else "温和上升趋势，均线多头排列") |}
    else if ma_aligned_down && negb above_ma50 && negb above_ma100 then
      {| direction := Some "downtrend";
         strength := Some (Py.min 100 (50 + adx / 2));
         trend_description :=
           Some (if Py.ltb 25 adx then "强劲下降趋势，均线空头排列"
                 else "温和下降趋势，均线空头排列") |}
    else
      {| direction := Some "sideways";
         strength := Some (Py.max 0 (adx - 15));
         trend_description := Some "横盘整理，无明确趋势" |}.

(** *** [_analyze_volatility] *)

(** [df['close'].pct_change().dropna()]. *)
Fixpoint pct_change (close : list Q) : list Q :=
  match close with
  | a :: (b :: _) as rest => (b - a) / a :: pct_change rest
  | _ => []
  end.

Definition volatility_default : Volatility :=
  {| current := Some 0; average := Some 0; volatility_state := Some "normal";
     volatility_description := Some "" |}.

Definition _analyze_volatility (S : Stats) (df : DataFrame) : Volatility :=
  if (length df <? 20)%nat then volatility_default
  else
    let returns := pct_change (col_close df) in
    let current_volatility := std S returns * sqrt_365 S in
    let avg_volatility := rolling_std_mean S 20 returns * sqrt_365 S in
    if Py.ltb (avg_volatility * 1.5) current_volatility then
      {| current := Some current_volatility; average := Some avg_volatility;
         volatility_state := Some "high";
         volatility_description := Some "高波动性，市场剧烈震荡" |}
    else if Py.ltb current_volatility (avg_volatility * 0.5) then
      {| current := Some current_volatility; average := Some avg_volatility;
         volatility_state := Some "low";
         volatility_description := Some "低波动性，市场平静" |}
    else
      {| current := Some current_volatility; average := Some avg_volatility;
         volatility_state := Some "normal";
         volatility_description := Some "正常波动，市场稳定" |}.

(** *** [_analyze_sentiment] *)

(** [df['funding_rate'].iloc[-1]], read when the frame has a
    ['funding_rate'] column and is not empty.  [funding] is that column,
    as long as the frame, or [None] when the frame has no such column. *)
Definition last_funding (df : DataFrame) (funding : option (list Q)) : option Q :=
  match df with
  | [] => None
  | _ :: _ => column ← funding; Py.idx_neg column 1
  end.

Definition funding_impact (funding_rate : option Q) : string :=
  match funding_rate with
  | Some f =>
      if Py.ltb 0.0001 f then "long_pay"
      else if Py.ltb f (- 0.0001) then "short_pay"
      else "neutral"
  | None => "neutral"
  end.

Definition rsi_state (ind : gmap string Q) : string :=
  match ind !! "rsi" with
  | Some rsi =>
      if Py.ltb 70 rsi then "overbought"
      else if Py.ltb rsi 30 then "oversold"
      else "normal"
  | None => "normal"
  end.

(** The local [sentiment_score], updated in the order of the source. *)
Definition sentiment_points (ind : gmap string Q) (funding_rate : option Q) : Q :=
  let sentiment_score := 50 in
  let sentiment_score :=
    match ind !! "rsi" with
    | Some rsi => sentiment_score + (rsi - 50) * 0.5
    | None => sentiment_score
    end in
  let sentiment_score :=
    match ind !! "macd_hist" with
    | Some macd_hist =>
        if Py.ltb 0 macd_hist
        then sentiment_score + 10 * Py.min 1 (macd_hist / 0.01)
        else sentiment_score - 10 * Py.min 1 (Qabs macd_hist / 0.01)
    | None => sentiment_score
    end in
  let sentiment_score :=
    match ind !! "k", ind !! "d" with
    | Some k, Some d =>
        let sentiment_score :=
          if Py.ltb d k then sentiment_score + 5
          else if Py.ltb k d then sentiment_score - 5
          else sentiment_score in
        if Py.ltb 80 k then sentiment_score + 5
        else if Py.ltb k 20 then sentiment_score - 5
        else sentiment_score
    | _, _ => sentiment_score
    end in
  match funding_rate with
  | Some f => sentiment_score - f * 1000
  | None => sentiment_score
  end.

(** The long/short ratio before rounding. *)
Definition long_short (sentiment_score : Q) : Q :=
  if Py.ltb 50 sentiment_score then 1.0 + (sentiment_score - 50) / 10
  else if Py.ltb sentiment_score 50
  then 1.0 / (1.0 + (50 - sentiment_score) / 10)
  else 1.0.

Definition overall_label (sentiment_score : Q) : string :=
  if Py.leb 70 sentiment_score then "bullish"
  else if Py.leb sentiment_score 30 then "bearish"
  else "neutral".

(** [round2] is the built-in [round(x, 2)] on floats. *)
Definition _analyze_sentiment (round2 : Q → Q) (df : DataFrame)
    (funding : option (list Q)) (ind : gmap string Q) : Sentiment :=
  let funding_rate := last_funding df funding in
  let sentiment_score := sentiment_points ind funding_rate in
  {| overall := Some (overall_label sentiment_score);
     long_short_ratio := Some (round2 (long_short sentiment_score));
     state := Some (rsi_state ind);
     funding_rate_impact := Some (funding_impact funding_rate) |}.

(** *** [analyze] *)

(** The whole analysis of one frame; [None] for a missing or empty frame.
    The entry ['data'] of the result, a copy of the frame, is not kept. *)
Definition analyze (T : Talib) (S : Stats) (round2 : Q → Q) (p : Params)
    (data : option DataFrame) (funding : option (list Q))
    (symbol timeframe : string) : option AnalysisResult :=
  df ← data;
  match df with
  | [] => None
  | _ :: _ =>
      let indicators := _calculate_indicators T p df in
      Some (mkAnalysis
              (Some symbol)
              (Some timeframe)
              indicators
              (_identify_support_resistance T df 2)
              (_analyze_market_structure df indicators)
              (_analyze_sentiment round2 df funding indicators)
              (_determine_trend T df indicators)
              (_analyze_volatility S df)
              (Some (List.last (col_close df) 0)))
  end.

End MarketAnalyzer.

(** ** [utils/helpers.py] *)

Module Helpers.

(** A Python [str] is the list of its characters.  The symbols handled
    here are ASCII tickers, one character per byte. *)
Abbreviation str := (list Ascii.ascii).

(** ['/' in symbol]. *)
Definition has_slash (symbol : str) : bool :=
  existsb (Ascii.eqb "/"%char) symbol.

(** [symbol.endswith(suffix)]. *)
Definition endswith (symbol suffix : str) : bool :=
  (length suffix <=? length symbol)%nat &&
  bool_decide (drop (length symbol - length suffix) symbol = suffix).

(** The stablecoins, in the order the loop tries them. *)
Definition stablecoins : list str :=
  String.list_ascii_of_string <$> ["USDT"; "USD"; "USDC"; "BUSD"; "DAI"; "TUSD"].

(** The first stablecoin of the list the symbol ends with. *)
Fixpoint first_suffix (symbol : str) (candidates : list str) : option str :=
  match candidates with
  | [] => None
  | c :: rest => if endswith symbol c then Some c else first_suffix symbol rest
  end.

(** [symbol[:-k]] and [symbol[-k:]] for [0 < k <= len(symbol)]. *)
Definition but_last (k : nat) (symbol : str) : str :=
  take (length symbol - k) symbol.

Definition last_chars (k : nat) (symbol : str) : str :=
  drop (length symbol - k) symbol.

(** [f"{base}/{quote}"]. *)
Definition pair (base quote : str) : str := base ++ "/"%char :: quote.

Definition normalize_symbol (symbol : str) : str :=
  if has_slash symbol then symbol
  else
    match first_suffix symbol stablecoins with
    | Some stablecoin => pair (but_last (length stablecoin) symbol) stablecoin
    | None =>
        if (4 <? length symbol)%nat
        then pair (but_last 4 symbol) (last_chars 4 symbol)
        else if (3 <? length symbol)%nat
        then pair (but_last 3 symbol) (last_chars 3 symbol)
        else symbol
    end.

End Helpers.

(** ** [src/report_formatter.py] *)

Module ReportFormatter.

(** The format specifications of the f-strings: [f"{x:.nf}"] on a float
    and [f"{n}"] on an integer. *)
Record Formatting := mkFormatting {
  fixed : nat → Q → string;
  decimal : Z → string
}.

Definition _get_funding_rate_description (funding_rate : Q) : string :=
  if Py.ltb 0.0001 funding_rate then "正向，多单支付费用"
  else if Py.ltb funding_rate (- 0.0001) then "负向，空单支付费用"
  else "中性，费用极低".

(** [sentiment.get('overall', 'neutral')] turned into its description. *)
Definition _get_sentiment_description (ar : AnalysisResult) : string :=
  let overall := default "neutral" (overall (sentiment ar)) in
  if String.eqb overall "bullish" then "看涨"
  else if String.eqb overall "bearish" then "看跌"
  else "中性".

Definition _get_market_state (ar : AnalysisResult) : string :=
  let state := default "normal" (state (sentiment ar)) in
  if String.eqb state "overbought" then "超买状态"
  else if String.eqb state "oversold" then "超卖状态"
  else "正常波动".

(** The conditional expressions inside the lines of
    [_format_risk_management]. *)
Definition leverage_label (leverage : Z) : string :=
  if (10 <=? leverage)%Z then "高"
  else if (5 <=? leverage)%Z then "中"
  else "低".

Definition volatility_label (volatility : Q) : string :=
  if Py.leb 5 volatility then "高"
  else if Py.leb 2 volatility then "中"
  else "低".

Definition position_label (position_size : Q) : string :=
  if Py.leb 30 position_size then "激进"
  else if Py.leb 10 position_size then "适中"
  else "保守".

Definition ratio_label (risk_reward_ratio : Q) : string :=
  if Py.leb 3 risk_reward_ratio then "优秀"
  else if Py.leb 2 risk_reward_ratio then "良好"
  else if Py.leb 1.5 risk_reward_ratio then "一般"
  else "较差".

(** The lines of the risk section.  A signal built by the generator has
    every key of [risk_params], so the defaults of the [.get] calls are
    not reached. *)
Definition _format_risk_management (F : Formatting) (signal : Signal)
    : list string :=
  let risk_params := risk_params signal in
  let leverage := suggested_leverage risk_params in
  let volatility := risk_volatility risk_params in
  let position_size := position_size_percent risk_params in
  let reward_percent := reward_percent risk_params in
  let risk_percent := risk_percent risk_params in
  let risk_reward_ratio := risk_reward_ratio risk_params in
  [ "";
    "⚠️ 风险管理：";
    "• 建议杠杆: " +:+ decimal F leverage +:+ "倍 (" +:+
      leverage_label leverage +:+ "杠杆，" +:+
      volatility_label volatility +:+ "波动行情)";
    "• 建议仓位: " +:+ fixed F 1 position_size +:+ "% (" +:+
      position_label position_size +:+ "仓位)";
    "• 预期收益率: " +:+ fixed F 2 reward_percent +:+ "%";
    "• 最大回撤: " +:+ fixed F 2 risk_percent +:+ "%";
    "• 风险回报比: " +:+ fixed F 2 risk_reward_ratio +:+ " (" +:+
      ratio_label risk_reward_ratio +:+ ")";
    "• 市场波动性: " +:+ fixed F 2 volatility +:+ "% (" +:+
      volatility_label volatility +:+ "波动)" ].

(** The funding rate shown by [format]: 0, or the last entry of the
    frame's ['funding_rate'] column when the frame has one and is not
    empty. *)
Definition funding_rate_of (df : DataFrame) (funding : option (list Q)) : Q :=
  default 0 (MarketAnalyzer.last_funding df funding).




End ReportFormatter.

(** ** Concrete inputs *)

Module Examples.

(** [n] bars whose close rises by 1 from [start]; high and low lie 1 away. *)
Definition ramp (start : Q) (n : nat) : DataFrame :=
  (λ i, let c := start + Py.of_nat i in
        {| bar_open := c; bar_high := c + 1; bar_low := c - 1;
           bar_close := c; bar_volume := 1000 |}) <$> seq 0 n.

(** The arithmetic mean of the last [period] values up to index [i]. *)
Definition window_mean (a : list Q) (period i : nat) : Q :=
  let w := take period (drop (i + 1 - period) a) in
  Qred (fold_right Qplus 0 w / Py.of_nat (length w)).

(** The simple moving average as an array; the warm-up positions, which
    the analyzer never reads, hold 0. *)
Definition rolling_mean (a : list Q) (period : nat) : list Q :=
  (λ i, if (period <=? i + 1)%nat then window_mean a period i else 0)
    <$> seq 0 (length a).

(** A stand-in for TA-Lib that never raises: the moving averages are the
    true rolling means, the other primitives return arrays as long as
    their input. *)
Definition talib : MarketAnalyzer.Talib :=
  {| MarketAnalyzer.SMA := λ close period, Some (rolling_mean close period);
     MarketAnalyzer.EMA := λ close period, Some (rolling_mean close period);
     MarketAnalyzer.RSI := λ close _, Some ((λ _, 50) <$> close);
     MarketAnalyzer.MACD := λ close _ _ _,
       Some ((λ _, 0) <$> close, (λ _, 0) <$> close, (λ _, 0) <$> close);
     MarketAnalyzer.STOCH := λ _ _ close _ _ _,
       Some ((λ _, 50) <$> close, (λ _, 50) <$> close);
     MarketAnalyzer.BBANDS := λ close period _ _,
       Some ((λ x, x + 2) <$> close, close, (λ x, x - 2) <$> close);
     MarketAnalyzer.ATR := λ high _ _ _, Some ((λ _, 2) <$> high);
     MarketAnalyzer.SAR := λ _ low _ _, Some low;
     MarketAnalyzer.CCI := λ high _ _ _, Some ((λ _, 0) <$> high);
     MarketAnalyzer.OBV := λ close _, Some ((λ _, 1000) <$> close);
     MarketAnalyzer.ADX := λ high _ _ _, Some ((λ _, 30) <$> high) |}.

(** Statistics that report no dispersion. *)
Definition stats : MarketAnalyzer.Stats :=
  {| MarketAnalyzer.std := λ _, 0;
     MarketAnalyzer.rolling_std_mean := λ _ _, 0;
     MarketAnalyzer.sqrt_365 := 19 |}.

(** An analyzer configured by defaults only. *)
Definition analyzer_params : MarketAnalyzer.Params :=
  {| MarketAnalyzer.ma_periods := None;
     MarketAnalyzer.rsi_period := None;
     MarketAnalyzer.macd_fast_period := None;
     MarketAnalyzer.macd_slow_period := None;
     MarketAnalyzer.macd_signal_period := None;
     MarketAnalyzer.kdj_k_period := None;
     MarketAnalyzer.kdj_d_period := None;
     MarketAnalyzer.kdj_j_period := None;
     MarketAnalyzer.bollinger_period := None;
     MarketAnalyzer.bollinger_std_dev := None |}.

(** A generator configured by defaults only. *)
Definition generator_params : SignalGenerator.Params :=
  {| SignalGenerator.weights := None; SignalGenerator.thresholds := None |}.


(** A steadily rising market: 100 bars closing at 100, 101, ..., 199. *)
Definition rising : DataFrame := ramp 100 100.

(** The simple moving averages of [rising] at the periods the trend
    determiner reads: 197, 194.5, 189.5, 174.5 and 149.5. *)
Definition rising_averages : gmap string Q :=
  list_to_map
    ((λ period, (MarketAnalyzer.ma_key period,
                 window_mean (col_close rising) period 99))
       <$> [5; 10; 20; 50; 100]%nat).

(** A short history: 20 bars closing at 100, ..., 119. *)
Definition short_history : DataFrame := ramp 100 20.

(** An analysis with nothing but a price: every assessment is absent. *)
Definition bare_analysis (price : Q) : AnalysisResult :=
  {| symbol := Some "BTC/USDT"; timeframe := Some "1h";
     indicators := ∅;
     support_resistance := {| support := []; resistance := [] |};
     market_structure := mkStructure None None None;
     sentiment := mkSentiment None None None None;
     trend := mkTrend None None None;
     volatility := mkVolatility None None None None;
     last_price := Some price |}.

(** A bullish analysis at price 100 whose nearest support, a real low of
    the window, lies at 40. *)
Definition distant_support : AnalysisResult :=
  {| symbol := Some "BTC/USDT"; timeframe := Some "1h";
     indicators :=
       <["rsi" := 75]> (<["macd" := 100]> (<["macd_signal" := 50]>
         (<["macd_hist" := 50]> (<["atr" := 3]> ∅))));
     support_resistance := {| support := [40; 35]; resistance := [150; 160] |};
     market_structure :=
       mkStructure (Some "bullish") (Some 75) (Some "");
     sentiment :=
       mkSentiment (Some "bullish") (Some 1.5) (Some "normal") (Some "neutral");
     trend := mkTrend (Some "uptrend") (Some 70) (Some "");
     volatility := mkVolatility (Some 0.8) (Some 0.7) (Some "normal") (Some "");
     last_price := Some 100 |}.

(** The analysis of the generator's unit test. *)
Definition test_analysis : AnalysisResult :=
  {| symbol := Some "BTC/USDT"; timeframe := Some "1h";
     indicators :=
       <["ma_20" := 39000]> (<["ma_50" := 38000]> (<["rsi" := 65]>
         (<["macd" := 100]> (<["macd_signal" := 50]> (<["macd_hist" := 50]>
           (<["k" := 70]> (<["d" := 60]> (<["j" := 80]>
             (<["bb_upper" := 41000]> (<["bb_middle" := 40000]>
               (<["bb_lower" := 39000]> (<["atr" := 800]> ∅))))))))))));
     support_resistance :=
       {| support := [39000; 38000]; resistance := [41000; 42000] |};
     market_structure :=
       mkStructure (Some "bullish") (Some 75) (Some "");
     sentiment :=
       mkSentiment (Some "bullish") (Some 1.5) (Some "normal") (Some "neutral");
     trend := mkTrend (Some "uptrend") (Some 70) (Some "");
     volatility := mkVolatility (Some 0.02) (Some 0.015) (Some "normal") (Some "");
     last_price := Some 40000 |}.

(** A rising zigzag of 32 bars: local highs at 106, 107, 108, 109 and 110,
    local lows at 96, 97, 98, 99 and 100, last close 104. *)
Definition zigzag : DataFrame :=
  (λ c, {| bar_open := c; bar_high := c + 1; bar_low := c - 1;
           bar_close := c; bar_volume := 1000 |}) <$>
  [100; 102; 105; 102; 100; 97; 100; 103; 106; 103; 101; 98; 101; 104; 107;
   104; 102; 99; 102; 105; 108; 105; 103; 100; 103; 106; 109; 106; 104; 101;
   103; 104].

(** The stand-in for TA-Lib with an RSI call that raises. *)
Definition talib_without_rsi : MarketAnalyzer.Talib :=
  {| MarketAnalyzer.SMA := MarketAnalyzer.SMA talib;
     MarketAnalyzer.EMA := MarketAnalyzer.EMA talib;
     MarketAnalyzer.RSI := λ _ _, None;
     MarketAnalyzer.MACD := MarketAnalyzer.MACD talib;
     MarketAnalyzer.STOCH := MarketAnalyzer.STOCH talib;
     MarketAnalyzer.BBANDS := MarketAnalyzer.BBANDS talib;
     MarketAnalyzer.ATR := MarketAnalyzer.ATR talib;
     MarketAnalyzer.SAR := MarketAnalyzer.SAR talib;
     MarketAnalyzer.CCI := MarketAnalyzer.CCI talib;
     MarketAnalyzer.OBV := MarketAnalyzer.OBV talib;
     MarketAnalyzer.ADX := MarketAnalyzer.ADX talib |}.


(** The analysis of the unit test with everything the generator does not
    read changed: another structure, trend description, long/short ratio
    and volatility average, and one more indicator. *)
Definition test_analysis_variant : AnalysisResult :=
  {| symbol := Some "BTC/USDT"; timeframe := Some "1h";
     indicators := <["cci" := 120]> (indicators test_analysis);
     support_resistance := support_resistance test_analysis;
     market_structure := mkStructure (Some "bearish") (Some 10) (Some "weak");
     sentiment :=
       mkSentiment (Some "bullish") (Some 3) (Some "normal") (Some "neutral");
     trend := mkTrend (Some "uptrend") (Some 70) (Some "rising");
     volatility := mkVolatility (Some 0.02) (Some 0.5) (Some "high") (Some "wide");
     last_price := Some 40000 |}.

(** A stand-in for the format specifications that prints the integer
    part of a number only. *)
Definition formatting : ReportFormatter.Formatting :=
  {| ReportFormatter.fixed := λ _ x, pretty (Py.int x);
     ReportFormatter.decimal := λ n, pretty n |}.


End Examples.

(** ** The specification's wording *)

Module Spec.

(** The bands of the star rating under the default thresholds. *)
Definition star_bands (n : Z) (score : Q) : Prop :=
  (n = 5%Z ↔ 80 <= score ∨ score <= 0) ∧
  (n = 4%Z ↔ (60 <= score ∧ score < 80) ∨ (0 < score ∧ score <= 20)) ∧
  (n = 3%Z ↔ (55 <= score ∧ score < 60) ∨ (20 < score ∧ score <= 45)) ∧
  (n = 2%Z ↔ (52 <= score ∧ score < 55) ∨ (45 < score ∧ score <= 48)) ∧
  (n = 1%Z ↔ 48 < score ∧ score < 52).

(** Following the spec's words, "aligned up": for each successive pair of
    the averages sorted by period, the shorter-period average is at least
    the longer-period one (bullish stacking). *)
Fixpoint aligned_up (ma_values : list (nat * Q)) : bool :=
  match ma_values with
  | a :: (b :: _) as rest => Py.leb b.2 a.2 && aligned_up rest
  | _ => true
  end.

(** Following the spec's words, "aligned down": the mirror condition. *)
Fixpoint aligned_down (ma_values : list (nat * Q)) : bool :=
  match ma_values with
  | a :: (b :: _) as rest => Py.leb a.2 b.2 && aligned_down rest
  | _ => true
  end.

(** Following the spec's words, the trend direction: uptrend exactly when
    aligned up with the price above both MA50 and MA100, downtrend the
    mirror, otherwise sideways. *)
Definition trend_direction (ind : gmap string Q) (current_price : Q) : string :=
  let ma_values := MarketAnalyzer.ma_values ind in
  let above_ma50 := MarketAnalyzer.above ind "ma_50" current_price in
  let above_ma100 := MarketAnalyzer.above ind "ma_100" current_price in
  if aligned_up ma_values && above_ma50 && above_ma100 then "uptrend"
  else if aligned_down ma_values && negb above_ma50 && negb above_ma100
  then "downtrend"
  else "sideways".

(** No TA-Lib call raises, and every output array is as long as the price
    array it was computed from. *)
Definition well_behaved (T : MarketAnalyzer.Talib) : Prop :=
  (∀ c n, ∃ a, MarketAnalyzer.SMA T c n = Some a ∧ length a = length c) ∧
  (∀ c n, ∃ a, MarketAnalyzer.EMA T c n = Some a ∧ length a = length c) ∧
  (∀ c n, ∃ a, MarketAnalyzer.RSI T c n = Some a ∧ length a = length c) ∧
  (∀ c f s g, ∃ a1 a2 a3,
     MarketAnalyzer.MACD T c f s g = Some (a1, a2, a3) ∧
     length a1 = length c ∧ length a2 = length c ∧ length a3 = length c) ∧
  (∀ h l c k d j, ∃ a1 a2,
     MarketAnalyzer.STOCH T h l c k d j = Some (a1, a2) ∧
     length a1 = length c ∧ length a2 = length c) ∧
  (∀ c n u d, ∃ a1 a2 a3,
     MarketAnalyzer.BBANDS T c n u d = Some (a1, a2, a3) ∧
     length a1 = length c ∧ length a2 = length c ∧ length a3 = length c) ∧
  (∀ h l c n, length h = length c →
     ∃ a, MarketAnalyzer.ATR T h l c n = Some a ∧ length a = length c) ∧
  (∀ h l x y, length l = length h →
     ∃ a, MarketAnalyzer.SAR T h l x y = Some a ∧ length a = length h) ∧
  (∀ h l c n, length h = length c →
     ∃ a, MarketAnalyzer.CCI T h l c n = Some a ∧ length a = length c) ∧
  (∀ c v, ∃ a, MarketAnalyzer.OBV T c v = Some a ∧ length a = length c).

(** Every TA-Lib call the builder makes on the frame returns, each output
    array as long as the frame.  Under 50 bars the builder makes no call;
    from 50 bars on it calls the two moving averages for each configured
    period within the frame, each later family whose window test passes,
    and ATR, SAR, CCI and OBV, whose fixed windows 50 bars satisfy. *)
Definition calls_succeed (T : MarketAnalyzer.Talib) (p : MarketAnalyzer.Params)
    (df : DataFrame) : Prop :=
  let close := col_close df in
  let high := col_high df in
  let low := col_low df in
  let volume := col_volume df in
  let n := length df in
  let rsi_period := default 14%nat (MarketAnalyzer.rsi_period p) in
  let fast_period := default 12%nat (MarketAnalyzer.macd_fast_period p) in
  let slow_period := default 26%nat (MarketAnalyzer.macd_slow_period p) in
  let signal_period := default 9%nat (MarketAnalyzer.macd_signal_period p) in
  let k_period := default 9%nat (MarketAnalyzer.kdj_k_period p) in
  let d_period := default 3%nat (MarketAnalyzer.kdj_d_period p) in
  let j_period := default 3%nat (MarketAnalyzer.kdj_j_period p) in
  let bb_period := default 20%nat (MarketAnalyzer.bollinger_period p) in
  let bb_std := default 2 (MarketAnalyzer.bollinger_std_dev p) in
  (50 <= n)%nat →
  (∀ period,
     period ∈ default MarketAnalyzer.default_ma_periods
                (MarketAnalyzer.ma_periods p) →
     (period <= n)%nat →
     (∃ a, MarketAnalyzer.SMA T close period = Some a ∧ length a = n) ∧
     (∃ a, MarketAnalyzer.EMA T close period = Some a ∧ length a = n)) ∧
  ((rsi_period <= n)%nat →
   ∃ a, MarketAnalyzer.RSI T close rsi_period = Some a ∧ length a = n) ∧
  ((slow_period + signal_period <= n)%nat →
   ∃ a1 a2 a3,
     MarketAnalyzer.MACD T close fast_period slow_period signal_period
       = Some (a1, a2, a3) ∧
     length a1 = n ∧ length a2 = n ∧ length a3 = n) ∧
  ((k_period + d_period <= n)%nat →
   ∃ a1 a2,
     MarketAnalyzer.STOCH T high low close k_period d_period j_period
       = Some (a1, a2) ∧
     length a1 = n ∧ length a2 = n) ∧
  ((bb_period <= n)%nat →
   ∃ a1 a2 a3,
     MarketAnalyzer.BBANDS T close bb_period bb_std bb_std = Some (a1, a2, a3) ∧
     length a1 = n ∧ length a2 = n ∧ length a3 = n) ∧
  (∃ a, MarketAnalyzer.ATR T high low close 14 = Some a ∧ length a = n) ∧
  (∃ a, MarketAnalyzer.SAR T high low 0.02 0.2 = Some a ∧ length a = n) ∧
  (∃ a, MarketAnalyzer.CCI T high low close 14 = Some a ∧ length a = n) ∧
  (∃ a, MarketAnalyzer.OBV T close volume = Some a ∧ length a = n).

(** The indicator entries the generator reads: the scorer reads the RSI
    and the three MACD entries, the stop-loss calculator the ATR. *)
Definition read_indicators : list string :=
  ["rsi"; "macd"; "macd_signal"; "macd_hist"; "atr"].

(** Two analysis results that agree on everything [generate_signal] and
    the methods it calls read from them. *)
Definition same_reading (a b : AnalysisResult) : Prop :=
  symbol a = symbol b ∧ timeframe a = timeframe b ∧
  last_price a = last_price b ∧
  Forall (λ key, indicators a !! key = indicators b !! key) read_indicators ∧
  support_resistance a = support_resistance b ∧
  direction (trend a) = direction (trend b) ∧
  strength (trend a) = strength (trend b) ∧
  overall (sentiment a) = overall (sentiment b) ∧
  funding_rate_impact (sentiment a) = funding_rate_impact (sentiment b) ∧
  state (sentiment a) = state (sentiment b) ∧
  current (volatility a) = current (volatility b).

(** The same for the argument of [generate_signal], which may be [None]. *)
Definition same_input (a b : option AnalysisResult) : Prop :=
  match a, b with
  | Some a, Some b => same_reading a b
  | None, None => True
  | _, _ => False
  end.


(** A step of the indicator builder that completes without raising,
    keeps every entry already in the dictionary and leaves the entries
    [keys] present. *)
Definition writes (m : MarketAnalyzer.Build unit) (keys : list string) : Prop :=
  ∀ ind, ∃ ind',
    m ind = (ind', Some tt) ∧
    (∀ k, is_Some (ind !! k) → is_Some (ind' !! k)) ∧
    (∀ k, k ∈ keys → is_Some (ind' !! k)).

(** The entries of a guarded step. *)
Definition guarded (b : bool) (keys : list string) : list string :=
  if b then keys else [].

(** The order a sort on [key] puts two elements in: ascending keys, or
    descending keys when [rev] is set. *)
Definition in_order {A} (key : A → Q) (rev : bool) (x y : A) : Prop :=
  if rev then key y <= key x else key x <= key y.

(** Two levels whose prices are at least the fraction [threshold] of the
    lower price apart. *)
Definition apart (threshold : Q) (a b : Q * Q) : Prop :=
  a.2 * (1 + threshold) <= b.2.

(** A step of the indicator builder that, raising or not, adds no entry
    other than under keys satisfying [P]. *)
Definition keeps_within {A} (m : MarketAnalyzer.Build A) (P : string → Prop)
    : Prop :=
  ∀ ind ind' o, m ind = (ind', o) →
    ∀ k, is_Some (ind' !! k) → is_Some (ind !! k) ∨ P k.

(** The keys of the two moving-average families. *)
Definition average_key (k : string) : Prop :=
  String.prefix "ma_" k = true ∨ String.prefix "ema_" k = true.

(** [s.replace('/', '')]. *)
Definition without_slash (s : Helpers.str) : Helpers.str :=
  List.filter (λ c, negb (Ascii.eqb "/"%char c)) s.

End Spec.

(** * Properties *)

(** ** Comparisons and truncation *)

Lemma ltb_lt (a b : Q) : Py.ltb a b = true ↔ a < b.
Proof.
  unfold Py.ltb. rewrite negb_true_iff.
  destruct (Qle_bool b a) eqn:E.
  - apply Qle_bool_iff in E. split; [discriminate | intros H; lra].
  - split; [intros _ | reflexivity].
    apply Qnot_le_lt. intros H. apply Qle_bool_iff in H. congruence.
Qed.

Lemma ltb_ge (a b : Q) : Py.ltb a b = false ↔ b <= a.
Proof.
  destruct (Py.ltb a b) eqn:E.
  - apply ltb_lt in E. split; [discriminate | intros H; lra].
  - split; [intros _ | reflexivity].
    apply Qnot_lt_le. intros H. apply ltb_lt in H. congruence.
Qed.

Lemma leb_le (a b : Q) : Py.leb a b = true ↔ a <= b.
Proof. apply Qle_bool_iff. Qed.

Lemma leb_gt (a b : Q) : Py.leb a b = false ↔ b < a.
Proof.
  destruct (Py.leb a b) eqn:E.
  - apply leb_le in E. split; [discriminate | intros H; lra].
  - split; [intros _ | reflexivity].
    apply Qnot_le_lt. intros H. apply leb_le in H. congruence.
Qed.

Lemma eqb_eq (a b : Q) : Py.eqb a b = true ↔ a == b.
Proof. apply Qeq_bool_iff. Qed.

Lemma eqb_neq (a b : Q) : Py.eqb a b = false ↔ ¬ a == b.
Proof.
  destruct (Py.eqb a b) eqn:E.
  - apply eqb_eq in E. split; [discriminate | tauto].
  - split; [| reflexivity]. intros _ H. apply eqb_eq in H. congruence.
Qed.

(** Case analysis on every float comparison in the goal, keeping the
    outcome as an order fact. *)
Ltac compare_floats :=
  repeat match goal with
  | |- context [Py.ltb ?a ?b] =>
      let E := fresh "E" in
      destruct (Py.ltb a b) eqn:E;
      [apply ltb_lt in E | apply ltb_ge in E]
  | |- context [Py.leb ?a ?b] =>
      let E := fresh "E" in
      destruct (Py.leb a b) eqn:E;
      [apply leb_le in E | apply leb_gt in E]
  | |- context [Py.eqb ?a ?b] =>
      let E := fresh "E" in
      destruct (Py.eqb a b) eqn:E;
      [apply eqb_eq in E | apply eqb_neq in E]
  end.

Lemma min_spec (a b : Q) :
  (b < a ∧ Py.min a b = b) ∨ (a <= b ∧ Py.min a b = a).
Proof. unfold Py.min. compare_floats; auto. Qed.

Lemma max_spec (a b : Q) :
  (a < b ∧ Py.max a b = b) ∨ (b <= a ∧ Py.max a b = a).
Proof. unfold Py.max. compare_floats; auto. Qed.


(** Truncation of a non-negative float. *)
Lemma int_nonneg (x : Q) : 0 <= x → (0 <= Py.int x)%Z.
Proof.
  destruct x as [n d]. unfold Py.int, Qle. simpl. intros H.
  apply Z.quot_pos; lia.
Qed.

Lemma int_le (x : Q) (k : Z) : 0 <= x → x <= inject_Z k → (Py.int x <= k)%Z.
Proof.
  destruct x as [n d]. unfold Py.int, Qle. simpl. intros H0 H.
  rewrite Z.quot_div_nonneg by lia.
  apply Z.lt_succ_r, Z.div_lt_upper_bound; lia.
Qed.

Lemma int_ge_1 (x : Q) : 0 <= x → (1 <= Py.int x)%Z ↔ 1 <= x.
Proof.
  destruct x as [n d]. unfold Py.int, Qle. simpl. intros H0.
  rewrite Z.quot_div_nonneg by lia. split; intros H.
  - assert (n / Z.pos d * Z.pos d <= n)%Z
      by (rewrite Z.mul_comm; apply Z.mul_div_le; lia).
    nia.
  - apply Z.div_le_lower_bound; lia.
Qed.

(** ** The risk parameter calculator *)

Section Leverage.
Import SignalGenerator.

Lemma half_over_risk (r : Q) : 0 < r → 0 < 0.5 / r ∧ (1 <= 0.5 / r ↔ r <= 0.5).
Proof.
  intros Hr. split; [apply Qlt_shift_div_l; lra |]. split; intros H.
  - assert (E : 0.5 / r * r == 0.5) by (field; lra).
    assert (1 * r <= 0.5 / r * r) by (apply Qmult_le_compat_r; lra).
    lra.
  - apply Qle_shift_div_l; lra.
Qed.

Lemma base_leverage_tiers (v : Q) :
  (v < 0.02 → base_leverage v = 10) ∧
  (0.02 <= v → v < 0.05 → base_leverage v = 5) ∧
  (0.05 <= v → base_leverage v = 3).
Proof. unfold base_leverage. compare_floats; repeat split; intros; first [reflexivity | lra]. Qed.

Lemma floored_volatility_tiers (v : Volatility) :
  let raw := default 0.01 (current v) in
  (raw < 0.02 → base_leverage (floored_volatility v) = 10) ∧
  (0.02 <= raw → raw < 0.05 → base_leverage (floored_volatility v) = 5) ∧
  (0.05 <= raw → base_leverage (floored_volatility v) = 3).
Proof.
  intros raw. unfold floored_volatility. fold raw.
  destruct (Py.ltb raw 0.01) eqn:E; [apply ltb_lt in E | apply base_leverage_tiers].
  repeat split; intros; first [reflexivity | lra].
Qed.

Lemma base_leverage_cases (v : Q) :
  base_leverage v = 10 ∨ base_leverage v = 5 ∨ base_leverage v = 3.
Proof. unfold base_leverage. compare_floats; auto. Qed.

Lemma adjusted_leverage_bounds (b r : Q) :
  b = 10 ∨ b = 5 ∨ b = 3 →
  0 <= adjusted_leverage b r <= 10 ∧ (1 <= adjusted_leverage b r ↔ r <= 0.5).
Proof.
  intros Hb. unfold adjusted_leverage.
  destruct (Py.ltb 0 r) eqn:E; [apply ltb_lt in E | apply ltb_ge in E].
  - destruct (half_over_risk r E) as [Hpos Hiff].
    destruct (min_spec b (0.5 / r)) as [[Hlt ->] | [Hle ->]].
    + split; [destruct Hb as [-> | [-> | ->]]; lra | exact Hiff].
    + split; [destruct Hb as [-> | [-> | ->]]; lra |].
      rewrite <- Hiff. destruct Hb as [-> | [-> | ->]]; split; intros; lra.
  - destruct Hb as [-> | [-> | ->]]; repeat split; intros; lra.
Qed.

(** The leverage written by [_calculate_risk_parameters] on its normal
    path. *)
Lemma risk_parameters_leverage (entry stop target : Q) (d : Direction)
    (ar : AnalysisResult) :
  ¬ entry == 0 →
  suggested_leverage (_calculate_risk_parameters entry stop target d ar) =
  Z.min (Py.int (adjusted_leverage
                   (base_leverage (floored_volatility (volatility ar)))
                   (Qabs (entry - stop) / entry)))
        20.
Proof.
  intros H. apply eqb_neq in H. unfold _calculate_risk_parameters.
  rewrite H. reflexivity.
Qed.

Lemma risk_parameters_leverage_range (entry stop target : Q) (d : Direction)
    (ar : AnalysisResult) :
  (0 <= suggested_leverage (_calculate_risk_parameters entry stop target d ar) <= 20)%Z.
Proof.
  destruct (Py.eqb entry 0) eqn:E.
  - unfold _calculate_risk_parameters. rewrite E. simpl. lia.
  - apply eqb_neq in E. rewrite risk_parameters_leverage by exact E.
    destruct (adjusted_leverage_bounds
                (base_leverage (floored_volatility (volatility ar)))
                (Qabs (entry - stop) / entry)
                (base_leverage_cases _)) as [[H0 H10] _].
    pose proof (int_nonneg _ H0). pose proof (int_le _ 10 H0 H10). lia.
Qed.

End Leverage.

(** C1 (as amended).  For every generated signal the suggested leverage is
    an integer in [0,20].  On a signal with a non-zero entry it is the
    volatility base tier (10 below 2%, 5 below 5%, otherwise 3), capped at
    [min(base, 0.5/riskPercent)] when [riskPercent > 0], truncated to an
    integer and capped at 20; it is at least 1 exactly when the risk
    percentage is at most 50%. *)
Theorem suggested_leverage_range (params : SignalGenerator.Params)
    (now : Z) (ar : AnalysisResult) (s : Signal) :
  SignalGenerator.generate_signal params now (Some ar) = Some s →
  let leverage := suggested_leverage (risk_params s) in
  let raw_volatility := default 0.01 (current (volatility ar)) in
  let base :=
    SignalGenerator.base_leverage
      (SignalGenerator.floored_volatility (volatility ar)) in
  let risk := Qabs (entry_price s - stop_loss s) / entry_price s in
  (0 <= leverage <= 20)%Z ∧
  (raw_volatility < 0.02 → base = 10) ∧
  (0.02 <= raw_volatility → raw_volatility < 0.05 → base = 5) ∧
  (0.05 <= raw_volatility → base = 3) ∧
  (¬ entry_price s == 0 →
     (0 < risk →
        leverage = Z.min (Py.int (Py.min base (0.5 / risk))) 20) ∧
     (risk <= 0 → leverage = Z.min (Py.int base) 20) ∧
     ((1 <= leverage)%Z ↔ risk <= 0.5)).
Proof.
  unfold SignalGenerator.generate_signal.
  cbn [mbind option_bind].
  destruct (last_price ar) as [price |]; [| discriminate].
  intros [= <-]. cbn [risk_params entry_price stop_loss].
  split; [apply risk_parameters_leverage_range |].
  destruct (floored_volatility_tiers (volatility ar)) as (T1 & T2 & T3).
  repeat (split; [assumption |]).
  intros Hentry. rewrite risk_parameters_leverage by exact Hentry.
  unfold SignalGenerator._determine_entry_price in *.
  set (risk := Qabs (_ - _) / _).
  set (base := SignalGenerator.base_leverage _).
  destruct (adjusted_leverage_bounds base risk
              (base_leverage_cases _)) as [[H0 H10] Hiff].
  split; [| split].
  - intros Hr. apply ltb_lt in Hr.
    unfold SignalGenerator.adjusted_leverage. rewrite Hr. reflexivity.
  - intros Hr. apply ltb_ge in Hr.
    unfold SignalGenerator.adjusted_leverage. rewrite Hr. reflexivity.
  - rewrite <- Hiff, <- (int_ge_1 _ H0). lia.
Qed.

(** The amended C1 at the analysis of the generator's unit test: the
    signal exists and its leverage, 5, is in range and at least 1. *)
Lemma suggested_leverage_range_witness :
  match SignalGenerator.generate_signal Examples.generator_params 0
          (Some Examples.test_analysis) with
  | Some s =>
      (0 <= suggested_leverage (risk_params s) <= 20)%Z ∧
      (1 <= suggested_leverage (risk_params s))%Z
  | None => False
  end.
Proof.
  destruct (SignalGenerator.generate_signal _ _ _) as [s |] eqn:E.
  - pose proof (suggested_leverage_range _ _ _ _ E) as (H & _ & _ & _ & H').
    split; [exact H |].
    vm_compute in E. injection E as <-.
    apply H'; vm_compute; discriminate.
  - vm_compute in E. discriminate.
Defined.

(** C1 (as stated) fails: a long signal whose stop is the real support at
    40, 60% below the entry at 100, gets leverage [int(0.5/0.6) = 0]. *)
Lemma leverage_zero_for_distant_stop :
  (λ s, (signal_direction s, entry_price s, stop_loss s,
         suggested_leverage (risk_params s)))
    <$> SignalGenerator.generate_signal Examples.generator_params 0
          (Some Examples.distant_support)
  = Some (long, 100, 40, 0%Z)
  ∧ ¬ (∀ params now ar s,
         SignalGenerator.generate_signal params now ar = Some s →
         (1 <= suggested_leverage (risk_params s) <= 20)%Z).
Proof.
  split; [vm_compute; reflexivity |].
  intros H.
  specialize (H Examples.generator_params 0%Z (Some Examples.distant_support) _ eq_refl).
  vm_compute in H. destruct H as [H _]. apply H. reflexivity.
Qed.

(** ** Determinism of the generator *)

Section Reading.
Import SignalGenerator.

Lemma same_reading_refl (a : AnalysisResult) : Spec.same_reading a a.
Proof.
  unfold Spec.same_reading. repeat split. apply Forall_forall. reflexivity.
Qed.

Lemma same_input_refl (a : option AnalysisResult) : Spec.same_input a a.
Proof. destruct a; [apply same_reading_refl | exact I]. Qed.

Variables a b : AnalysisResult.
Hypothesis H : Spec.same_reading a b.

Lemma score_reads (params : Params) :
  _calculate_score params a = _calculate_score params b.
Proof.
  destruct H as (_ & _ & _ & Hi & _ & Hd & Hs & Ho & Hf & Hst & _).
  unfold Spec.read_indicators in Hi.
  apply Forall_cons in Hi as [Hrsi Hi]. apply Forall_cons in Hi as [Hm Hi].
  apply Forall_cons in Hi as [Hms Hi]. apply Forall_cons in Hi as [Hmh _].
  unfold _calculate_score, trend_score, oscillator_score, rsi_contribution,
    macd_contribution, sentiment_score.
  rewrite Hd, Hs, Ho, Hf, Hst, Hrsi, Hm, Hms, Hmh. reflexivity.
Qed.

Lemma stop_reads (d : Direction) (entry : Q) :
  _determine_stop_loss d entry a = _determine_stop_loss d entry b.
Proof.
  destruct H as (_ & _ & _ & Hi & Hl & _).
  unfold Spec.read_indicators in Hi.
  do 4 apply Forall_cons in Hi as [_ Hi]. apply Forall_cons in Hi as [Hatr _].
  unfold _determine_stop_loss, stop_atr. rewrite Hl, Hatr. reflexivity.
Qed.

Lemma target_reads (d : Direction) (entry stop : Q) :
  _determine_target_price d entry stop a
  = _determine_target_price d entry stop b.
Proof.
  destruct H as (_ & _ & _ & _ & Hl & _).
  unfold _determine_target_price. rewrite Hl. reflexivity.
Qed.

Lemma risk_reads (entry stop target : Q) (d : Direction) :
  _calculate_risk_parameters entry stop target d a
  = _calculate_risk_parameters entry stop target d b.
Proof.
  destruct H as (_ & _ & _ & _ & _ & _ & _ & _ & _ & _ & Hv).
  unfold _calculate_risk_parameters, floored_volatility. rewrite Hv.
  reflexivity.
Qed.

End Reading.

(** C2 (as amended).  The clock reaches the signal through [timestamp]
    only, and the analysis through the entries the generator reads only:
    two runs at any two readings of the clock, on two analyses that agree
    on those entries, both return nothing or return signals that agree on
    every field except [timestamp], which holds the clock reading of the
    run.  Every analysis agrees with itself, so this holds in particular
    for two runs on the same input. *)
Theorem generate_signal_deterministic_up_to_timestamp
    (params : SignalGenerator.Params) (now1 now2 : Z)
    (ar1 ar2 : option AnalysisResult) :
  Spec.same_input ar1 ar2 →
  match SignalGenerator.generate_signal params now1 ar1,
        SignalGenerator.generate_signal params now2 ar2 with
  | Some s1, Some s2 =>
      signal_symbol s1 = signal_symbol s2 ∧
      signal_timeframe s1 = signal_timeframe s2 ∧
      signal_direction s1 = signal_direction s2 ∧
      score s1 = score s2 ∧
      entry_price s1 = entry_price s2 ∧
      stop_loss s1 = stop_loss s2 ∧
      target_price s1 = target_price s2 ∧
      risk_params s1 = risk_params s2 ∧
      signal_strength s1 = signal_strength s2 ∧
      timestamp s1 = now1 ∧ timestamp s2 = now2
  | None, None => True
  | _, _ => False
  end.
Proof.
  destruct ar1 as [a |], ar2 as [b |]; cbn [Spec.same_input];
    try contradiction; [| intros _; exact I].
  intros H. pose proof H as (Hsym & Htf & Hp & _).
  unfold SignalGenerator.generate_signal. cbn [mbind option_bind].
  rewrite Hp. destruct (last_price b) as [price |]; [| exact I].
  cbn [mbind option_bind signal_symbol signal_timeframe signal_direction score
       entry_price stop_loss target_price risk_params signal_strength
       timestamp].
  rewrite (score_reads a b H params).
  change (SignalGenerator._determine_direction params
            (SignalGenerator._calculate_score params b) a)
    with (SignalGenerator._determine_direction params
            (SignalGenerator._calculate_score params b) b).
  unfold SignalGenerator._determine_entry_price.
  rewrite (stop_reads a b H), (target_reads a b H), (risk_reads a b H).
  rewrite Hsym, Htf. repeat split.
Qed.

(** The analysis of the unit test and its variant, which differ in
    everything the generator does not read, at two clock readings. *)
Lemma generate_signal_deterministic_up_to_timestamp_witness :
  match SignalGenerator.generate_signal Examples.generator_params 0
          (Some Examples.test_analysis),
        SignalGenerator.generate_signal Examples.generator_params 1
          (Some Examples.test_analysis_variant) with
  | Some s1, Some s2 =>
      signal_symbol s1 = signal_symbol s2 ∧
      signal_timeframe s1 = signal_timeframe s2 ∧
      signal_direction s1 = signal_direction s2 ∧
      score s1 = score s2 ∧
      entry_price s1 = entry_price s2 ∧
      stop_loss s1 = stop_loss s2 ∧
      target_price s1 = target_price s2 ∧
      risk_params s1 = risk_params s2 ∧
      signal_strength s1 = signal_strength s2 ∧
      timestamp s1 = 0%Z ∧ timestamp s2 = 1%Z
  | None, None => True
  | _, _ => False
  end.
Proof.
  apply (generate_signal_deterministic_up_to_timestamp
           Examples.generator_params 0 1 (Some Examples.test_analysis)
           (Some Examples.test_analysis_variant)).
  cbn [Spec.same_input]. unfold Spec.same_reading, Spec.read_indicators.
  repeat split; repeat constructor; vm_compute; reflexivity.
Defined.

(** C2 (as stated) fails: the same analysis at two clock readings gives
    two different signals, since [timestamp] is [pd.Timestamp.now()]. *)
Lemma generate_signal_depends_on_clock :
  SignalGenerator.generate_signal Examples.generator_params 0
    (Some Examples.test_analysis)
  ≠ SignalGenerator.generate_signal Examples.generator_params 1
    (Some Examples.test_analysis)
  ∧ ¬ (∀ params now1 now2 ar,
         SignalGenerator.generate_signal params now1 ar =
         SignalGenerator.generate_signal params now2 ar).
Proof.
  assert (H : SignalGenerator.generate_signal Examples.generator_params 0
                (Some Examples.test_analysis)
              ≠ SignalGenerator.generate_signal Examples.generator_params 1
                (Some Examples.test_analysis)).
  { intros H. apply (f_equal (fmap timestamp)) in H.
    vm_compute in H. discriminate. }
  split; [exact H |]. intros A. apply H, A.
Qed.

(** ** The star rating *)

(** The star count under the default thresholds, with the lookups done. *)
Lemma star_count_default (score : Q) :
  SignalGenerator.star_count SignalGenerator.default_thresholds score =
  Some (if Py.leb 80 score || Py.leb score 0 then 5
        else if Py.leb 60 score || Py.leb score 20 then 4
        else if Py.leb 55 score || Py.leb score 45 then 3
        else if Py.leb 52 score || Py.leb score 48 then 2
        else 1)%Z.
Proof.
  unfold SignalGenerator.star_count, SignalGenerator.or_else,
    SignalGenerator.at_least, SignalGenerator.at_most.
  replace (SignalGenerator.default_thresholds !! "strong_buy")
    with (Some 80) by (vm_compute; reflexivity).
  replace (SignalGenerator.default_thresholds !! "strong_sell")
    with (Some 0) by (vm_compute; reflexivity).
  replace (SignalGenerator.default_thresholds !! "buy")
    with (Some 60) by (vm_compute; reflexivity).
  replace (SignalGenerator.default_thresholds !! "sell")
    with (Some 20) by (vm_compute; reflexivity).
  cbn [mbind option_bind].
  destruct (Py.leb 80 score), (Py.leb score 0), (Py.leb 60 score),
    (Py.leb score 20), (Py.leb 55 score), (Py.leb score 45),
    (Py.leb 52 score), (Py.leb score 48); reflexivity.
Qed.

(** C9.  With the default thresholds the star rating follows the boundary
    table (85, 65, 56, 53 and 50 give 5, 4, 3, 2 and 1 stars; 79.9 gives 4
    and 80 gives 5), and in general each star count is given exactly on
    its band of scores, bounds included as written, whether the defaults
    come from the built-in literal or are configured explicitly. *)
Theorem star_rating_boundaries :
  let rate score :=
    stars (SignalGenerator._evaluate_signal_strength
             Examples.generator_params score (Examples.bare_analysis 100)) in
  (rate 85 = 5%Z ∧ rate 65 = 4%Z ∧ rate 56 = 3%Z ∧ rate 53 = 2%Z ∧
   rate 50 = 1%Z) ∧
  (rate 79.9 = 4%Z ∧ rate 80 = 5%Z) ∧
  ∀ (weights : option (gmap string Q)) (ar : AnalysisResult) (score : Q),
    Spec.star_bands
      (stars (SignalGenerator._evaluate_signal_strength
                (SignalGenerator.mkParams weights None) score ar)) score ∧
    Spec.star_bands
      (stars (SignalGenerator._evaluate_signal_strength
                (SignalGenerator.mkParams weights
                   (Some SignalGenerator.default_thresholds)) score ar)) score.
Proof.
  split; [vm_compute; repeat split |].
  split; [vm_compute; repeat split |].
  intros weights ar score.
  unfold SignalGenerator._evaluate_signal_strength,
    SignalGenerator.get_thresholds.
  cbn [default from_option id SignalGenerator.thresholds].
  rewrite star_count_default. cbn [stars]. unfold Spec.star_bands.
  compare_floats; cbn [orb]; repeat split; intros; try lia; try lra;
    try discriminate.
Qed.

(** ** The composite scorer *)

Section Score.
Import SignalGenerator.





End Score.




(** ** The stop-loss calculator *)

Section StopLoss.
Import SignalGenerator.

Lemma fold_max_in (xs : list Q) (x : Q) : In (fold_left Py.max xs x) (x :: xs).
Proof.
  revert x. induction xs as [| y ys IH]; intros x; [left; reflexivity |].
  cbn [fold_left]. destruct (IH (Py.max x y)) as [H | H].
  - rewrite <- H. destruct (max_spec x y) as [[_ ->] | [_ ->]].
    + right. left. reflexivity.
    + left. reflexivity.
  - right. right. exact H.
Qed.

Lemma fold_min_in (xs : list Q) (x : Q) : In (fold_left Py.min xs x) (x :: xs).
Proof.
  revert x. induction xs as [| y ys IH]; intros x; [left; reflexivity |].
  cbn [fold_left]. destruct (IH (Py.min x y)) as [H | H].
  - rewrite <- H. destruct (min_spec x y) as [[_ ->] | [_ ->]].
    + right. left. reflexivity.
    + left. reflexivity.
  - right. right. exact H.
Qed.

(** [max(l, default=d)] is the default or a member of [l]. *)
Lemma max_default_in (l : list Q) (d : Q) :
  Py.max_default l d = d ∨ In (Py.max_default l d) l.
Proof. destruct l as [| x xs]; [left; reflexivity | right; apply fold_max_in]. Qed.

Lemma min_default_in (l : list Q) (d : Q) :
  Py.min_default l d = d ∨ In (Py.min_default l d) l.
Proof. destruct l as [| x xs]; [left; reflexivity | right; apply fold_min_in]. Qed.




End StopLoss.




(** ** Short series *)

(** C8.  On fewer than 20 bars the structure classifier, the trend
    determiner and the volatility analyzer return their neutral default
    records: neutral structure of strength 0, sideways trend of strength
    0, normal volatility with current and average 0.  The guard comes
    before any computation, so nothing can raise. *)
Theorem short_series_defaults (T : MarketAnalyzer.Talib)
    (S : MarketAnalyzer.Stats) (df : DataFrame) (ind : gmap string Q) :
  (length df < 20)%nat →
  MarketAnalyzer._analyze_market_structure df ind =
    {| structure := Some "neutral"; structure_strength := Some 0;
       structure_description := Some "" |} ∧
  MarketAnalyzer._determine_trend T df ind =
    {| direction := Some "sideways"; strength := Some 0;
       trend_description := Some "" |} ∧
  MarketAnalyzer._analyze_volatility S df =
    {| current := Some 0; average := Some 0;
       volatility_state := Some "normal"; volatility_description := Some "" |}.
Proof.
  intros H. apply Nat.ltb_lt in H.
  unfold MarketAnalyzer._analyze_market_structure,
    MarketAnalyzer._determine_trend, MarketAnalyzer._analyze_volatility.
  rewrite H. repeat split.
Qed.

(** C8 on a 19-bar series with the averages of a longer one. *)
Lemma short_series_defaults_witness :
  structure_strength
    (MarketAnalyzer._analyze_market_structure (Examples.ramp 100 19)
       Examples.rising_averages) = Some 0 ∧
  strength
    (MarketAnalyzer._determine_trend Examples.talib (Examples.ramp 100 19)
       Examples.rising_averages) = Some 0 ∧
  current (MarketAnalyzer._analyze_volatility Examples.stats
             (Examples.ramp 100 19)) = Some 0.
Proof.
  assert (H : (length (Examples.ramp 100 19) < 20)%nat) by (vm_compute; lia).
  destruct (short_series_defaults Examples.talib Examples.stats
              (Examples.ramp 100 19) Examples.rising_averages H)
    as (-> & -> & ->).
  repeat split.
Defined.

(** ** The structure classifier on an empty indicator set *)

Lemma few_bars_no_indicators (T : MarketAnalyzer.Talib)
    (p : MarketAnalyzer.Params) (df : DataFrame) :
  (length df < 50)%nat → MarketAnalyzer._calculate_indicators T p df = ∅.
Proof.
  intros H. apply Nat.ltb_lt in H.
  unfold MarketAnalyzer._calculate_indicators. rewrite H. reflexivity.
Qed.

Lemma ma_entries_empty : MarketAnalyzer.ma_entries ∅ = [].
Proof. unfold MarketAnalyzer.ma_entries. rewrite map_to_list_empty. reflexivity. Qed.

(** C10.  On at least 20 bars and an empty indicator set, which is what
    the builder returns for every series under 50 bars, the structure
    classifier returns the label bearish with strength 20: the moving
    average and RSI sub-scores are 0, the MACD and Bollinger sub-scores are
    50, and 0.4·0 + 0.2·0 + 0.2·50 + 0.2·50 = 20 <= 30. *)
Theorem empty_indicators_bearish (T : MarketAnalyzer.Talib)
    (p : MarketAnalyzer.Params) (df : DataFrame) :
  (20 <= length df)%nat →
  ((length df < 50)%nat → MarketAnalyzer._calculate_indicators T p df = ∅) ∧
  (∀ price, MarketAnalyzer.ma_score ∅ price = 0 ∧
            MarketAnalyzer.rsi_score ∅ = 0 ∧
            MarketAnalyzer.macd_score ∅ = 50 ∧
            MarketAnalyzer.bb_score ∅ price = 50) ∧
  structure (MarketAnalyzer._analyze_market_structure df ∅) = Some "bearish" ∧
  (∃ v, structure_strength (MarketAnalyzer._analyze_market_structure df ∅)
        = Some v ∧ v == 20) ∧
  MarketAnalyzer._analyze_market_structure df ∅ ≠ MarketAnalyzer.structure_default.
Proof.
  intros H. split; [apply few_bars_no_indicators |].
  assert (Hsub : ∀ price, MarketAnalyzer.ma_score ∅ price = 0 ∧
                          MarketAnalyzer.rsi_score ∅ = 0 ∧
                          MarketAnalyzer.macd_score ∅ = 50 ∧
                          MarketAnalyzer.bb_score ∅ price = 50).
  { intros price. unfold MarketAnalyzer.ma_score. rewrite ma_entries_empty.
    repeat split. }
  split; [exact Hsub |].
  assert (E : (length df <? 20)%nat = false) by (apply Nat.ltb_ge; exact H).
  unfold MarketAnalyzer._analyze_market_structure. rewrite E.
  destruct (Hsub (List.last (col_close df) 0)) as (-> & -> & -> & ->).
  split; [reflexivity |]. split; [| discriminate].
  eexists. split; [reflexivity |]. reflexivity.
Qed.

(** C10 on a 20-bar series run through the indicator builder. *)
Lemma empty_indicators_bearish_witness :
  structure
    (MarketAnalyzer._analyze_market_structure Examples.short_history
       (MarketAnalyzer._calculate_indicators Examples.talib
          Examples.analyzer_params Examples.short_history))
  = Some "bearish".
Proof.
  assert (H : (20 <= length Examples.short_history)%nat) by (vm_compute; lia).
  destruct (empty_indicators_bearish Examples.talib Examples.analyzer_params
              Examples.short_history H) as (Hempty & _ & Hlabel & _).
  rewrite Hempty by (vm_compute; lia). exact Hlabel.
Defined.

(** ** The trend determiner *)

Section Trend.
Import MarketAnalyzer.

(** The flags computed by the loop are the spec's two conditions the
    other way round: [ma_aligned_up] is falsified by a shorter average
    above a longer one, which is what bullish stacking consists of. *)
Lemma alignment_loop_flags (mv : list (nat * Q)) (up down : bool) :
  alignment_loop mv (up, down) =
  (up && Spec.aligned_down mv, down && Spec.aligned_up mv).
Proof.
  revert up down. induction mv as [| a [| b rest] IH]; intros up down.
  - cbn. rewrite !andb_true_r. reflexivity.
  - cbn. rewrite !andb_true_r. reflexivity.
  - change (alignment_loop (a :: b :: rest) (up, down))
      with (alignment_loop (b :: rest)
              (if Py.ltb b.2 a.2 then false else up,
               if Py.ltb a.2 b.2 then false else down)).
    change (Spec.aligned_up (a :: b :: rest))
      with (Py.leb b.2 a.2 && Spec.aligned_up (b :: rest)).
    change (Spec.aligned_down (a :: b :: rest))
      with (Py.leb a.2 b.2 && Spec.aligned_down (b :: rest)).
    rewrite IH. unfold Py.ltb, Py.leb.
    destruct (Qle_bool a.2 b.2), (Qle_bool b.2 a.2), up, down; reflexivity.
Qed.

Lemma ma_alignment_swapped (mv : list (nat * Q)) :
  (3 <= length mv)%nat →
  ma_alignment mv = (Spec.aligned_down mv, Spec.aligned_up mv).
Proof.
  intros H. apply Nat.leb_le in H. unfold ma_alignment. rewrite H.
  apply alignment_loop_flags.
Qed.

(** What the code classifies as an uptrend: averages that do not fall as
    the period grows, under a price above MA50 and MA100. *)
Lemma determine_trend_uptrend (T : Talib) (df : DataFrame) (ind : gmap string Q) :
  (20 <= length df)%nat → (3 <= length (ma_values ind))%nat →
  let price := List.last (col_close df) 0 in
  direction (_determine_trend T df ind) = Some "uptrend" ↔
  Spec.aligned_down (ma_values ind) && above ind "ma_50" price
    && above ind "ma_100" price = true.
Proof.
  intros Hn Hm price. apply Nat.ltb_ge in Hn.
  unfold _determine_trend. rewrite Hn, (ma_alignment_swapped _ Hm).
  fold price.
  destruct (Spec.aligned_down (ma_values ind)), (Spec.aligned_up (ma_values ind)),
    (above ind "ma_50" price), (above ind "ma_100" price); cbn;
    split; intros H; first [reflexivity | discriminate].
Qed.

End Trend.

(** C3 (the code departs from it).  On the steadily rising 100-bar series
    with its own simple moving averages, the five averages are stacked
    bullishly (197 >= 194.5 >= 189.5 >= 174.5 >= 149.5) and the price 199
    is above MA50 and MA100, so the claim classifies an uptrend; the
    trend determiner sets [ma_aligned_up] to false and returns sideways. *)
Theorem bullish_stack_classified_sideways :
  let ind := Examples.rising_averages in
  let price := List.last (col_close Examples.rising) 0 in
  price == 199 ∧
  MarketAnalyzer.ma_values ind =
    [(5%nat, 197); (10%nat, 389 # 2); (20%nat, 379 # 2); (50%nat, 349 # 2);
     (100%nat, 299 # 2)] ∧
  Spec.aligned_up (MarketAnalyzer.ma_values ind) = true ∧
  MarketAnalyzer.above ind "ma_50" price = true ∧
  MarketAnalyzer.above ind "ma_100" price = true ∧
  Spec.trend_direction ind price = "uptrend" ∧
  MarketAnalyzer.ma_alignment (MarketAnalyzer.ma_values ind) = (false, true) ∧
  direction (MarketAnalyzer._determine_trend Examples.talib Examples.rising ind)
    = Some "sideways".
Proof. vm_compute. repeat split. Qed.

(** ** The indicator set builder *)

Section Builder.
Import MarketAnalyzer.

Lemma writes_ret : Spec.writes (build_ret tt) [].
Proof.
  intros ind. exists ind. split; [reflexivity |].
  split; [auto | intros k Hk; inversion Hk].
Qed.

Lemma writes_store (k : string) (v : Q) : Spec.writes (store k v) [k].
Proof.
  intros ind. exists (<[k := v]> ind). split; [reflexivity |]. split.
  - intros k' H. rewrite lookup_insert_is_Some.
    destruct (decide (k = k')); auto.
  - intros k' Hk. apply list_elem_of_singleton in Hk as ->.
    rewrite lookup_insert_eq. eauto.
Qed.

Lemma writes_seq (m1 m2 : Build unit) (ks1 ks2 : list string) :
  Spec.writes m1 ks1 → Spec.writes m2 ks2 →
  Spec.writes (m1 ;; m2) (ks1 ++ ks2).
Proof.
  intros H1 H2 ind.
  destruct (H1 ind) as (ind1 & E1 & K1 & W1).
  destruct (H2 ind1) as (ind2 & E2 & K2 & W2).
  exists ind2. unfold build_bind. rewrite E1. split; [exact E2 |]. split.
  - auto.
  - intros k Hk. apply elem_of_app in Hk as [Hk | Hk]; auto.
Qed.

Lemma writes_call {A} (o : option A) (a : A) (f : A → Build unit)
    (ks : list string) :
  o = Some a → Spec.writes (f a) ks → Spec.writes (x <- call o ;; f x) ks.
Proof.
  intros -> H ind. destruct (H ind) as (ind' & E & K & W).
  exists ind'. unfold build_bind, call. auto.
Qed.

Lemma writes_when (b : bool) (m : Build unit) (ks : list string) :
  (b = true → Spec.writes m ks) → Spec.writes (when b m) (Spec.guarded b ks).
Proof.
  intros H. destruct b; [apply H; reflexivity | apply writes_ret].
Qed.

Lemma writes_when_true (b : bool) (m : Build unit) (ks : list string) :
  b = true → Spec.writes m ks → Spec.writes (when b m) ks.
Proof. intros -> H. exact H. Qed.

Lemma writes_for_each {A} (l : list A) (body : A → Build unit)
    (keys : A → list string) :
  (∀ x, Spec.writes (body x) (keys x)) →
  Spec.writes (for_each l body) (concat (keys <$> l)).
Proof.
  intros H. induction l as [| x l IH]; [apply writes_ret |].
  cbn [for_each fmap list_fmap concat]. apply writes_seq; [apply H | exact IH].
Qed.

(** [a[-k]] exists when the array has at least [k >= 1] elements. *)
Lemma idx_neg_some {A} (a : list A) (k : nat) :
  (0 < k)%nat → (k <= length a)%nat → ∃ v, Py.idx_neg a k = Some v.
Proof.
  intros H0 Hk. unfold Py.idx_neg.
  apply Nat.leb_le in Hk as Hk'. rewrite Hk'.
  apply lookup_lt_is_Some. lia.
Qed.

(** Peel one call and one index off a step. *)
Ltac step_call H :=
  eapply writes_call; [exact H |].
Ltac step_index a k :=
  let v := fresh "v" in let E := fresh "E" in
  destruct (idx_neg_some a k) as [v E]; [lia | lia |];
  eapply writes_call; [exact E |].

Lemma writes_for_each_in {A} (l : list A) (body : A → Build unit)
    (keys : A → list string) :
  (∀ x, x ∈ l → Spec.writes (body x) (keys x)) →
  Spec.writes (for_each l body) (concat (keys <$> l)).
Proof.
  intros H. induction l as [| x l IH]; [apply writes_ret |].
  cbn [for_each fmap list_fmap concat]. apply writes_seq.
  - apply H, list_elem_of_here.
  - apply IH. intros y Hy. apply H, list_elem_of_further, Hy.
Qed.

Context (T : Talib).

(** Each step writes its entries when the one TA-Lib call it makes
    returns arrays as long as the price array. *)
Lemma writes_sma (close : list Q) (period : nat) :
  (50 <= length close)%nat →
  ((period <= length close)%nat →
   ∃ a, SMA T close period = Some a ∧ length a = length close) →
  Spec.writes (sma_entry T close period)
    (Spec.guarded (period <=? length close)%nat [ma_key period]).
Proof.
  intros Hn H. apply writes_when. intros Hw. apply Nat.leb_le in Hw.
  destruct (H Hw) as (a & Ea & La).
  step_call Ea. step_index a 1%nat. apply writes_store.
Qed.

Lemma writes_ema (close : list Q) (period : nat) :
  (50 <= length close)%nat →
  ((period <= length close)%nat →
   ∃ a, EMA T close period = Some a ∧ length a = length close) →
  Spec.writes (ema_entry T close period)
    (Spec.guarded (period <=? length close)%nat [ema_key period]).
Proof.
  intros Hn H. apply writes_when. intros Hw. apply Nat.leb_le in Hw.
  destruct (H Hw) as (a & Ea & La).
  step_call Ea. step_index a 1%nat. apply writes_store.
Qed.

Lemma writes_rsi (p : Params) (close : list Q) :
  (50 <= length close)%nat →
  ((default 14 (rsi_period p) <= length close)%nat →
   ∃ a, RSI T close (default 14%nat (rsi_period p)) = Some a ∧
        length a = length close) →
  Spec.writes (rsi_entry T p close)
    (Spec.guarded (default 14 (rsi_period p) <=? length close)%nat ["rsi"]).
Proof.
  intros Hn H. apply writes_when. intros Hw. apply Nat.leb_le in Hw.
  destruct (H Hw) as (a & Ea & La).
  step_call Ea. step_index a 1%nat. apply writes_store.
Qed.

Lemma writes_macd (p : Params) (close : list Q) :
  (50 <= length close)%nat →
  ((default 26 (macd_slow_period p) + default 9 (macd_signal_period p)
      <= length close)%nat →
   ∃ a1 a2 a3,
     MACD T close (default 12%nat (macd_fast_period p))
       (default 26%nat (macd_slow_period p))
       (default 9%nat (macd_signal_period p)) = Some (a1, a2, a3) ∧
     length a1 = length close ∧ length a2 = length close ∧
     length a3 = length close) →
  Spec.writes (macd_entries T p close)
    (Spec.guarded
       (default 26 (macd_slow_period p) + default 9 (macd_signal_period p)
          <=? length close)%nat
       ["macd"; "macd_signal"; "macd_hist"]).
Proof.
  intros Hn H. apply writes_when. intros Hw. apply Nat.leb_le in Hw.
  destruct (H Hw) as (a1 & a2 & a3 & Ea & L1 & L2 & L3).
  step_call Ea. cbv beta iota.
  step_index a1 1%nat. apply (writes_seq _ _ ["macd"]); [apply writes_store |].
  step_index a2 1%nat.
  apply (writes_seq _ _ ["macd_signal"]); [apply writes_store |].
  step_index a3 1%nat. apply writes_store.
Qed.

Lemma writes_kdj (p : Params) (high low close : list Q) :
  (50 <= length close)%nat →
  ((default 9 (kdj_k_period p) + default 3 (kdj_d_period p)
      <= length close)%nat →
   ∃ a1 a2,
     STOCH T high low close (default 9%nat (kdj_k_period p))
       (default 3%nat (kdj_d_period p))
       (default 3%nat (kdj_j_period p)) = Some (a1, a2) ∧
     length a1 = length close ∧ length a2 = length close) →
  Spec.writes (kdj_entries T p high low close)
    (Spec.guarded
       (default 9 (kdj_k_period p) + default 3 (kdj_d_period p)
          <=? length close)%nat
       ["k"; "d"; "j"]).
Proof.
  intros Hn H. apply writes_when. intros Hw. apply Nat.leb_le in Hw.
  destruct (H Hw) as (a1 & a2 & Ea & L1 & L2).
  step_call Ea. cbv beta iota.
  step_index a1 1%nat. apply (writes_seq _ _ ["k"]); [apply writes_store |].
  step_index a2 1%nat. apply (writes_seq _ _ ["d"]); apply writes_store.
Qed.

Lemma writes_bollinger (p : Params) (close : list Q) :
  (50 <= length close)%nat →
  ((default 20 (bollinger_period p) <= length close)%nat →
   ∃ a1 a2 a3,
     BBANDS T close (default 20%nat (bollinger_period p))
       (default 2 (bollinger_std_dev p))
       (default 2 (bollinger_std_dev p)) = Some (a1, a2, a3) ∧
     length a1 = length close ∧ length a2 = length close ∧
     length a3 = length close) →
  Spec.writes (bollinger_entries T p close)
    (Spec.guarded (default 20 (bollinger_period p) <=? length close)%nat
       ["bb_upper"; "bb_middle"; "bb_lower"; "bb_width"]).
Proof.
  intros Hn H. apply writes_when. intros Hw. apply Nat.leb_le in Hw.
  destruct (H Hw) as (a1 & a2 & a3 & Ea & L1 & L2 & L3).
  step_call Ea. cbv beta iota.
  step_index a1 1%nat.
  apply (writes_seq _ _ ["bb_upper"]); [apply writes_store |].
  step_index a2 1%nat.
  apply (writes_seq _ _ ["bb_middle"]); [apply writes_store |].
  step_index a3 1%nat.
  apply (writes_seq _ _ ["bb_lower"]); apply writes_store.
Qed.

Lemma writes_atr (high low close : list Q) :
  (50 <= length close)%nat →
  (∃ a, ATR T high low close 14 = Some a ∧ length a = length close) →
  Spec.writes (atr_entries T high low close) ["atr"; "atr_percent"].
Proof.
  intros Hn (a & Ea & La).
  apply writes_when_true; [apply Nat.leb_le; lia |].
  step_call Ea. step_index a 1%nat.
  apply (writes_seq _ _ ["atr"]); [apply writes_store |].
  step_index close 1%nat. apply writes_store.
Qed.

Lemma writes_sar (high low close : list Q) :
  (50 <= length close)%nat →
  (∃ a, SAR T high low 0.02 0.2 = Some a ∧ length a = length close) →
  Spec.writes (sar_entry T high low close) ["sar"].
Proof.
  intros Hn (a & Ea & La).
  apply writes_when_true; [apply Nat.leb_le; lia |].
  step_call Ea. step_index a 1%nat. apply writes_store.
Qed.

Lemma writes_cci (high low close : list Q) :
  (50 <= length close)%nat →
  (∃ a, CCI T high low close 14 = Some a ∧ length a = length close) →
  Spec.writes (cci_entry T high low close) ["cci"].
Proof.
  intros Hn (a & Ea & La).
  apply writes_when_true; [apply Nat.leb_le; lia |].
  step_call Ea. step_index a 1%nat. apply writes_store.
Qed.

Lemma writes_obv (close volume : list Q) :
  (50 <= length close)%nat →
  (∃ a, OBV T close volume = Some a ∧ length a = length close) →
  Spec.writes (obv_entries T close volume) ["obv"; "obv_change"].
Proof.
  intros Hn (a & Ea & La).
  apply writes_when_true; [apply Nat.leb_le; lia |].
  step_call Ea. step_index a 1%nat.
  apply (writes_seq _ _ ["obv"]); [apply writes_store |].
  step_index a 10%nat. apply writes_store.
Qed.

End Builder.

Lemma guarded_concat_elem (key : nat → string) (periods : list nat)
    (n period : nat) :
  period ∈ periods → (period <= n)%nat →
  key period ∈ concat ((λ x, Spec.guarded (x <=? n)%nat [key x]) <$> periods).
Proof.
  intros Hin Hle. induction Hin as [x l | x y l Hin IH];
    cbn [fmap list_fmap concat]; apply elem_of_app.
  - left. apply Nat.leb_le in Hle. rewrite Hle. apply list_elem_of_here.
  - right. apply IH, Hle.
Qed.

(** Membership in a concatenation of key lists, by position. *)
Ltac find_key :=
  repeat first
    [ apply list_elem_of_here
    | apply list_elem_of_further
    | apply elem_of_app; left; find_key; fail
    | apply elem_of_app; right ].

(** C4 (as amended).  The builder returns no entry at all for a series of
    fewer than 50 bars; for a series of at least 50 bars on which the
    TA-Lib calls it makes do not raise, it returns the entries of every
    indicator family whose own minimum window the series satisfies. *)
Theorem indicators_by_family (T : MarketAnalyzer.Talib)
    (p : MarketAnalyzer.Params) (df : DataFrame) :
  Spec.calls_succeed T p df →
  let ind := MarketAnalyzer._calculate_indicators T p df in
  let n := length df in
  let present key := is_Some (ind !! key) in
  ((n < 50)%nat → ind = ∅) ∧
  ((50 <= n)%nat →
   (∀ period,
      period ∈ default MarketAnalyzer.default_ma_periods
                 (MarketAnalyzer.ma_periods p) →
      (period <= n)%nat →
      present (MarketAnalyzer.ma_key period) ∧
      present (MarketAnalyzer.ema_key period)) ∧
   ((default 14 (MarketAnalyzer.rsi_period p) <= n)%nat → present "rsi") ∧
   ((default 26 (MarketAnalyzer.macd_slow_period p) +
     default 9 (MarketAnalyzer.macd_signal_period p) <= n)%nat →
    present "macd" ∧ present "macd_signal" ∧ present "macd_hist") ∧
   ((default 9 (MarketAnalyzer.kdj_k_period p) +
     default 3 (MarketAnalyzer.kdj_d_period p) <= n)%nat →
    present "k" ∧ present "d" ∧ present "j") ∧
   ((default 20 (MarketAnalyzer.bollinger_period p) <= n)%nat →
    present "bb_upper" ∧ present "bb_middle" ∧ present "bb_lower" ∧
    present "bb_width") ∧
   present "atr" ∧ present "atr_percent" ∧ present "sar" ∧ present "cci" ∧
   present "obv" ∧ present "obv_change").
Proof.
  intros HT ind n present.
  split; [apply few_bars_no_indicators |].
  intros Hn.
  assert (Lc : length (col_close df) = n) by apply length_fmap.
  assert (Hc : (50 <= length (col_close df))%nat) by lia.
  destruct (HT Hn)
    as (Hma & Hrsi & Hmacd & Hkdj & Hbb & Hatr & Hsar & Hcci & Hobv).
  fold n in Hma, Hrsi, Hmacd, Hkdj, Hbb, Hatr, Hsar, Hcci, Hobv.
  rewrite <- Lc in Hma, Hrsi, Hmacd, Hkdj, Hbb, Hatr, Hsar, Hcci, Hobv.
  pose proof (writes_seq _ _ _ _
    (writes_for_each_in (default MarketAnalyzer.default_ma_periods
                           (MarketAnalyzer.ma_periods p)) _ _
       (λ period Hin,
          writes_sma T (col_close df) period Hc
            (λ Hw, proj1 (Hma period Hin Hw))))
    (writes_seq _ _ _ _
    (writes_for_each_in (default MarketAnalyzer.default_ma_periods
                           (MarketAnalyzer.ma_periods p)) _ _
       (λ period Hin,
          writes_ema T (col_close df) period Hc
            (λ Hw, proj2 (Hma period Hin Hw))))
    (writes_seq _ _ _ _ (writes_rsi T p (col_close df) Hc Hrsi)
    (writes_seq _ _ _ _ (writes_macd T p (col_close df) Hc Hmacd)
    (writes_seq _ _ _ _
       (writes_kdj T p (col_high df) (col_low df) (col_close df) Hc Hkdj)
    (writes_seq _ _ _ _ (writes_bollinger T p (col_close df) Hc Hbb)
    (writes_seq _ _ _ _
       (writes_atr T (col_high df) (col_low df) (col_close df) Hc Hatr)
    (writes_seq _ _ _ _
       (writes_sar T (col_high df) (col_low df) (col_close df) Hc Hsar)
    (writes_seq _ _ _ _
       (writes_cci T (col_high df) (col_low df) (col_close df) Hc Hcci)
       (writes_obv T (col_close df) (col_volume df) Hc Hobv)))))))))) as W.
  destruct (W ∅) as (ind' & E & _ & K).
  assert (Hind : ind = ind').
  { subst ind. unfold MarketAnalyzer._calculate_indicators.
    replace (length df <? 50)%nat with false
      by (symmetry; apply Nat.ltb_ge; exact Hn).
    unfold MarketAnalyzer.returned. cbv zeta. rewrite E. reflexivity. }
  subst present. cbv beta. rewrite Hind. rewrite Lc in K.
  split; [| split; [| split; [| split; [| split]]]].
  - intros period Hin Hle. split; apply K.
    + apply elem_of_app. left. apply guarded_concat_elem; assumption.
    + apply elem_of_app. right. apply elem_of_app. left.
      apply guarded_concat_elem; assumption.
  - intros H. apply Nat.leb_le in H. apply K. rewrite H.
    unfold Spec.guarded. find_key.
  - intros H. apply Nat.leb_le in H.
    repeat split; apply K; rewrite H; unfold Spec.guarded; find_key.
  - intros H. apply Nat.leb_le in H.
    repeat split; apply K; rewrite H; unfold Spec.guarded; find_key.
  - intros H. apply Nat.leb_le in H.
    repeat split; apply K; rewrite H; unfold Spec.guarded; find_key.
  - repeat split; apply K; find_key.
Qed.

Lemma rolling_mean_length (a : list Q) (period : nat) :
  length (Examples.rolling_mean a period) = length a.
Proof. unfold Examples.rolling_mean. rewrite length_fmap. apply length_seq. Qed.

(** The stand-in for TA-Lib never raises and keeps array lengths. *)
Lemma stand_in_well_behaved : Spec.well_behaved Examples.talib.
Proof.
  unfold Spec.well_behaved, Examples.talib; cbn.
  repeat split; intros; repeat eexists;
    rewrite ?rolling_mean_length, ?length_fmap; congruence.
Qed.

(** A library that never raises makes every call of the builder
    succeed. *)
Lemma well_behaved_calls (T : MarketAnalyzer.Talib)
    (p : MarketAnalyzer.Params) (df : DataFrame) :
  Spec.well_behaved T → Spec.calls_succeed T p df.
Proof.
  intros (Hsma & Hema & Hrsi & Hmacd & Hkdj & Hbb & Hatr & Hsar & Hcci & Hobv).
  assert (Lc : length (col_close df) = length df) by apply length_fmap.
  assert (Lh : length (col_high df) = length df) by apply length_fmap.
  assert (Ll : length (col_low df) = length df) by apply length_fmap.
  unfold Spec.calls_succeed. cbv zeta. intros Hn.
  split; [intros period _ _; split |];
    [destruct (Hsma (col_close df) period) as (a & E & L);
     exists a; split; [exact E | congruence]
    |destruct (Hema (col_close df) period) as (a & E & L);
     exists a; split; [exact E | congruence] |].
  split; [intros _; edestruct Hrsi as (a & E & L);
          exists a; split; [exact E | congruence] |].
  split; [intros _; edestruct Hmacd as (a1 & a2 & a3 & E & L1 & L2 & L3);
          exists a1, a2, a3; split; [exact E | repeat split; congruence] |].
  split; [intros _; edestruct Hkdj as (a1 & a2 & E & L1 & L2);
          exists a1, a2; split; [exact E | split; congruence] |].
  split; [intros _; edestruct Hbb as (a1 & a2 & a3 & E & L1 & L2 & L3);
          exists a1, a2, a3; split; [exact E | repeat split; congruence] |].
  split; [edestruct Hatr as (a & E & L);
          [| exists a; split; [exact E | congruence]]; congruence |].
  split; [edestruct Hsar as (a & E & L);
          [| exists a; split; [exact E | congruence]]; congruence |].
  split; [edestruct Hcci as (a & E & L);
          [| exists a; split; [exact E | congruence]]; congruence |].
  edestruct Hobv as (a & E & L). exists a. split; [exact E | congruence].
Qed.

(** The amended C4 on the rising 100-bar series with the default
    configuration: the averages up to period 100 and the other families
    are present, and nothing is returned for its first 20 bars. *)
Lemma indicators_by_family_witness :
  let ind :=
    MarketAnalyzer._calculate_indicators Examples.talib
      Examples.analyzer_params Examples.rising in
  is_Some (ind !! "ma_5") ∧ is_Some (ind !! "ema_100") ∧
  is_Some (ind !! "rsi") ∧ is_Some (ind !! "macd_hist") ∧
  is_Some (ind !! "obv_change") ∧
  MarketAnalyzer._calculate_indicators Examples.talib
    Examples.analyzer_params Examples.short_history = ∅.
Proof.
  intros ind.
  destruct (indicators_by_family Examples.talib Examples.analyzer_params
              Examples.rising
              (well_behaved_calls _ _ _ stand_in_well_behaved)) as [_ H].
  destruct H as (Hma & Hrsi & Hmacd & _ & _ & _ & _ & _ & _ & _ & Hobv);
    [vm_compute; lia |].
  destruct (indicators_by_family Examples.talib Examples.analyzer_params
              Examples.short_history
              (well_behaved_calls _ _ _ stand_in_well_behaved))
    as [Hshort _].
  split; [apply (Hma 5%nat); [| vm_compute; lia] |].
  { change (5%nat ∈ [5; 10; 20; 50; 100; 200]%nat). apply list_elem_of_here. }
  split; [apply (Hma 100%nat); [| vm_compute; lia] |].
  { change (100%nat ∈ [5; 10; 20; 50; 100; 200]%nat).
    do 4 apply list_elem_of_further. apply list_elem_of_here. }
  split; [apply Hrsi; vm_compute; lia |].
  split; [apply Hmacd; vm_compute; lia |].
  split; [exact Hobv |].
  apply Hshort. vm_compute. lia.
Defined.

(** C4 (as stated) fails: a 20-bar series satisfies the windows of the
    5-, 10- and 20-period averages, of RSI and of OBV, and no TA-Lib call
    raises, yet the builder returns the empty dictionary. *)
Lemma short_history_has_no_entries :
  (length Examples.short_history = 20)%nat ∧
  MarketAnalyzer._calculate_indicators Examples.talib Examples.analyzer_params
    Examples.short_history !! MarketAnalyzer.ma_key 5 = None ∧
  MarketAnalyzer._calculate_indicators Examples.talib Examples.analyzer_params
    Examples.short_history = ∅ ∧
  ¬ (∀ T p df period,
       Spec.well_behaved T →
       period ∈ default MarketAnalyzer.default_ma_periods
                  (MarketAnalyzer.ma_periods p) →
       (period <= length df)%nat →
       is_Some (MarketAnalyzer._calculate_indicators T p df
                  !! MarketAnalyzer.ma_key period)).
Proof.
  assert (E : MarketAnalyzer._calculate_indicators Examples.talib
                Examples.analyzer_params Examples.short_history = ∅)
    by (apply few_bars_no_indicators; vm_compute; lia).
  split; [vm_compute; reflexivity |].
  split; [rewrite E; apply lookup_empty |].
  split; [exact E |].
  intros H.
  specialize (H Examples.talib Examples.analyzer_params Examples.short_history
                5%nat stand_in_well_behaved).
  rewrite E, lookup_empty in H.
  destruct H as [v Hv]; [apply list_elem_of_here | vm_compute; lia |].
  discriminate.
Qed.

(** ** The level detector *)

Section SortFacts.
Context {A : Type} (key : A → Q) (rev : bool).

Lemma before_in_order (x y : A) :
  Py.before key rev x y = true ↔ Spec.in_order key rev x y.
Proof. unfold Py.before, Spec.in_order. destruct rev; apply leb_le. Qed.

Lemma before_false (x y : A) :
  Py.before key rev x y = false → Spec.in_order key rev y x.
Proof.
  unfold Py.before, Spec.in_order.
  destruct rev; intros H; apply leb_gt in H; lra.
Qed.

Lemma in_order_trans (x y z : A) :
  Spec.in_order key rev x y → Spec.in_order key rev y z →
  Spec.in_order key rev x z.
Proof. unfold Spec.in_order. destruct rev; intros; lra. Qed.

Lemma insert_sorted_perm (x : A) (l : list A) :
  Py.insert_sorted key rev x l ≡ₚ x :: l.
Proof.
  induction l as [| y l IH]; [reflexivity |]. cbn [Py.insert_sorted].
  destruct (Py.before key rev x y); [reflexivity |].
  rewrite IH. apply Permutation_swap.
Qed.

Lemma sorted_perm (l : list A) : Py.sorted key rev l ≡ₚ l.
Proof.
  induction l as [| x l IH]; [reflexivity |]. cbn [Py.sorted].
  rewrite insert_sorted_perm, IH. reflexivity.
Qed.

Lemma insert_sorted_sorted (x : A) (l : list A) :
  StronglySorted (Spec.in_order key rev) l →
  StronglySorted (Spec.in_order key rev) (Py.insert_sorted key rev x l).
Proof.
  induction 1 as [| y l Hl IH Hy]; cbn [Py.insert_sorted].
  - repeat constructor.
  - destruct (Py.before key rev x y) eqn:E.
    + apply before_in_order in E. constructor; [constructor; assumption |].
      constructor; [exact E |].
      eapply Forall_impl; [exact Hy |]. intros z Hz.
      eapply in_order_trans; eassumption.
    + apply before_false in E. constructor; [exact IH |].
      rewrite insert_sorted_perm. constructor; assumption.
Qed.

Lemma sorted_sorted (l : list A) :
  StronglySorted (Spec.in_order key rev) (Py.sorted key rev l).
Proof.
  induction l as [| x l IH]; [constructor |]. cbn [Py.sorted].
  apply insert_sorted_sorted, IH.
Qed.

Lemma strongly_sorted_take (R : relation A) (n : nat) (l : list A) :
  StronglySorted R l → StronglySorted R (take n l).
Proof.
  intros H. revert n. induction H as [| x l Hl IH Hx]; intros [| n]; cbn;
    try constructor.
  - apply IH.
  - eapply Forall_forall. intros y Hy.
    apply (proj1 (Forall_forall _ _) Hx), (subseteq_take n l), Hy.
Qed.

(** A list sorted on [key] has its keys sorted. *)
Lemma strongly_sorted_keys (l : list A) :
  StronglySorted (Spec.in_order key rev) l →
  StronglySorted (Spec.in_order id rev) (key <$> l).
Proof.
  induction 1 as [| x l Hl IH Hx]; cbn; constructor; [exact IH |].
  apply Forall_fmap. exact Hx.
Qed.

End SortFacts.

Lemma ascending_is_Qle (l : list Q) :
  StronglySorted (Spec.in_order id false) l → StronglySorted Qle l.
Proof. intros H. exact H. Qed.

Lemma descending_is_Qge (l : list Q) :
  StronglySorted (Spec.in_order id true) l → StronglySorted (flip Qle) l.
Proof. intros H. exact H. Qed.

Section Levels.
Import MarketAnalyzer.

Lemma real_resistance_sorted (df : DataFrame) (n : nat) :
  StronglySorted Qle (real_resistance df n).
Proof.
  unfold real_resistance.
  apply ascending_is_Qle, (strongly_sorted_keys snd false),
    strongly_sorted_take, sorted_sorted.
Qed.

Lemma real_support_sorted (df : DataFrame) (n : nat) :
  StronglySorted (flip Qle) (real_support df n).
Proof.
  unfold real_support.
  apply descending_is_Qge, (strongly_sorted_keys snd true),
    strongly_sorted_take, sorted_sorted.
Qed.

Lemma real_resistance_above (df : DataFrame) (n : nat) :
  Forall (λ x, List.last (col_close df) 0 < x) (real_resistance df n).
Proof.
  unfold real_resistance, highs_above. apply Forall_fmap, Forall_forall.
  intros l Hl. apply subseteq_take in Hl. rewrite sorted_perm in Hl.
  apply list_elem_of_In, filter_In in Hl as [_ H]. apply ltb_lt in H. exact H.
Qed.

Lemma real_support_below (df : DataFrame) (n : nat) :
  Forall (λ x, x < List.last (col_close df) 0) (real_support df n).
Proof.
  unfold real_support, lows_below. apply Forall_fmap, Forall_forall.
  intros l Hl. apply subseteq_take in Hl. rewrite sorted_perm in Hl.
  apply list_elem_of_In, filter_In in Hl as [_ H]. apply ltb_lt in H. exact H.
Qed.

(** The two lists the detector returns, as permutations of the real
    levels followed by the ATR levels appended to them. *)
Lemma levels_composition (T : Talib) (df : DataFrame) (n : nat) :
  (30 <= length df)%nat →
  let r := _identify_support_resistance T df n in
  ∃ added_r added_s,
    resistance r ≡ₚ real_resistance df n ++ added_r ∧
    support r ≡ₚ real_support df n ++ added_s.
Proof.
  intros H r. subst r. apply Nat.ltb_ge in H.
  unfold _identify_support_resistance. rewrite H.
  destruct (length (real_resistance df n) <? n)%nat,
    (length (real_support df n) <? n)%nat, (last_atr T df) as [atr |];
    cbn [mbind option_bind resistance support];
    first [ exists [], []; split; rewrite ?sorted_perm, app_nil_r; reflexivity
          | eexists _, []; split; rewrite ?sorted_perm;
            first [reflexivity | rewrite app_nil_r; reflexivity]
          | eexists [], _; split; rewrite ?sorted_perm;
            first [reflexivity | rewrite app_nil_r; reflexivity]
          | eexists _, _; split; rewrite ?sorted_perm; reflexivity ].
Qed.

End Levels.

(** C7.  For every price series the detector returns a resistance list
    sorted ascending and a support list sorted descending; the levels taken
    from real local extrema lie strictly above the current price
    (resistance) and strictly below it (support), and on a series of at
    least 30 bars they are all part of the lists returned. *)
Theorem levels_sorted_and_bracketing (T : MarketAnalyzer.Talib)
    (df : DataFrame) (n_levels : nat) :
  let r := MarketAnalyzer._identify_support_resistance T df n_levels in
  let price := List.last (col_close df) 0 in
  StronglySorted Qle (resistance r) ∧
  StronglySorted (flip Qle) (support r) ∧
  Forall (λ x, price < x) (MarketAnalyzer.real_resistance df n_levels) ∧
  Forall (λ x, x < price) (MarketAnalyzer.real_support df n_levels) ∧
  ((30 <= length df)%nat →
   MarketAnalyzer.real_resistance df n_levels ⊆ resistance r ∧
   MarketAnalyzer.real_support df n_levels ⊆ support r).
Proof.
  intros r price.
  assert (Hsorted : StronglySorted Qle (resistance r) ∧
                    StronglySorted (flip Qle) (support r)).
  { subst r. unfold MarketAnalyzer._identify_support_resistance.
    destruct (length df <? 30)%nat; [split; constructor |].
    pose proof (real_resistance_sorted df n_levels).
    pose proof (real_support_sorted df n_levels).
    destruct (length (MarketAnalyzer.real_resistance df n_levels) <? n_levels)%nat,
      (length (MarketAnalyzer.real_support df n_levels) <? n_levels)%nat,
      (MarketAnalyzer.last_atr T df) as [atr |];
      cbn [mbind option_bind resistance support]; split;
      first [assumption
            | apply ascending_is_Qle, sorted_sorted
            | apply descending_is_Qge, sorted_sorted]. }
  destruct Hsorted as [Hr Hs].
  split; [exact Hr |]. split; [exact Hs |].
  split; [apply real_resistance_above |].
  split; [apply real_support_below |].
  intros H. destruct (levels_composition T df n_levels H)
    as (added_r & added_s & Pr & Ps).
  fold r in Pr, Ps. split; intros x Hx.
  - rewrite Pr. apply elem_of_app. left. exact Hx.
  - rewrite Ps. apply elem_of_app. left. exact Hx.
Qed.

(** C7 on the zigzag series: the two nearest real highs and lows are
    returned, in order, around the price 104. *)
Lemma levels_sorted_and_bracketing_witness :
  let r := MarketAnalyzer._identify_support_resistance Examples.talib
             Examples.zigzag 2 in
  resistance r = [106; 107] ∧ support r = [100; 99] ∧
  StronglySorted Qle (resistance r) ∧ StronglySorted (flip Qle) (support r) ∧
  MarketAnalyzer.real_resistance Examples.zigzag 2 ⊆ resistance r ∧
  MarketAnalyzer.real_support Examples.zigzag 2 ⊆ support r.
Proof.
  intros r.
  destruct (levels_sorted_and_bracketing Examples.talib Examples.zigzag 2)
    as (Hr & Hs & _ & _ & Hin).
  fold r in Hr, Hs, Hin.
  split; [vm_compute; reflexivity |]. split; [vm_compute; reflexivity |].
  split; [exact Hr |]. split; [exact Hs |].
  apply Hin. vm_compute. lia.
Defined.

(** * Further properties of the signal generator *)

Section Direction.
Import SignalGenerator.

Lemma direction_cases (params : Params) (score : Q) (ar : AnalysisResult)
    (buy sell : Q) :
  get_thresholds params !! "buy" = Some buy →
  get_thresholds params !! "sell" = Some sell →
  _determine_direction params score ar =
  if Py.leb buy score then long
  else if Py.leb score sell then short
  else neutral.
Proof.
  intros Hb Hs. unfold _determine_direction, at_least, at_most.
  rewrite Hb, Hs. cbn [mbind option_bind].
  destruct (Py.leb buy score), (Py.leb score sell); reflexivity.
Qed.

End Direction.

(** The direction follows the thresholds: long exactly from the buy
    threshold up, short exactly when the score is below the buy threshold
    and at most the sell threshold, neutral in between.  The buy test comes
    first, so it wins where the two overlap. *)
Theorem direction_by_thresholds (params : SignalGenerator.Params) (score : Q)
    (ar : AnalysisResult) (buy sell : Q) :
  SignalGenerator.get_thresholds params !! "buy" = Some buy →
  SignalGenerator.get_thresholds params !! "sell" = Some sell →
  (SignalGenerator._determine_direction params score ar = long ↔ buy <= score) ∧
  (SignalGenerator._determine_direction params score ar = short ↔
   score < buy ∧ score <= sell) ∧
  (SignalGenerator._determine_direction params score ar = neutral ↔
   score < buy ∧ sell < score).
Proof.
  intros Hb Hs. rewrite (direction_cases _ _ _ _ _ Hb Hs).
  compare_floats; repeat split; intros; try discriminate; try lra;
    try reflexivity; try (destruct H; lra).
Qed.

(** With the default thresholds: long from 60, short up to 20. *)
Lemma direction_by_thresholds_witness :
  (SignalGenerator._determine_direction Examples.generator_params 60
     Examples.test_analysis = long ↔ 60 <= 60) ∧
  (SignalGenerator._determine_direction Examples.generator_params 20
     Examples.test_analysis = short ↔ 20 < 60 ∧ 20 <= 20).
Proof.
  split.
  - apply (direction_by_thresholds Examples.generator_params 60
             Examples.test_analysis 60 20); reflexivity.
  - apply (direction_by_thresholds Examples.generator_params 20
             Examples.test_analysis 60 20); reflexivity.
Defined.

Section Stars.
Import SignalGenerator.

Lemma star_count_range (th : gmap string Q) (score : Q) (n : Z) :
  star_count th score = Some n → (1 <= n <= 5)%Z.
Proof.
  unfold star_count, or_else, at_least, at_most.
  destruct (th !! "strong_buy") as [sb |]; cbn [mbind option_bind];
    [| discriminate].
  destruct (Py.leb sb score); cbn [mbind option_bind].
  { intros [= <-]. lia. }
  destruct (th !! "strong_sell") as [ss |]; cbn [mbind option_bind];
    [| discriminate].
  destruct (Py.leb score ss); cbn [mbind option_bind].
  { intros [= <-]. lia. }
  destruct (th !! "buy") as [b |]; cbn [mbind option_bind]; [| discriminate].
  destruct (Py.leb b score); cbn [mbind option_bind].
  { intros [= <-]. lia. }
  destruct (th !! "sell") as [s |]; cbn [mbind option_bind]; [| discriminate].
  destruct (Py.leb score s); cbn [mbind option_bind].
  { intros [= <-]. lia. }
  destruct (Py.leb 55 score || Py.leb score 45);
    [intros [= <-]; lia |].
  destruct (Py.leb 52 score || Py.leb score 48); intros [= <-]; lia.
Qed.

(** With the four thresholds present, a score at or through the buy or
    the sell threshold gets at least four stars. *)
Lemma star_count_directional (th : gmap string Q) (score sb ss b s : Q) :
  th !! "strong_buy" = Some sb → th !! "strong_sell" = Some ss →
  th !! "buy" = Some b → th !! "sell" = Some s →
  b <= score ∨ score <= s →
  ∃ n, star_count th score = Some n ∧ (4 <= n)%Z.
Proof.
  intros H1 H2 H3 H4 Hd.
  unfold star_count, or_else, at_least, at_most.
  rewrite H1, H2, H3, H4. cbn [mbind option_bind].
  destruct (Py.leb sb score); cbn [mbind option_bind];
    [eexists; split; [reflexivity | lia] |].
  destruct (Py.leb score ss); cbn [mbind option_bind];
    [eexists; split; [reflexivity | lia] |].
  destruct (Py.leb b score) eqn:Eb; cbn [mbind option_bind];
    [eexists; split; [reflexivity | lia] |].
  destruct (Py.leb score s) eqn:Es; cbn [mbind option_bind];
    [eexists; split; [reflexivity | lia] |].
  apply leb_gt in Eb, Es. exfalso. destruct Hd; lra.
Qed.

End Stars.

(** The star rating is always between 1 and 5, also when a threshold key
    is missing and the handler's rating of 3 is returned; the timing reads
    "enter" and the reliability "highly reliable" exactly on 4 or 5 stars. *)
Theorem stars_range_and_labels (params : SignalGenerator.Params) (score : Q)
    (ar : AnalysisResult) :
  let r := SignalGenerator._evaluate_signal_strength params score ar in
  (1 <= stars r <= 5)%Z ∧
  ((4 <= stars r)%Z ↔ timing r = "建议进场") ∧
  ((4 <= stars r)%Z ↔ reliability r = "高度可靠").
Proof.
  unfold SignalGenerator._evaluate_signal_strength.
  destruct (SignalGenerator.star_count _ score) as [n |] eqn:E; cbn.
  - apply star_count_range in E.
    unfold SignalGenerator.timing_of, SignalGenerator.reliability_of.
    split; [exact E |].
    destruct (4 <=? n)%Z eqn:E4; [apply Z.leb_le in E4 | apply Z.leb_gt in E4];
      [repeat split; intros; first [reflexivity | lia] |].
    destruct (3 <=? n)%Z, (2 <=? n)%Z; repeat split; intros;
      first [lia | discriminate].
  - repeat split; intros; first [lia | discriminate].
Qed.

(** A witness of the two equivalences: four stars at a score of 65. *)
Lemma stars_range_and_labels_witness :
  timing (SignalGenerator._evaluate_signal_strength Examples.generator_params
            65 Examples.test_analysis) = "建议进场".
Proof.
  apply (stars_range_and_labels Examples.generator_params 65
           Examples.test_analysis).
  vm_compute. discriminate.
Defined.

(** When the four thresholds are configured, a long or short signal has
    at least four stars; with the default thresholds a signal is long or
    short exactly when it has four or five stars. *)
Theorem directional_signal_stars (params : SignalGenerator.Params) (score : Q)
    (ar : AnalysisResult) :
  let d := SignalGenerator._determine_direction params score ar in
  let n := stars (SignalGenerator._evaluate_signal_strength params score ar) in
  (is_Some (SignalGenerator.get_thresholds params !! "strong_buy") →
   is_Some (SignalGenerator.get_thresholds params !! "strong_sell") →
   is_Some (SignalGenerator.get_thresholds params !! "sell") →
   d ≠ neutral → (4 <= n)%Z) ∧
  (SignalGenerator.thresholds params = None → (d ≠ neutral ↔ (4 <= n)%Z)).
Proof.
  intros d n. split.
  - intros [sb Hsb] [ss Hss] [s Hs] Hd. subst d n.
    destruct (SignalGenerator.get_thresholds params !! "buy") as [b |] eqn:Hb.
    + rewrite (direction_cases _ _ _ _ _ Hb Hs) in Hd.
      destruct (star_count_directional _ score _ _ _ _ Hsb Hss Hb Hs)
        as (k & Ek & Hk).
      { destruct (Py.leb b score) eqn:E1; [left; apply leb_le, E1 |].
        destruct (Py.leb score s) eqn:E2; [right; apply leb_le, E2 |].
        congruence. }
      unfold SignalGenerator._evaluate_signal_strength. rewrite Ek. exact Hk.
    + exfalso. apply Hd. unfold SignalGenerator._determine_direction,
        SignalGenerator.at_least. rewrite Hb. reflexivity.
  - intros Hth. subst d n.
    assert (Hb : SignalGenerator.get_thresholds params !! "buy" = Some 60)
      by (unfold SignalGenerator.get_thresholds; rewrite Hth;
          vm_compute; reflexivity).
    assert (Hs : SignalGenerator.get_thresholds params !! "sell" = Some 20)
      by (unfold SignalGenerator.get_thresholds; rewrite Hth;
          vm_compute; reflexivity).
    rewrite (direction_cases _ _ _ _ _ Hb Hs).
    unfold SignalGenerator._evaluate_signal_strength,
      SignalGenerator.get_thresholds.
    rewrite Hth. cbn [default from_option id].
    rewrite star_count_default. cbn [stars].
    compare_floats; cbn [orb]; split; intros; try lia; try discriminate;
      try congruence; lra.
Qed.

(** At the default configuration a score of 65 is long with four stars. *)
Lemma directional_signal_stars_witness :
  (4 <= stars (SignalGenerator._evaluate_signal_strength
                 Examples.generator_params 65 Examples.test_analysis))%Z.
Proof.
  apply (directional_signal_stars Examples.generator_params 65
           Examples.test_analysis); [reflexivity |].
  vm_compute. discriminate.
Defined.

(** When one of the four weight keys is missing, the lookup raises and
    the scorer returns the neutral score 50 whatever the analysis says. *)
Theorem score_without_weight_key (params : SignalGenerator.Params)
    (ar : AnalysisResult) (key : string) :
  key ∈ ["trend"; "oscillators"; "volume"; "sentiment"] →
  SignalGenerator.get_weights params !! key = None →
  SignalGenerator._calculate_score params ar = 50.
Proof.
  intros Hk Hnone. unfold SignalGenerator._calculate_score.
  repeat (apply elem_of_cons in Hk as [-> | Hk]);
    try (inversion Hk; fail);
    rewrite Hnone;
    repeat match goal with
    | |- context [match ?m !! ?k with _ => _ end] => destruct (m !! k)
    end; reflexivity.
Qed.

(** A configuration without the volume weight scores the bullish unit-test
    analysis at 50. *)
Lemma score_without_weight_key_witness :
  SignalGenerator._calculate_score
    (SignalGenerator.mkParams
       (Some (<["trend" := 0.5]> (<["oscillators" := 0.3]>
                (<["sentiment" := 0.2]> ∅)))) None)
    Examples.test_analysis = 50.
Proof.
  apply (score_without_weight_key _ _ "volume").
  - do 2 apply list_elem_of_further. apply list_elem_of_here.
  - vm_compute. reflexivity.
Defined.

Section StopAndTarget.
Import SignalGenerator.

(** A quotient by a positive entry that is not below 1% bounds the
    numerator. *)
Lemma quotient_not_below (x entry : Q) :
  0 < entry → 0.01 <= x / entry → 0.01 * entry <= x.
Proof.
  intros He H.
  assert (E : x / entry * entry == x) by (field; lra).
  assert (0.01 * entry <= x / entry * entry)
    by (apply Qmult_le_compat_r; lra).
  lra.
Qed.

Lemma fold_min_le (xs : list Q) (x : Q) :
  fold_left Py.min xs x <= x ∧ Forall (λ y, fold_left Py.min xs x <= y) xs.
Proof.
  revert x. induction xs as [| y ys IH]; intros x; cbn [fold_left].
  - split; [lra | constructor].
  - destruct (IH (Py.min x y)) as [H1 H2].
    destruct (min_spec x y) as [[Hlt E] | [Hle E]]; rewrite E in *.
    + split; [lra |]. constructor; assumption.
    + split; [exact H1 |]. constructor; [lra | assumption].
Qed.

Lemma fold_max_ge (xs : list Q) (x : Q) :
  x <= fold_left Py.max xs x ∧ Forall (λ y, y <= fold_left Py.max xs x) xs.
Proof.
  revert x. induction xs as [| y ys IH]; intros x; cbn [fold_left].
  - split; [lra | constructor].
  - destruct (IH (Py.max x y)) as [H1 H2].
    destruct (max_spec x y) as [[Hlt E] | [Hle E]]; rewrite E in *.
    + split; [lra |]. constructor; assumption.
    + split; [exact H1 |]. constructor; [lra | assumption].
Qed.

Lemma min_default_le (l : list Q) (d : Q) :
  Forall (λ y, Py.min_default l d <= y) l.
Proof.
  destruct l as [| x xs]; [constructor |]. cbn [Py.min_default].
  destruct (fold_min_le xs x). constructor; assumption.
Qed.

Lemma max_default_ge (l : list Q) (d : Q) :
  Forall (λ y, y <= Py.max_default l d) l.
Proof.
  destruct l as [| x xs]; [constructor |]. cbn [Py.max_default].
  destruct (fold_max_ge xs x). constructor; assumption.
Qed.

(** The next level above the entry is no further than any listed level
    above the entry. *)
Lemma next_above_nearest (levels : list Q) (entry d : Q) :
  Forall (λ r, entry < r →
               Py.min_default (List.filter (λ r, Py.ltb entry r) levels) d <= r)
         levels.
Proof.
  apply Forall_forall. intros r Hr Hlt.
  pose proof (min_default_le (List.filter (λ r, Py.ltb entry r) levels) d) as H.
  apply (proj1 (Forall_forall _ _) H).
  apply list_elem_of_In, filter_In. split; [apply list_elem_of_In, Hr |].
  apply ltb_lt, Hlt.
Qed.

Lemma next_below_nearest (levels : list Q) (entry d : Q) :
  Forall (λ s, s < entry →
               s <= Py.max_default (List.filter (λ s, Py.ltb s entry) levels) d)
         levels.
Proof.
  apply Forall_forall. intros s Hs Hlt.
  pose proof (max_default_ge (List.filter (λ s, Py.ltb s entry) levels) d) as H.
  apply (proj1 (Forall_forall _ _) H).
  apply list_elem_of_In, filter_In. split; [apply list_elem_of_In, Hs |].
  apply ltb_lt, Hlt.
Qed.

(** The long target, between the entry and twice the stop distance above
    it, and not beyond any resistance above the entry. *)
Lemma long_target_bounds (entry stop : Q) (ar : AnalysisResult) :
  let t := _determine_target_price long entry stop ar in
  let far := entry + 2 * Qabs (entry - stop) in
  (t == far ∨ entry < t) ∧ t <= far ∧
  Forall (λ r, entry < r → t <= r) (resistance (support_resistance ar)).
Proof.
  intros t far. subst t. unfold _determine_target_price.
  set (tbr := entry + 2.0 * Qabs (entry - stop)).
  assert (Htbr : tbr == far) by (subst tbr far; lra).
  destruct (resistance (support_resistance ar)) as [| r0 rs] eqn:Er.
  { split; [left; exact Htbr |]. split; [lra | constructor]. }
  rewrite <- Er. clear Er r0 rs.
  set (levels := resistance (support_resistance ar)).
  set (next := Py.min_default (List.filter (λ r, Py.ltb entry r) levels) tbr).
  pose proof (next_above_nearest levels entry tbr) as Hnear. fold next in Hnear.
  assert (Hnext : next = tbr ∨ entry < next).
  { subst next. destruct (min_default_in
      (List.filter (λ r, Py.ltb entry r) levels) tbr) as [-> | Hin];
      [left; reflexivity | right].
    apply filter_In in Hin as [_ H]. apply ltb_lt, H. }
  destruct (min_spec tbr next) as [[Hlt ->] | [Hle ->]].
  - split; [destruct Hnext as [E | H]; [rewrite E in Hlt; lra | right; exact H] |].
    split; [lra | exact Hnear].
  - split; [left; exact Htbr |]. split; [lra |].
    eapply Forall_impl; [exact Hnear |]. cbn. intros r H Hr.
    specialize (H Hr). lra.
Qed.

Lemma short_target_bounds (entry stop : Q) (ar : AnalysisResult) :
  let t := _determine_target_price short entry stop ar in
  let far := entry - 2 * Qabs (entry - stop) in
  (t == far ∨ t < entry) ∧ far <= t ∧
  Forall (λ s, s < entry → s <= t) (support (support_resistance ar)).
Proof.
  intros t far. subst t. unfold _determine_target_price.
  set (tbr := entry - 2.0 * Qabs (entry - stop)).
  assert (Htbr : tbr == far) by (subst tbr far; lra).
  destruct (support (support_resistance ar)) as [| s0 ss] eqn:Es.
  { split; [left; exact Htbr |]. split; [lra | constructor]. }
  rewrite <- Es. clear Es s0 ss.
  set (levels := support (support_resistance ar)).
  set (next := Py.max_default (List.filter (λ s, Py.ltb s entry) levels) tbr).
  pose proof (next_below_nearest levels entry tbr) as Hnear. fold next in Hnear.
  assert (Hnext : next = tbr ∨ next < entry).
  { subst next. destruct (max_default_in
      (List.filter (λ s, Py.ltb s entry) levels) tbr) as [-> | Hin];
      [left; reflexivity | right].
    apply filter_In in Hin as [_ H]. apply ltb_lt, H. }
  destruct (max_spec tbr next) as [[Hlt ->] | [Hle ->]].
  - split; [destruct Hnext as [E | H]; [rewrite E in Hlt; lra | right; exact H] |].
    split; [lra | exact Hnear].
  - split; [left; exact Htbr |]. split; [lra |].
    eapply Forall_impl; [exact Hnear |]. cbn. intros s H Hs.
    specialize (H Hs). lra.
Qed.

End StopAndTarget.

(** With listed levels the stop is never closer than 1% of a positive
    entry: it is the nearest level when that is at least 1% away, and 2%
    away otherwise. *)
Theorem stop_distance_with_levels (entry : Q) (ar : AnalysisResult) :
  0 < entry →
  (support (support_resistance ar) ≠ [] →
   let stop := SignalGenerator._determine_stop_loss long entry ar in
   0.01 * entry <= entry - stop ∧
   (stop = entry * 0.98 ∨ stop ∈ support (support_resistance ar))) ∧
  (resistance (support_resistance ar) ≠ [] →
   let stop := SignalGenerator._determine_stop_loss short entry ar in
   0.01 * entry <= stop - entry ∧
   (stop = entry * 1.02 ∨ stop ∈ resistance (support_resistance ar))).
Proof.
  intros He. unfold SignalGenerator._determine_stop_loss. split.
  - destruct (support (support_resistance ar)) as [| s0 ss] eqn:Es;
      [congruence | intros _]. rewrite <- Es.
    set (levels := support (support_resistance ar)).
    set (ns := Py.max_default _ _).
    assert (Hns : ns = entry * 0.98 ∨ ns ∈ levels).
    { subst ns. destruct (max_default_in
        (List.filter (λ s, Py.ltb s entry) levels) (entry * 0.98)) as [-> | Hin];
        [left; reflexivity | right].
      apply filter_In in Hin as [H _]. apply list_elem_of_In, H. }
    cbv zeta.
    destruct (Py.eqb entry 0) eqn:E0; [apply eqb_eq in E0; lra |].
    destruct (Py.ltb ((entry - ns) / entry) 0.01) eqn:E1;
      [apply ltb_lt in E1 | apply ltb_ge in E1].
    + split; [lra | left; reflexivity].
    + split; [apply quotient_not_below; assumption | exact Hns].
  - destruct (resistance (support_resistance ar)) as [| r0 rs] eqn:Er;
      [congruence | intros _]. rewrite <- Er.
    set (levels := resistance (support_resistance ar)).
    set (nr := Py.min_default _ _).
    assert (Hnr : nr = entry * 1.02 ∨ nr ∈ levels).
    { subst nr. destruct (min_default_in
        (List.filter (λ r, Py.ltb entry r) levels) (entry * 1.02)) as [-> | Hin];
        [left; reflexivity | right].
      apply filter_In in Hin as [H _]. apply list_elem_of_In, H. }
    cbv zeta.
    destruct (Py.eqb entry 0) eqn:E0; [apply eqb_eq in E0; lra |].
    destruct (Py.ltb ((nr - entry) / entry) 0.01) eqn:E1;
      [apply ltb_lt in E1 | apply ltb_ge in E1].
    + split; [lra | left; reflexivity].
    + split; [apply quotient_not_below; assumption | exact Hnr].
Qed.

(** On the unit-test analysis the long stop is the support 39000, 2.5%
    below the entry 40000. *)
Lemma stop_distance_with_levels_witness :
  0.01 * 40000 <=
  40000 - SignalGenerator._determine_stop_loss long 40000 Examples.test_analysis.
Proof.
  apply (stop_distance_with_levels 40000 Examples.test_analysis);
    [reflexivity | vm_compute; discriminate].
Defined.

(** The target lies on the profit side of the entry, never further than
    twice the stop distance and never beyond a listed level on the way:
    for long, no resistance above the entry is below the target; for
    short, no support below the entry is above it; neutral targets the
    entry itself. *)
Theorem target_price_bounds (entry stop : Q) (ar : AnalysisResult) :
  let distance := Qabs (entry - stop) in
  let long_target := SignalGenerator._determine_target_price long entry stop ar in
  let short_target := SignalGenerator._determine_target_price short entry stop ar in
  (entry <= long_target ∧ long_target <= entry + 2 * distance ∧
   (¬ stop == entry → entry < long_target) ∧
   Forall (λ r, entry < r → long_target <= r)
          (resistance (support_resistance ar))) ∧
  (entry - 2 * distance <= short_target ∧ short_target <= entry ∧
   (¬ stop == entry → short_target < entry) ∧
   Forall (λ s, s < entry → s <= short_target)
          (support (support_resistance ar))) ∧
  SignalGenerator._determine_target_price neutral entry stop ar = entry.
Proof.
  intros distance long_target short_target.
  assert (Hd : 0 <= distance) by apply Qabs_nonneg.
  assert (Hpos : ¬ stop == entry → 0 < distance).
  { intros Hne. subst distance.
    destruct (Qlt_le_dec 0 (Qabs (entry - stop))) as [H | H]; [exact H |].
    exfalso. apply Hne.
    assert (Qabs (entry - stop) == 0) by lra.
    revert H0. apply Qabs_case; intros; lra. }
  destruct (long_target_bounds entry stop ar) as (L1 & L2 & L3).
  destruct (short_target_bounds entry stop ar) as (S1 & S2 & S3).
  fold long_target distance in L1, L2, L3.
  fold short_target distance in S1, S2, S3.
  split; [| split; [| reflexivity]].
  - split; [destruct L1; lra |]. split; [exact L2 |]. split; [| exact L3].
    intros Hne. specialize (Hpos Hne). destruct L1; lra.
  - split; [exact S2 |]. split; [destruct S1; lra |]. split; [| exact S3].
    intros Hne. specialize (Hpos Hne). destruct S1; lra.
Qed.

(** On the unit-test analysis, entry 40000 and stop 39000: the long
    target is the resistance 41000, short of the 42000 of the risk rule. *)
Lemma target_price_bounds_witness :
  40000 < SignalGenerator._determine_target_price long 40000 39000
            Examples.test_analysis
  ∧ SignalGenerator._determine_target_price long 40000 39000
      Examples.test_analysis <= 41000.
Proof.
  destruct (target_price_bounds 40000 39000 Examples.test_analysis)
    as ((_ & _ & H & Hr) & _).
  split; [apply H; vm_compute; discriminate |].
  apply (proj1 (Forall_forall _ _) Hr 41000);
    [apply list_elem_of_here | reflexivity].
Defined.

Section Geometry.
Import SignalGenerator.



(** The target of any direction is within twice the stop distance. *)
Lemma target_within_twice (d : Direction) (entry stop : Q) (ar : AnalysisResult) :
  Qabs (_determine_target_price d entry stop ar - entry)
  <= 2 * Qabs (entry - stop).
Proof.
  pose proof (Qabs_nonneg (entry - stop)) as Hd.
  destruct d.
  - destruct (long_target_bounds entry stop ar) as (L1 & L2 & _).
    apply Qabs_case; intros; destruct L1; lra.
  - destruct (short_target_bounds entry stop ar) as (S1 & S2 & _).
    apply Qabs_case; intros; destruct S1; lra.
  - change (_determine_target_price neutral entry stop ar) with entry.
    apply Qabs_case; intros; lra.
Qed.

Lemma quotient_nonneg (x e : Q) : 0 <= x → 0 < e → 0 <= x / e.
Proof. intros Hx He. apply Qle_shift_div_l; lra. Qed.

Lemma quotient_negative_divisor (x e : Q) : 0 <= x → e < 0 → x / e <= 0.
Proof.
  intros Hx He. destruct (Qlt_le_dec 0 (x / e)) as [H | H]; [| exact H].
  exfalso. assert (E : e * (x / e) == x) by (field; lra).
  assert (e * (x / e) < 0 * (x / e))
    by (apply Qmult_lt_compat_r; assumption).
  lra.
Qed.

(** The risk/reward ratio and the position size computed from a target
    within twice the stop distance. *)
Lemma ratio_and_position (entry stop target : Q) (d : Direction)
    (ar : AnalysisResult) :
  Qabs (target - entry) <= 2 * Qabs (entry - stop) →
  let rp := _calculate_risk_parameters entry stop target d ar in
  0 <= risk_reward_ratio rp <= 2 ∧ 0 <= position_size_percent rp <= 20.
Proof.
  intros Ht. unfold _calculate_risk_parameters.
  destruct (Py.eqb entry 0) eqn:E0; [cbn; split; split; discriminate |].
  apply eqb_neq in E0. cbn [risk_reward_ratio position_size_percent].
  set (risk := Qabs (entry - stop) / entry).
  set (reward := Qabs (target - entry) / entry).
  set (rrr := if Py.ltb 0 risk then reward / risk else 0).
  assert (Hrrr : 0 <= rrr <= 2).
  { subst rrr. destruct (Py.ltb 0 risk) eqn:Er; [apply ltb_lt in Er | lra].
    destruct (Qlt_le_dec 0 entry) as [He | He].
    - assert (H0 : 0 <= reward)
        by (apply quotient_nonneg; [apply Qabs_nonneg | exact He]).
      assert (H2 : reward <= 2 * risk).
      { subst reward risk. unfold Qdiv.
        assert (Hinv : 0 <= / entry)
          by (apply Qlt_le_weak, Qinv_lt_0_compat, He).
        assert (Qabs (target - entry) * / entry
                <= 2 * Qabs (entry - stop) * / entry)
          by (apply Qmult_le_compat_r; assumption).
        lra. }
      split; [apply quotient_nonneg; assumption |].
      apply Qle_shift_div_r; [exact Er | exact H2].
    - exfalso.
      assert (risk <= 0); [| lra].
      apply quotient_negative_divisor; [apply Qabs_nonneg |].
      destruct (Qlt_le_dec entry 0) as [H | H]; [exact H |].
      exfalso. apply E0. lra. }
  split; [exact Hrrr |].
  destruct (min_spec (0.1 * rrr) 0.3) as [[H E] | [H E]]; rewrite E; lra.
Qed.

(** Truncation does not exceed a non-negative float. *)
Lemma int_le_self (x : Q) : 0 <= x → inject_Z (Py.int x) <= x.
Proof.
  destruct x as [n d]. unfold Py.int, Qle. cbn. intros H.
  rewrite Z.quot_div_nonneg by lia. rewrite Z.mul_1_r.
  rewrite Z.mul_comm. apply Z.mul_div_le. lia.
Qed.

(** The leverage never exceeds the cap [0.5 / risk_percent], where
    [risk_percent] is the fraction the method computes. *)
Lemma leverage_under_cap (entry stop target : Q) (d : Direction)
    (ar : AnalysisResult) :
  0 < entry → ¬ stop == entry →
  inject_Z (suggested_leverage
              (_calculate_risk_parameters entry stop target d ar))
  <= 0.5 / (Qabs (entry - stop) / entry).
Proof.
  intros He Hs.
  assert (E0 : ¬ entry == 0) by lra.
  rewrite risk_parameters_leverage by exact E0.
  set (risk := Qabs (entry - stop) / entry).
  set (base := base_leverage _).
  assert (Hd : 0 < Qabs (entry - stop)).
  { destruct (Q_dec entry stop) as [[H | H] | H].
    - rewrite Qabs_neg by lra. lra.
    - rewrite Qabs_pos by lra. lra.
    - exfalso. apply Hs. symmetry. exact H. }
  assert (Hr : 0 < risk) by (apply Qlt_shift_div_l; lra).
  destruct (adjusted_leverage_bounds base risk (base_leverage_cases _))
    as [[H0 _] _].
  pose proof (int_le_self _ H0) as Hint.
  set (adj := adjusted_leverage base risk) in *.
  assert (Hadj : adj <= 0.5 / risk).
  { subst adj. unfold adjusted_leverage.
    replace (Py.ltb 0 risk) with true by (symmetry; apply ltb_lt, Hr).
    destruct (min_spec base (0.5 / risk)) as [[? ->] | [? ->]]; lra. }
  apply Qle_trans with (inject_Z (Py.int adj)); [| lra].
  rewrite <- Zle_Qle. lia.
Qed.

End Geometry.



(** For every generated signal with a positive entry and a stop away
    from it, the suggested leverage is at most [0.5 / risk_percent], with
    [risk_percent = abs(entry_price - stop_loss) / entry_price] as the
    method computes it: the cap of the method is never exceeded, whatever
    the volatility tier. *)
Theorem signal_leverage_cap (params : SignalGenerator.Params) (now : Z)
    (ar : option AnalysisResult) (s : Signal) :
  SignalGenerator.generate_signal params now ar = Some s →
  0 < entry_price s → ¬ stop_loss s == entry_price s →
  inject_Z (suggested_leverage (risk_params s))
  <= 0.5 / (Qabs (entry_price s - stop_loss s) / entry_price s).
Proof.
  unfold SignalGenerator.generate_signal.
  destruct ar as [ar |]; cbn [mbind option_bind]; [| discriminate].
  destruct (last_price ar) as [price |]; [| discriminate].
  intros [= <-]. cbn [risk_params entry_price stop_loss].
  apply leverage_under_cap.
Qed.

(** The signal of the unit-test analysis, long from 40000 with the stop
    at 39000: the leverage is at most 0.5 / 0.025 = 20. *)
Lemma signal_leverage_cap_witness :
  match SignalGenerator.generate_signal Examples.generator_params 0
          (Some Examples.test_analysis) with
  | Some s => inject_Z (suggested_leverage (risk_params s)) <= 20
  | None => False
  end.
Proof.
  destruct (SignalGenerator.generate_signal _ _ _) as [s |] eqn:E.
  - pose proof (signal_leverage_cap _ _ _ _ E) as H.
    vm_compute in E. injection E as <-.
    cbn [entry_price stop_loss risk_params] in H.
    apply Qle_trans with (0.5 / (Qabs (40000 - 39000) / 40000)).
    + apply H; [reflexivity | discriminate].
    + discriminate.
  - vm_compute in E. discriminate.
Defined.

(** * Further properties of the market analyzer *)

Section TrendMore.
Import MarketAnalyzer.

Lemma above_present (ind : gmap string Q) (key : string) (price : Q) :
  above ind key price = true → ∃ ma, ind !! key = Some ma ∧ ma < price.
Proof.
  unfold above. destruct (ind !! key) as [ma |]; [| discriminate].
  intros H. apply ltb_lt in H. eauto.
Qed.

Lemma above_absent (ind : gmap string Q) (key : string) (price : Q) :
  ind !! key = None → above ind key price = false.
Proof. unfold above. intros ->. reflexivity. Qed.

Lemma ma_alignment_few (mv : list (nat * Q)) :
  (length mv < 3)%nat → ma_alignment mv = (true, true).
Proof.
  intros H. unfold ma_alignment.
  replace (3 <=? length mv)%nat with false
    by (symmetry; apply Nat.leb_gt; exact H).
  reflexivity.
Qed.

End TrendMore.

(** The trend determiner reports an uptrend only when both MA50 and MA100
    are in the indicator set and the price is above both.  When neither is
    there and fewer than three of the shorter averages are, as for every
    series of 20 to 49 bars, it reports a downtrend whatever the prices
    do. *)
Theorem trend_without_long_averages (T : MarketAnalyzer.Talib)
    (df : DataFrame) (ind : gmap string Q) :
  (20 <= length df)%nat →
  let price := List.last (col_close df) 0 in
  let t := MarketAnalyzer._determine_trend T df ind in
  (direction t = Some "uptrend" →
   ∃ ma_50 ma_100,
     ind !! "ma_50" = Some ma_50 ∧ ind !! "ma_100" = Some ma_100 ∧
     ma_50 < price ∧ ma_100 < price) ∧
  (ind !! "ma_50" = None → ind !! "ma_100" = None →
   (length (MarketAnalyzer.ma_values ind) < 3)%nat →
   direction t = Some "downtrend" ∧
   strength t = Some (Py.min 100 (50 + MarketAnalyzer.last_adx T df / 2))).
Proof.
  intros Hn price t. apply Nat.ltb_ge in Hn.
  subst t. unfold MarketAnalyzer._determine_trend. rewrite Hn. fold price.
  split.
  - destruct (MarketAnalyzer.ma_alignment _) as [up down].
    destruct (MarketAnalyzer.above ind "ma_50" price) eqn:E50,
      (MarketAnalyzer.above ind "ma_100" price) eqn:E100, up, down;
      cbn; intros H; try discriminate;
      apply above_present in E50 as (m50 & H50 & L50);
      apply above_present in E100 as (m100 & H100 & L100);
      eauto 10.
  - intros H50 H100 Hfew.
    rewrite (ma_alignment_few _ Hfew),
      (above_absent _ _ price H50), (above_absent _ _ price H100).
    cbn. split; reflexivity.
Qed.

(** A rising 20-bar series, whose indicator set is empty, is reported as
    a downtrend. *)
Lemma trend_without_long_averages_witness :
  direction (MarketAnalyzer._determine_trend Examples.talib
               Examples.short_history ∅) = Some "downtrend".
Proof.
  apply (trend_without_long_averages Examples.talib Examples.short_history ∅);
    [vm_compute; lia | reflexivity | reflexivity | vm_compute; lia].
Defined.

Lemma half_of (x : Q) : x / 2 == x * 0.5.
Proof. field. Qed.

(** When the ADX read from TA-Lib is in its range [0,100], the trend
    strength is in [0,100], and at least 50 for an uptrend or a
    downtrend. *)
Theorem trend_strength_range (T : MarketAnalyzer.Talib) (df : DataFrame)
    (ind : gmap string Q) :
  0 <= MarketAnalyzer.last_adx T df <= 100 →
  ∃ v, strength (MarketAnalyzer._determine_trend T df ind) = Some v ∧
       0 <= v <= 100 ∧
       (direction (MarketAnalyzer._determine_trend T df ind) ≠ Some "sideways" →
        50 <= v).
Proof.
  intros [H0 H100]. unfold MarketAnalyzer._determine_trend.
  destruct (length df <? 20)%nat.
  { eexists. split; [reflexivity |]. split; [lra | intros H; exfalso; apply H; reflexivity]. }
  destruct (MarketAnalyzer.ma_alignment _) as [up down].
  set (adx := MarketAnalyzer.last_adx T df) in *.
  pose proof (half_of adx) as Hhalf.
  destruct (up && _ && _); [| destruct (down && _ && _)];
    cbn [strength direction]; eexists; (split; [reflexivity |]).
  - destruct (min_spec 100 (50 + adx / 2)) as [[? ->] | [? ->]];
      (split; [lra | intros _; lra]).
  - destruct (min_spec 100 (50 + adx / 2)) as [[? ->] | [? ->]];
      (split; [lra | intros _; lra]).
  - destruct (max_spec 0 (adx - 15)) as [[? ->] | [? ->]];
      (split; [lra | intros Hside; exfalso; apply Hside; reflexivity]).
Qed.

(** The rising 100-bar series under the stand-in ADX of 30. *)
Lemma trend_strength_range_witness :
  ∃ v, strength (MarketAnalyzer._determine_trend Examples.talib
                   Examples.rising Examples.rising_averages) = Some v ∧
       0 <= v <= 100.
Proof.
  destruct (trend_strength_range Examples.talib Examples.rising
              Examples.rising_averages) as (v & Hv & Hr & _).
  - vm_compute. split; discriminate.
  - exists v. split; assumption.
Defined.

Section StructureMore.
Import MarketAnalyzer.

Lemma ma_score_range (ind : gmap string Q) (price : Q) :
  0 <= ma_score ind price <= 100.
Proof.
  unfold ma_score. set (entries := ma_entries ind).
  set (above := List.filter _ entries).
  destruct (0 <? length entries)%nat eqn:E; [| lra].
  apply Nat.ltb_lt in E.
  pose proof (filter_length_le (λ kv : string * Q, Py.ltb kv.2 price) entries)
    as Hle. fold above in Hle.
  assert (Ht : 0 < Py.of_nat (length entries)).
  { unfold Py.of_nat. change 0 with (inject_Z 0). rewrite <- Zlt_Qlt. lia. }
  assert (Ha0 : 0 <= Py.of_nat (length above)).
  { unfold Py.of_nat. change 0 with (inject_Z 0). rewrite <- Zle_Qle. lia. }
  assert (Hat : Py.of_nat (length above) <= Py.of_nat (length entries)).
  { unfold Py.of_nat. rewrite <- Zle_Qle. lia. }
  assert (H0 : 0 <= Py.of_nat (length above) / Py.of_nat (length entries))
    by (apply Qle_shift_div_l; lra).
  assert (H1 : Py.of_nat (length above) / Py.of_nat (length entries) <= 1)
    by (apply Qle_shift_div_r; lra).
  lra.
Qed.

Lemma rsi_score_range (ind : gmap string Q) : 0 <= rsi_score ind <= 90.
Proof.
  unfold rsi_score. destruct (ind !! "rsi"); [| lra].
  compare_floats; lra.
Qed.

Lemma macd_score_range (ind : gmap string Q) : 20 <= macd_score ind <= 80.
Proof.
  unfold macd_score.
  destruct (ind !! "macd"), (ind !! "macd_signal"), (ind !! "macd_hist");
    try lra.
  repeat match goal with
  | |- context [if ?b then _ else _] => destruct b
  end; lra.
Qed.

Lemma bb_score_range (ind : gmap string Q) (price : Q) :
  10 <= bb_score ind price <= 90.
Proof.
  unfold bb_score.
  destruct (ind !! "bb_upper"), (ind !! "bb_middle"), (ind !! "bb_lower");
    try lra.
  repeat match goal with
  | |- context [if ?b then _ else _] => destruct b
  end; lra.
Qed.

End StructureMore.

(** The structure strength is at most 92; on 20 bars or more it is at
    least 6 (the MACD and Bollinger sub-scores never drop below 20 and
    10), and the label is bullish exactly from 70 up and bearish exactly
    up to 30. *)
Theorem structure_strength_range (df : DataFrame) (ind : gmap string Q) :
  let r := MarketAnalyzer._analyze_market_structure df ind in
  ∃ v, structure_strength r = Some v ∧ 0 <= v <= 92 ∧
       ((20 <= length df)%nat →
        6 <= v ∧
        (structure r = Some "bullish" ↔ 70 <= v) ∧
        (structure r = Some "bearish" ↔ v <= 30)).
Proof.
  unfold MarketAnalyzer._analyze_market_structure.
  destruct (length df <? 20)%nat eqn:E.
  { apply Nat.ltb_lt in E. eexists. split; [reflexivity |].
    split; [lra | intros H; lia]. }
  set (price := List.last (col_close df) 0).
  pose proof (ma_score_range ind price).
  pose proof (rsi_score_range ind).
  pose proof (macd_score_range ind).
  pose proof (bb_score_range ind price).
  set (v := _ + _ + _ + _).
  assert (Hv : 6 <= v <= 92) by (subst v; lra).
  destruct (Py.leb 70 v) eqn:E70; [apply leb_le in E70 | apply leb_gt in E70];
    [| destruct (Py.leb v 30) eqn:E30;
       [apply leb_le in E30 | apply leb_gt in E30]];
    cbn; exists v; (split; [reflexivity |]); (split; [lra |]); intros _;
    (split; [lra |]); split; split; intros; try reflexivity; try discriminate;
    try lra.
Qed.

(** The unit test's indicators on the rising series: price above both
    averages, RSI 65, MACD above its signal, price above the upper band. *)
Lemma structure_strength_range_witness :
  ∃ v, structure_strength
         (MarketAnalyzer._analyze_market_structure Examples.rising
            (indicators Examples.test_analysis)) = Some v ∧ 6 <= v <= 92.
Proof.
  destruct (structure_strength_range Examples.rising
              (indicators Examples.test_analysis)) as (v & Hv & Hr & H).
  exists v. split; [exact Hv |].
  destruct H as [H _]; [vm_compute; lia |]. lra.
Defined.

Section LevelsMore.
Import MarketAnalyzer.

Lemma sorted_length {A} (key : A → Q) (rev : bool) (l : list A) :
  length (Py.sorted key rev l) = length l.
Proof. apply Permutation_length, sorted_perm. Qed.

Lemma real_resistance_length (df : DataFrame) (n : nat) :
  (length (real_resistance df n) <= n)%nat.
Proof. unfold real_resistance. rewrite length_fmap, length_take. lia. Qed.

Lemma real_support_length (df : DataFrame) (n : nat) :
  (length (real_support df n) <= n)%nat.
Proof. unfold real_support. rewrite length_fmap, length_take. lia. Qed.

Lemma atr_resistance_length (price atr : Q) (k : nat) :
  length (atr_resistance price atr k) = k.
Proof. unfold atr_resistance. rewrite length_fmap. apply length_seq. Qed.

Lemma atr_support_length (price atr : Q) (k : nat) :
  length (atr_support price atr k) = k.
Proof. unfold atr_support. rewrite length_fmap. apply length_seq. Qed.

(** The detector on 30 bars or more when the ATR is available. *)
Lemma levels_with_atr (T : Talib) (df : DataFrame) (n : nat) (atr : Q) :
  (30 <= length df)%nat → last_atr T df = Some atr →
  let price := List.last (col_close df) 0 in
  let res := real_resistance df n in
  let sup := real_support df n in
  _identify_support_resistance T df n =
  {| support :=
       Py.sorted id true
         (if (length sup <? n)%nat
          then sup ++ atr_support price atr (n - length sup) else sup);
     resistance :=
       Py.sorted id false
         (if (length res <? n)%nat
          then res ++ atr_resistance price atr (n - length res) else res) |}.
Proof.
  intros H Hatr. apply Nat.ltb_ge in H.
  unfold _identify_support_resistance. rewrite H, Hatr.
  cbn [mbind option_bind].
  destruct (length (real_resistance df n) <? n)%nat,
    (length (real_support df n) <? n)%nat; reflexivity.
Qed.



End LevelsMore.

(** The detector returns nothing under 30 bars and never more than
    [n_levels] levels a side; on 30 bars or more with the ATR available it
    returns exactly [n_levels] resistances and [n_levels] supports, the
    real ones topped up with ATR levels. *)
Theorem level_counts (T : MarketAnalyzer.Talib) (df : DataFrame)
    (n_levels : nat) :
  let r := MarketAnalyzer._identify_support_resistance T df n_levels in
  ((length df < 30)%nat → resistance r = [] ∧ support r = []) ∧
  (length (resistance r) <= n_levels)%nat ∧
  (length (support r) <= n_levels)%nat ∧
  ((30 <= length df)%nat → is_Some (MarketAnalyzer.last_atr T df) →
   length (resistance r) = n_levels ∧ length (support r) = n_levels).
Proof.
  intros r.
  pose proof (real_resistance_length df n_levels) as Hr.
  pose proof (real_support_length df n_levels) as Hs.
  assert (Hexact : (30 <= length df)%nat →
                   is_Some (MarketAnalyzer.last_atr T df) →
                   length (resistance r) = n_levels ∧
                   length (support r) = n_levels).
  { intros H [atr Hatr]. subst r.
    rewrite (levels_with_atr T df n_levels atr H Hatr).
    cbn [resistance support]. rewrite !sorted_length.
    destruct (length (MarketAnalyzer.real_resistance df n_levels) <? n_levels)%nat
      eqn:E1;
      [apply Nat.ltb_lt in E1 | apply Nat.ltb_ge in E1];
      destruct (length (MarketAnalyzer.real_support df n_levels) <? n_levels)%nat
        eqn:E2;
      [apply Nat.ltb_lt in E2 | apply Nat.ltb_ge in E2
      | apply Nat.ltb_lt in E2 | apply Nat.ltb_ge in E2];
      rewrite ?length_app, ?atr_resistance_length, ?atr_support_length; lia. }
  split; [| split; [| split; [| exact Hexact]]].
  - intros H. apply Nat.ltb_lt in H. subst r.
    unfold MarketAnalyzer._identify_support_resistance. rewrite H.
    split; reflexivity.
  - destruct (length df <? 30)%nat eqn:E.
    + subst r. unfold MarketAnalyzer._identify_support_resistance.
      rewrite E. cbn. lia.
    + apply Nat.ltb_ge in E.
      destruct (MarketAnalyzer.last_atr T df) as [atr |] eqn:Ea.
      * destruct (Hexact E) as [H _]; [eauto | lia].
      * subst r. unfold MarketAnalyzer._identify_support_resistance.
        replace (length df <? 30)%nat with false
          by (symmetry; apply Nat.ltb_ge, E).
        rewrite Ea. cbn [mbind option_bind].
        destruct (length (MarketAnalyzer.real_resistance df n_levels) <? n_levels)%nat,
          (length (MarketAnalyzer.real_support df n_levels) <? n_levels)%nat;
          cbn [resistance]; rewrite ?sorted_length; exact Hr.
  - destruct (length df <? 30)%nat eqn:E.
    + subst r. unfold MarketAnalyzer._identify_support_resistance.
      rewrite E. cbn. lia.
    + apply Nat.ltb_ge in E.
      destruct (MarketAnalyzer.last_atr T df) as [atr |] eqn:Ea.
      * destruct (Hexact E) as [_ H]; [eauto | lia].
      * subst r. unfold MarketAnalyzer._identify_support_resistance.
        replace (length df <? 30)%nat with false
          by (symmetry; apply Nat.ltb_ge, E).
        rewrite Ea. cbn [mbind option_bind].
        destruct (length (MarketAnalyzer.real_resistance df n_levels) <? n_levels)%nat,
          (length (MarketAnalyzer.real_support df n_levels) <? n_levels)%nat;
          cbn [support]; rewrite ?sorted_length; exact Hs.
Qed.

(** The steadily rising series has no local extremum at all; with
    [n_levels = 3] the detector still returns three levels a side. *)
Lemma level_counts_witness :
  length (resistance (MarketAnalyzer._identify_support_resistance
                        Examples.talib Examples.rising 3)) = 3%nat ∧
  length (support (MarketAnalyzer._identify_support_resistance
                     Examples.talib Examples.rising 3)) = 3%nat.
Proof.
  apply (level_counts Examples.talib Examples.rising 3).
  - vm_compute. lia.
  - vm_compute. eauto.
Defined.



Section Merge.
Import MarketAnalyzer.

Lemma merge_loop_acc (th : Q) (rest : list (Q * Q)) (cur : Q * Q)
    (merged : list (Q * Q)) :
  merge_loop th rest cur merged = merged ++ merge_loop th rest cur [].
Proof.
  revert cur merged. induction rest as [| x rest IH]; intros cur merged;
    cbn [merge_loop]; [reflexivity |].
  destruct (is_close th cur x); [apply IH |].
  rewrite (IH x (merged ++ [cur])), (IH x ([] ++ [cur])).
  rewrite <- app_assoc. reflexivity.
Qed.

Lemma quotient_at_least (t x e : Q) : 0 < e → t <= x / e → t * e <= x.
Proof.
  intros He H.
  assert (E : x / e * e == x) by (field; lra).
  assert (t * e <= x / e * e) by (apply Qmult_le_compat_r; lra).
  lra.
Qed.

(** A level that is not merged into the running one is at least the
    threshold above it. *)
Lemma not_close_apart (th : Q) (cur x : Q * Q) :
  0 < cur.2 → cur.2 <= x.2 → is_close th cur x = false →
  Spec.apart th cur x.
Proof.
  intros Hc Hx. unfold is_close, Spec.apart.
  destruct (Py.eqb cur.2 0) eqn:E0; [apply eqb_eq in E0; lra |].
  intros H. apply ltb_ge in H. apply quotient_at_least in H; [| exact Hc].
  assert (Qabs (x.2 - cur.2) == x.2 - cur.2) by (apply Qabs_pos; lra).
  lra.
Qed.

(** The clusters formed from a running level and the sorted levels after
    it. *)
Lemma merge_loop_clusters (th : Q) (rest : list (Q * Q)) (cur : Q * Q) :
  0 <= th → 0 < cur.2 →
  Forall (λ x, cur.2 <= x.2) rest →
  StronglySorted (Spec.in_order snd false) rest →
  ∃ h t,
    merge_loop th rest cur [] = h :: t ∧ cur.2 <= h.2 ∧
    Forall (λ y, cur.2 <= y.2) (h :: t) ∧
    Sorted (Spec.apart th) (h :: t) ∧
    (length (h :: t) <= S (length rest))%nat.
Proof.
  intros Hth. revert cur.
  induction rest as [| x rest IH]; intros cur Hc Hall Hs.
  - exists cur, []. cbn. repeat split; try lra; repeat constructor; lra.
  - apply Forall_cons in Hall as [Hx Hall].
    apply StronglySorted_inv in Hs as [Hs Hxs].
    cbn [merge_loop]. destruct (is_close th cur x) eqn:E.
    + set (avg := ((cur.1 + x.1) / 2, (cur.2 + x.2) / 2)).
      assert (Havg : cur.2 <= avg.2 ∧ avg.2 <= x.2).
      { subst avg. cbn [snd]. pose proof (half_of (cur.2 + x.2)). lra. }
      destruct (IH avg) as (h & t & Em & Hh & Ha & Hsorted & Hlen).
      * lra.
      * eapply Forall_impl; [exact Hxs |]. unfold Spec.in_order.
        intros y Hy. lra.
      * exact Hs.
      * exists h, t. rewrite Em. split; [reflexivity |].
        split; [lra |]. split; [| split; [exact Hsorted | cbn [length] in *; lia]].
        eapply Forall_impl; [exact Ha |]. cbv beta. intros y Hy. lra.
    + destruct (IH x) as (h & t & Em & Hh & Ha & Hsorted & Hlen).
      * lra.
      * eapply Forall_impl; [exact Hxs |]. unfold Spec.in_order.
        intros y Hy. exact Hy.
      * exact Hs.
      * rewrite merge_loop_acc, Em. exists cur, (h :: t).
        split; [reflexivity |]. split; [lra |].
        pose proof (not_close_apart th cur x Hc Hx E) as Hap.
        split; [| split].
        -- constructor; [lra |].
           eapply Forall_impl; [exact Ha |]. cbv beta. intros y Hy. lra.
        -- constructor; [exact Hsorted |]. constructor.
           unfold Spec.apart in *. lra.
        -- cbn [length] in *. lia.
Qed.

Lemma apart_ascending (th : Q) (l : list (Q * Q)) :
  0 <= th → Forall (λ y, 0 < y.2) l → Sorted (Spec.apart th) l →
  Sorted (Spec.in_order snd false) l.
Proof.
  intros Hth Hpos Hs. induction Hs as [| a l Hs IH Hhd]; [constructor |].
  apply Forall_cons in Hpos as [Ha Hpos].
  constructor; [apply IH, Hpos |].
  destruct Hhd as [| b l Hab]; constructor.
  unfold Spec.apart, Spec.in_order in *.
  assert (0 <= a.2 * th) by (apply Qmult_le_0_compat; lra).
  lra.
Qed.

End Merge.

(** Merging positive levels with a non-negative threshold gives levels in
    ascending price order, any two neighbours at least the threshold
    (0.5% in the detector) of the lower price apart; no level is created
    (there are at most as many as before, and at least one when there was
    one) and every merged price is positive. *)
Theorem merged_levels_apart (levels : list (Q * Q)) (threshold : Q) :
  0 <= threshold → Forall (λ l, 0 < l.2) levels →
  let merged := MarketAnalyzer.merge_levels levels threshold in
  Sorted (Spec.apart threshold) merged ∧
  Sorted (Spec.in_order snd false) merged ∧
  Forall (λ l, 0 < l.2) merged ∧
  (length merged <= length levels)%nat ∧
  (levels ≠ [] → merged ≠ []).
Proof.
  intros Hth Hpos merged. subst merged. unfold MarketAnalyzer.merge_levels.
  pose proof (sorted_sorted snd false levels) as Hs.
  pose proof (sorted_perm snd false levels) as Hp.
  destruct (Py.sorted snd false levels) as [| first rest] eqn:E.
  { split; [constructor |]. split; [constructor |]. split; [constructor |].
    split; [cbn [length]; lia |].
    intros Hne. apply Permutation_nil in Hp. congruence. }
  rewrite <- Hp in Hpos. apply Forall_cons in Hpos as [Hf Hrest].
  apply StronglySorted_inv in Hs as [Hs Hfs].
  destruct (merge_loop_clusters threshold rest first Hth Hf)
    as (h & t & Em & Hh & Ha & Hsorted & Hlen); [exact Hfs | exact Hs |].
  rewrite Em.
  assert (Hpos' : Forall (λ l : Q * Q, 0 < l.2) (h :: t)).
  { eapply Forall_impl; [exact Ha |]. cbv beta. intros y Hy. lra. }
  split; [exact Hsorted |].
  split; [apply (apart_ascending threshold); assumption |].
  split; [exact Hpos' |].
  split; [| discriminate].
  apply Permutation_length in Hp. cbn [length] in *. lia.
Qed.

(** The levels at 99.9, 100 and 100.2 merge into one at 100.075; 100.6,
    more than 0.5% above that, and 102 stay apart. *)
Lemma merged_levels_apart_witness :
  let merged :=
    MarketAnalyzer.merge_levels
      [(1, 100); (2, 100.2); (3, 100.6); (4, 102); (5, 99.9)] 0.005 in
  length merged = 3%nat ∧ Sorted (Spec.apart 0.005) merged.
Proof.
  intros merged.
  destruct (merged_levels_apart
              [(1, 100); (2, 100.2); (3, 100.6); (4, 102); (5, 99.9)] 0.005)
    as (H & _).
  - discriminate.
  - repeat constructor.
  - split; [vm_compute; reflexivity | exact H].
Defined.

Section Truncation.
Import MarketAnalyzer.

Lemma within_ret {A} (a : A) (P : string → Prop) :
  Spec.keeps_within (build_ret a) P.
Proof. intros ind ind' o [= <- _] k H. left. exact H. Qed.

Lemma within_call {A} (o : option A) (P : string → Prop) :
  Spec.keeps_within (call o) P.
Proof. intros ind ind' o' [= <- _] k H. left. exact H. Qed.

Lemma within_store (key : string) (v : Q) (P : string → Prop) :
  P key → Spec.keeps_within (store key v) P.
Proof.
  intros HP ind ind' o [= <- _] k H.
  apply lookup_insert_is_Some in H as [<- | [_ H]]; [right; exact HP | left; exact H].
Qed.

Lemma within_bind {A B} (m : Build A) (f : A → Build B) (P : string → Prop) :
  Spec.keeps_within m P → (∀ a, Spec.keeps_within (f a) P) →
  Spec.keeps_within (build_bind m f) P.
Proof.
  intros Hm Hf ind ind' o. unfold build_bind.
  destruct (m ind) as [ind1 [a |]] eqn:E1.
  - intros E2 k H. destruct (Hf a _ _ _ E2 k H) as [H1 | HP]; [| right; exact HP].
    exact (Hm _ _ _ E1 k H1).
  - intros [= <- _] k H. exact (Hm _ _ _ E1 k H).
Qed.

Lemma within_when (b : bool) (m : Build unit) (P : string → Prop) :
  Spec.keeps_within m P → Spec.keeps_within (when b m) P.
Proof. intros H. destruct b; [exact H | apply within_ret]. Qed.

Lemma within_for_each {A} (l : list A) (body : A → Build unit)
    (P : string → Prop) :
  (∀ x, Spec.keeps_within (body x) P) →
  Spec.keeps_within (for_each l body) P.
Proof.
  intros H. induction l as [| x l IH]; [apply within_ret |].
  cbn [for_each]. apply within_bind; [apply H | intros _; exact IH].
Qed.

Lemma within_sma (T : Talib) (close : list Q) (period : nat) :
  Spec.keeps_within (sma_entry T close period) Spec.average_key.
Proof.
  apply within_when, within_bind; [apply within_call | intros ma].
  apply within_bind; [apply within_call | intros v].
  apply within_store. left. unfold ma_key, String.append. simpl.
  destruct (pretty period); reflexivity.
Qed.

Lemma within_ema (T : Talib) (close : list Q) (period : nat) :
  Spec.keeps_within (ema_entry T close period) Spec.average_key.
Proof.
  apply within_when, within_bind; [apply within_call | intros ma].
  apply within_bind; [apply within_call | intros v].
  apply within_store. right. unfold ema_key, String.append. simpl.
  destruct (pretty period); reflexivity.
Qed.

(** The RSI step when its call raises: nothing is stored and the rest of
    the method is skipped. *)
Lemma rsi_raises (T : Talib) (p : Params) (close : list Q)
    (rest : Build unit) (ind : gmap string Q) :
  (default 14 (rsi_period p) <= length close)%nat →
  RSI T close (default 14%nat (rsi_period p)) = None →
  (rsi_entry T p close ;; rest) ind = (ind, None).
Proof.
  intros Hw Hr. apply Nat.leb_le in Hw.
  unfold build_bind, rsi_entry, when, call. rewrite Hw, Hr. reflexivity.
Qed.

End Truncation.

(** One [try] covers the whole builder: when the RSI call raises on a
    series of 50 bars or more, after the moving-average calls made before
    it have returned, the dictionary returned holds those moving averages
    and none of the entries of the families after the RSI, although their
    own windows are satisfied. *)
Theorem rsi_failure_truncates (T : MarketAnalyzer.Talib)
    (p : MarketAnalyzer.Params) (df : DataFrame) :
  (∀ period,
     period ∈ default MarketAnalyzer.default_ma_periods
                (MarketAnalyzer.ma_periods p) →
     (period <= length df)%nat →
     (∃ a, MarketAnalyzer.SMA T (col_close df) period = Some a ∧
           length a = length df) ∧
     (∃ a, MarketAnalyzer.EMA T (col_close df) period = Some a ∧
           length a = length df)) →
  (50 <= length df)%nat →
  (default 14 (MarketAnalyzer.rsi_period p) <= length df)%nat →
  MarketAnalyzer.RSI T (col_close df)
    (default 14%nat (MarketAnalyzer.rsi_period p)) = None →
  let ind := MarketAnalyzer._calculate_indicators T p df in
  (∀ period,
     period ∈ default MarketAnalyzer.default_ma_periods
                (MarketAnalyzer.ma_periods p) →
     (period <= length df)%nat →
     is_Some (ind !! MarketAnalyzer.ma_key period) ∧
     is_Some (ind !! MarketAnalyzer.ema_key period)) ∧
  Forall (λ key, ind !! key = None)
    ["rsi"; "macd"; "macd_signal"; "macd_hist"; "k"; "d"; "j"; "bb_upper";
     "bb_middle"; "bb_lower"; "bb_width"; "atr"; "atr_percent"; "sar"; "cci";
     "obv"; "obv_change"].
Proof.
  intros Hma Hn Hw Hrsi ind.
  assert (Lc : length (col_close df) = length df) by apply length_fmap.
  assert (Hc : (50 <= length (col_close df))%nat) by lia.
  rewrite <- Lc in Hma.
  set (periods := default MarketAnalyzer.default_ma_periods
                    (MarketAnalyzer.ma_periods p)) in *.
  pose proof (writes_seq _ _ _ _
    (writes_for_each_in periods _ _
       (λ period Hin,
          writes_sma T (col_close df) period Hc
            (λ Hle, proj1 (Hma period Hin Hle))))
    (writes_for_each_in periods _ _
       (λ period Hin,
          writes_ema T (col_close df) period Hc
            (λ Hle, proj2 (Hma period Hin Hle))))) as W.
  pose proof (within_bind _ (λ _, _) Spec.average_key
    (within_for_each periods _ _ (within_sma T (col_close df)))
    (λ _, within_for_each periods _ _ (within_ema T (col_close df)))) as K.
  destruct (W ∅) as (ind' & E & _ & Hin).
  specialize (K ∅ ind' (Some tt) E).
  assert (Hind : ind = ind').
  { subst ind. unfold MarketAnalyzer._calculate_indicators.
    replace (length df <? 50)%nat with false
      by (symmetry; apply Nat.ltb_ge; exact Hn).
    unfold MarketAnalyzer.returned. cbv zeta. fold periods.
    unfold MarketAnalyzer.build_bind at 1.
    unfold MarketAnalyzer.build_bind in E.
    destruct (MarketAnalyzer.for_each periods
                (MarketAnalyzer.sma_entry T (col_close df)) ∅)
      as [i1 [[] |]] eqn:E1; [| discriminate].
    unfold MarketAnalyzer.build_bind at 1. rewrite E.
    rewrite rsi_raises; [reflexivity | lia | exact Hrsi]. }
  rewrite Hind. split.
  - intros period Hp Hle. rewrite <- Lc in Hle. split; apply Hin.
    + apply elem_of_app. left. apply guarded_concat_elem; assumption.
    + apply elem_of_app. right. apply guarded_concat_elem; assumption.
  - repeat constructor;
      match goal with
      | |- ind' !! ?key = None =>
          destruct (ind' !! key) as [v |] eqn:Ev; [exfalso | reflexivity];
          destruct (K key) as [Hk | [Hk | Hk]];
          [rewrite Ev; eauto | rewrite lookup_empty in Hk; destruct Hk; discriminate
          | discriminate | discriminate]
      end.
Qed.

(** The rising series when the RSI call raises: the 5-period average is
    there, the ATR, which is computed after the RSI, is not. *)
Lemma rsi_failure_truncates_witness :
  let ind :=
    MarketAnalyzer._calculate_indicators Examples.talib_without_rsi
      Examples.analyzer_params Examples.rising in
  is_Some (ind !! "ma_5") ∧ ind !! "atr" = None.
Proof.
  intros ind.
  destruct (rsi_failure_truncates Examples.talib_without_rsi
              Examples.analyzer_params Examples.rising) as [Hma Hnone].
  - intros period _ _. split; eexists; (split; [reflexivity |]);
      rewrite rolling_mean_length; apply length_fmap.
  - vm_compute. lia.
  - vm_compute. lia.
  - reflexivity.
  - fold ind in Hma, Hnone. split.
    + apply (Hma 5%nat); [apply list_elem_of_here | vm_compute; lia].
    + apply (proj1 (Forall_forall _ _) Hnone).
      do 11 apply list_elem_of_further. apply list_elem_of_here.
Defined.

Section SentimentMore.
Import MarketAnalyzer.

Lemma tenth_of (x : Q) : x / 10 == x * 0.1.
Proof. field. Qed.

(** The long/short ratio before rounding, against the sentiment score. *)
Lemma long_short_facts (s : Q) :
  0 < long_short s ∧
  (1 < long_short s ↔ 50 < s) ∧ (long_short s < 1 ↔ s < 50) ∧
  (3 <= long_short s ↔ 70 <= s) ∧ (long_short s <= 1 # 3 ↔ s <= 30).
Proof.
  unfold long_short.
  destruct (Py.ltb 50 s) eqn:E1; [apply ltb_lt in E1 | apply ltb_ge in E1].
  { pose proof (tenth_of (s - 50)).
    repeat split; intros; lra. }
  destruct (Py.ltb s 50) eqn:E2; [apply ltb_lt in E2 | apply ltb_ge in E2].
  2: { repeat split; intros; lra. }
  pose proof (tenth_of (50 - s)) as Ht.
  set (D := 1.0 + (50 - s) / 10) in *.
  assert (HD : 1 < D) by (subst D; lra).
  assert (E : 1.0 / D * D == 1) by (field; lra).
  assert (Hpos : 0 < 1.0 / D) by (apply Qlt_shift_div_l; lra).
  assert (Hlt : 1.0 / D < 1) by (apply Qlt_shift_div_r; lra).
  split; [exact Hpos |]. split; [split; intros; lra |].
  split; [split; intros; lra |]. split; [split; intros; lra |].
  split; intros H.
  - destruct (Qlt_le_dec D 3) as [Hc | Hc]; [| subst D; lra].
    exfalso.
    assert (1.0 / D * D <= (1 # 3) * D) by (apply Qmult_le_compat_r; lra).
    lra.
  - assert (3 <= D) by (subst D; lra).
    apply Qle_shift_div_r; lra.
Qed.

(** The funding rate read from a non-empty frame whose column ends in
    [f]. *)
Lemma last_funding_snoc (df : DataFrame) (column : list Q) (f : Q) :
  df ≠ [] → last_funding df (Some (column ++ [f])) = Some f.
Proof.
  intros H. destruct df as [| b df]; [congruence |].
  cbn [last_funding mbind option_bind]. unfold Py.idx_neg.
  rewrite length_app. cbn [length].
  replace (1 <=? length column + 1)%nat with true
    by (symmetry; apply Nat.leb_le; lia).
  replace (length column + 1 - 1)%nat with (length column) by lia.
  rewrite lookup_app_r by lia. rewrite Nat.sub_diag. reflexivity.
Qed.

Lemma sentiment_points_funding (ind : gmap string Q) (f : Q) :
  sentiment_points ind (Some f) = sentiment_points ind None - f * 1000.
Proof. reflexivity. Qed.

Lemma overall_label_cases (s : Q) :
  (overall_label s = "bullish" ↔ 70 <= s) ∧
  (overall_label s = "bearish" ↔ s <= 30).
Proof.
  unfold overall_label. compare_floats; split; split; intros;
    try discriminate; try reflexivity; lra.
Qed.

End SentimentMore.

(** The sentiment label and the long/short ratio move together: the
    ratio before rounding is positive, above 1 exactly when the sentiment
    score is above 50 and below 1 exactly when it is below 50; the label is
    bullish exactly when that ratio is at least 3 and bearish exactly when
    it is at most 1/3.  The ratio returned is its rounding to two places. *)
Theorem sentiment_ratio_and_label (round2 : Q → Q) (df : DataFrame)
    (funding : option (list Q)) (ind : gmap string Q) :
  let points :=
    MarketAnalyzer.sentiment_points ind (MarketAnalyzer.last_funding df funding) in
  let ratio := MarketAnalyzer.long_short points in
  let r := MarketAnalyzer._analyze_sentiment round2 df funding ind in
  long_short_ratio r = Some (round2 ratio) ∧
  0 < ratio ∧ (1 < ratio ↔ 50 < points) ∧ (ratio < 1 ↔ points < 50) ∧
  (overall r = Some "bullish" ↔ 3 <= ratio) ∧
  (overall r = Some "bearish" ↔ ratio <= 1 # 3).
Proof.
  intros points ratio r.
  destruct (long_short_facts points) as (H0 & H1 & H2 & H3 & H4).
  destruct (overall_label_cases points) as [Hb Hs].
  fold ratio in H0, H1, H2, H3, H4.
  split; [reflexivity |]. split; [exact H0 |]. split; [exact H1 |].
  split; [exact H2 |].
  subst r. unfold MarketAnalyzer._analyze_sentiment. cbn [overall].
  fold points. split.
  - rewrite H3, <- Hb. split; [intros [= ->]; reflexivity | intros ->; reflexivity].
  - rewrite H4, <- Hs. split; [intros [= ->]; reflexivity | intros ->; reflexivity].
Qed.

(** With an RSI of 65, a rising histogram and K above D, as in the unit
    test, and no funding column: a score above 50 and a ratio above 1. *)
Lemma sentiment_ratio_and_label_witness :
  1 < MarketAnalyzer.long_short
        (MarketAnalyzer.sentiment_points (indicators Examples.test_analysis)
           (MarketAnalyzer.last_funding Examples.rising None)).
Proof.
  apply (sentiment_ratio_and_label (λ x, x) Examples.rising None
           (indicators Examples.test_analysis)).
  vm_compute. reflexivity.
Defined.

(** A higher funding rate never makes the sentiment more bullish: between
    two non-empty frames' analyses that differ only in the last funding
    rate, the one with the lower rate is bullish whenever the other is, the
    one with the higher rate is bearish whenever the other is, and the
    overbought/oversold state is the same. *)
Theorem funding_depresses_sentiment (round2 : Q → Q) (df : DataFrame)
    (column1 column2 : list Q) (f1 f2 : Q) (ind : gmap string Q) :
  df ≠ [] → f1 <= f2 →
  let low := MarketAnalyzer._analyze_sentiment round2 df
               (Some (column1 ++ [f1])) ind in
  let high := MarketAnalyzer._analyze_sentiment round2 df
                (Some (column2 ++ [f2])) ind in
  (overall high = Some "bullish" → overall low = Some "bullish") ∧
  (overall low = Some "bearish" → overall high = Some "bearish") ∧
  state low = state high.
Proof.
  intros Hdf Hf low high. subst low high.
  unfold MarketAnalyzer._analyze_sentiment. cbn [overall state].
  rewrite !last_funding_snoc by exact Hdf.
  rewrite !sentiment_points_funding.
  set (base := MarketAnalyzer.sentiment_points ind None).
  destruct (overall_label_cases (base - f1 * 1000)) as [Hb1 Hs1].
  destruct (overall_label_cases (base - f2 * 1000)) as [Hb2 Hs2].
  split; [| split; [| reflexivity]].
  - intros [= H]. apply Hb2 in H. f_equal. apply Hb1. lra.
  - intros [= H]. apply Hs1 in H. f_equal. apply Hs2. lra.
Qed.

(** Without indicators, a funding rate of -3% gives a bullish label and
    one of +3% a bearish one. *)
Lemma funding_depresses_sentiment_witness :
  (overall (MarketAnalyzer._analyze_sentiment (λ x, x) Examples.rising
              (Some ([] ++ [0.03])) ∅) = Some "bullish" →
   overall (MarketAnalyzer._analyze_sentiment (λ x, x) Examples.rising
              (Some ([] ++ [- 0.03])) ∅) = Some "bullish") ∧
  overall (MarketAnalyzer._analyze_sentiment (λ x, x) Examples.rising
             (Some ([] ++ [- 0.03])) ∅) = Some "bullish" ∧
  overall (MarketAnalyzer._analyze_sentiment (λ x, x) Examples.rising
             (Some ([] ++ [0.03])) ∅) = Some "bearish".
Proof.
  destruct (funding_depresses_sentiment (λ x, x) Examples.rising [] []
              (- 0.03) 0.03 ∅) as (H & _ & _).
  - discriminate.
  - discriminate.
  - split; [exact H |]. split; vm_compute; reflexivity.
Defined.

(** * The pipeline on a short history *)

Section ShortHistory.
Import MarketAnalyzer.

(** The trend of a series of 20 bars or more without any indicator. *)
Lemma trend_of_empty (T : Talib) (df : DataFrame) :
  (20 <= length df)%nat →
  direction (_determine_trend T df ∅) = Some "downtrend" ∧
  strength (_determine_trend T df ∅) =
    Some (Py.min 100 (50 + last_adx T df / 2)).
Proof.
  intros H. apply Nat.ltb_ge in H. unfold _determine_trend. rewrite H.
  rewrite ma_alignment_few by (vm_compute; lia).
  rewrite !above_absent by apply lookup_empty.
  split; reflexivity.
Qed.

(** The trend sub-score of the analysis of a series under 50 bars. *)
Lemma short_history_trend_score (T : Talib) (df : DataFrame) :
  0 <= last_adx T df →
  0 <= SignalGenerator.trend_score (_determine_trend T df ∅) <= 50.
Proof.
  intros Hadx. destruct (length df <? 20)%nat eqn:E.
  - unfold _determine_trend. rewrite E. cbv. split; discriminate.
  - apply Nat.ltb_ge in E. destruct (trend_of_empty T df E) as [Hd Hs].
    unfold SignalGenerator.trend_score. rewrite Hd, Hs.
    cbn [Py.is_label String.eqb Ascii.eqb Bool.eqb default from_option id andb].
    pose proof (half_of (last_adx T df)).
    destruct (min_spec 100 (50 + last_adx T df / 2)) as [[? ->] | [? ->]];
      match goal with
      | |- _ <= Py.max 0 ?x <= _ =>
          destruct (max_spec 0 x) as [[? ->] | [? ->]]
      end; lra.
Qed.

(** The sentiment sub-score when the state is neither overbought nor
    oversold. *)
Lemma sentiment_score_normal (s : Sentiment) :
  state s = Some "normal" → 15 <= SignalGenerator.sentiment_score s <= 85.
Proof.
  intros Hs. unfold SignalGenerator.sentiment_score. rewrite Hs.
  cbn [Py.is_label String.eqb Ascii.eqb Bool.eqb andb].
  destruct (Py.is_label (overall s) "bullish"),
    (Py.is_label (overall s) "bearish"),
    (Py.is_label (funding_rate_impact s) "long_pay"),
    (Py.is_label (funding_rate_impact s) "short_pay");
    match goal with
    | |- _ <= Py.max 0 (Py.min 100 ?x) <= _ =>
        destruct (min_spec 100 x) as [[? ->] | [? ->]];
        [destruct (max_spec 0 x) as [[? ->] | [? ->]]
        | destruct (max_spec 0 100) as [[? ->] | [? ->]]]
    end; lra.
Qed.

Lemma default_weight_lookups :
  SignalGenerator.default_weights !! "trend" = Some 0.3 ∧
  SignalGenerator.default_weights !! "oscillators" = Some 0.3 ∧
  SignalGenerator.default_weights !! "volume" = Some 0.2 ∧
  SignalGenerator.default_weights !! "sentiment" = Some 0.2.
Proof. vm_compute. repeat split. Qed.

(** The composite score, under the default weights, of an analysis
    without indicators whose sentiment state is normal and whose trend
    sub-score is at most 50. *)
Lemma score_without_indicators (ar : AnalysisResult) :
  indicators ar = ∅ → state (sentiment ar) = Some "normal" →
  0 <= SignalGenerator.trend_score (trend ar) <= 50 →
  28 <= SignalGenerator._calculate_score (SignalGenerator.mkParams None None) ar
     <= 57.
Proof.
  intros Hind Hstate Htrend.
  unfold SignalGenerator._calculate_score, SignalGenerator.get_weights.
  cbn [SignalGenerator.weights default from_option id].
  destruct default_weight_lookups as (-> & -> & -> & ->).
  rewrite Hind.
  assert (Ho : SignalGenerator.oscillator_score ∅ == 50) by reflexivity.
  pose proof (sentiment_score_normal _ Hstate).
  unfold SignalGenerator.volume_score. lra.
Qed.

End ShortHistory.

(** Under the default weights and thresholds, the pipeline never
    recommends a trade on fewer than 50 bars: for every non-empty series
    under 50 bars (with an ADX that is not negative) the analysis exists,
    the composite score is between 28 and 57, and the signal is neutral
    with entry, stop and target all at the last close and at most 3
    stars. *)
Theorem short_history_signal_is_neutral (T : MarketAnalyzer.Talib)
    (S : MarketAnalyzer.Stats) (round2 : Q → Q) (p : MarketAnalyzer.Params)
    (df : DataFrame) (funding : option (list Q)) (symbol timeframe : string)
    (now : Z) :
  df ≠ [] → (length df < 50)%nat → 0 <= MarketAnalyzer.last_adx T df →
  ∃ ar s,
    MarketAnalyzer.analyze T S round2 p (Some df) funding symbol timeframe
      = Some ar ∧
    SignalGenerator.generate_signal (SignalGenerator.mkParams None None) now
      (Some ar) = Some s ∧
    signal_direction s = neutral ∧
    28 <= score s <= 57 ∧
    entry_price s = List.last (col_close df) 0 ∧
    stop_loss s = List.last (col_close df) 0 ∧
    target_price s = List.last (col_close df) 0 ∧
    (stars (signal_strength s) <= 3)%Z.
Proof.
  intros Hdf Hlen Hadx.
  destruct df as [| b df'] eqn:Edf; [congruence |]. rewrite <- Edf in *.
  clear Hdf.
  assert (Han : MarketAnalyzer.analyze T S round2 p (Some df) funding symbol
                  timeframe
                = Some (mkAnalysis (Some symbol) (Some timeframe) ∅
                          (MarketAnalyzer._identify_support_resistance T df 2)
                          (MarketAnalyzer._analyze_market_structure df ∅)
                          (MarketAnalyzer._analyze_sentiment round2 df funding ∅)
                          (MarketAnalyzer._determine_trend T df ∅)
                          (MarketAnalyzer._analyze_volatility S df)
                          (Some (List.last (col_close df) 0)))).
  { unfold MarketAnalyzer.analyze. cbn [mbind option_bind].
    rewrite (few_bars_no_indicators T p df Hlen). rewrite Edf at 1.
    reflexivity. }
  eexists. eexists. split; [exact Han |].
  split; [unfold SignalGenerator.generate_signal;
          cbn [mbind option_bind last_price]; reflexivity |].
  cbn [signal_direction score entry_price stop_loss target_price
       signal_strength].
  set (ar := mkAnalysis _ _ _ _ _ _ _ _ _).
  set (params := SignalGenerator.mkParams None None).
  pose proof (score_without_indicators ar eq_refl eq_refl
                (short_history_trend_score T df Hadx)) as Hscore.
  fold params in Hscore.
  set (sc := SignalGenerator._calculate_score params ar) in *.
  assert (Hdir : SignalGenerator._determine_direction params sc ar = neutral).
  { rewrite (direction_cases params sc ar 60 20)
      by (vm_compute; reflexivity).
    replace (Py.leb 60 sc) with false by (symmetry; apply leb_gt; lra).
    replace (Py.leb sc 20) with false by (symmetry; apply leb_gt; lra).
    reflexivity. }
  rewrite Hdir. unfold SignalGenerator._determine_entry_price.
  split; [reflexivity |]. split; [exact Hscore |].
  split; [reflexivity |]. split; [reflexivity |]. split; [reflexivity |].
  unfold SignalGenerator._evaluate_signal_strength,
    SignalGenerator.get_thresholds.
  cbn [default from_option id SignalGenerator.thresholds params].
  rewrite star_count_default. cbn [stars].
  replace (Py.leb 80 sc) with false by (symmetry; apply leb_gt; lra).
  replace (Py.leb sc 0) with false by (symmetry; apply leb_gt; lra).
  replace (Py.leb 60 sc) with false by (symmetry; apply leb_gt; lra).
  replace (Py.leb sc 20) with false by (symmetry; apply leb_gt; lra).
  cbn [orb].
  destruct (Py.leb 55 sc || Py.leb sc 45); [lia |].
  destruct (Py.leb 52 sc || Py.leb sc 48); lia.
Qed.

(** The rising 20-bar series, with a funding rate of 0.03%: analysed as a
    downtrend of bearish structure, scored 33, and left neutral at its
    last close 119. *)
Lemma short_history_signal_is_neutral_witness :
  ∃ ar s,
    MarketAnalyzer.analyze Examples.talib Examples.stats (λ x, x)
      Examples.analyzer_params (Some Examples.short_history)
      (Some (repeat 0.0003 20)) "BTC/USDT" "1h" = Some ar ∧
    SignalGenerator.generate_signal (SignalGenerator.mkParams None None) 0
      (Some ar) = Some s ∧
    signal_direction s = neutral ∧ entry_price s = 119 ∧ stop_loss s = 119.
Proof.
  destruct (short_history_signal_is_neutral Examples.talib Examples.stats
              (λ x, x) Examples.analyzer_params Examples.short_history
              (Some (repeat 0.0003 20)) "BTC/USDT" "1h" 0)
    as (ar & s & Ha & Hs & Hd & _ & He & Hst & _).
  - discriminate.
  - vm_compute. lia.
  - vm_compute. discriminate.
  - exists ar, s. split; [exact Ha |]. split; [exact Hs |].
    split; [exact Hd |].
    assert (E : List.last (col_close Examples.short_history) 0 = 119)
      by (vm_compute; reflexivity).
    rewrite E in He, Hst. split; assumption.
Defined.

(** * Properties of the helpers *)

Section Symbols.
Import Helpers.

Lemma without_slash_id (s : str) :
  has_slash s = false → Spec.without_slash s = s.
Proof.
  unfold has_slash, Spec.without_slash.
  induction s as [| c s IH]; [reflexivity |]. cbn [existsb List.filter].
  intros H. apply orb_false_iff in H as [Hc Hs].
  rewrite Hc. cbn [negb]. f_equal. apply IH, Hs.
Qed.

Lemma has_slash_app (a b : str) :
  has_slash (a ++ b) = has_slash a || has_slash b.
Proof. unfold has_slash. apply existsb_app. Qed.

Lemma without_slash_pair (base quote : str) :
  has_slash (base ++ quote) = false →
  Spec.without_slash (pair base quote) = base ++ quote.
Proof.
  rewrite has_slash_app. intros H. apply orb_false_iff in H as [Hb Hq].
  unfold pair, Spec.without_slash. rewrite List.filter_app.
  cbn [List.filter Ascii.eqb Bool.eqb andb negb].
  fold (Spec.without_slash base). fold (Spec.without_slash quote).
  rewrite !without_slash_id by assumption. reflexivity.
Qed.

Lemma has_slash_pair (base quote : str) : has_slash (pair base quote) = true.
Proof.
  unfold pair. rewrite has_slash_app. cbn. apply orb_true_r.
Qed.

Lemma endswith_drop (symbol suffix : str) :
  endswith symbol suffix = true →
  but_last (length suffix) symbol ++ suffix = symbol.
Proof.
  unfold endswith, but_last. intros H.
  apply andb_true_iff in H as [_ H]. apply bool_decide_eq_true in H.
  rewrite <- H at 2. apply take_drop.
Qed.

Lemma first_suffix_endswith (symbol : str) (candidates : list str) (c : str) :
  first_suffix symbol candidates = Some c → endswith symbol c = true.
Proof.
  induction candidates as [| x rest IH]; cbn [first_suffix]; [discriminate |].
  destruct (endswith symbol x) eqn:E; [intros [= <-]; exact E | exact IH].
Qed.

(** The shapes of the result on a symbol without a slash. *)
Lemma normalize_shapes (symbol : str) :
  has_slash symbol = false →
  (normalize_symbol symbol = symbol ∧ (length symbol <= 3)%nat) ∨
  ∃ base quote,
    normalize_symbol symbol = pair base quote ∧ base ++ quote = symbol.
Proof.
  intros H. unfold normalize_symbol. rewrite H.
  destruct (first_suffix symbol stablecoins) as [c |] eqn:E.
  - right. exists (but_last (length c) symbol), c. split; [reflexivity |].
    apply endswith_drop, (first_suffix_endswith _ _ _ E).
  - destruct (4 <? length symbol)%nat eqn:E4.
    { right. eexists _, _. split; [reflexivity | apply take_drop]. }
    destruct (3 <? length symbol)%nat eqn:E3.
    { right. eexists _, _. split; [reflexivity | apply take_drop]. }
    left. apply Nat.ltb_ge in E3. split; [reflexivity | exact E3].
Qed.

Lemma normalize_with_slash (symbol : str) :
  has_slash symbol = true → normalize_symbol symbol = symbol.
Proof. intros H. unfold normalize_symbol. rewrite H. reflexivity. Qed.

(** A candidate no longer than the suffix is decided by the suffix. *)
Lemma endswith_app (base suffix candidate : str) :
  (length candidate <= length suffix)%nat →
  endswith (base ++ suffix) candidate = endswith suffix candidate.
Proof.
  intros H. unfold endswith. rewrite length_app.
  replace (length candidate <=? length base + length suffix)%nat with true
    by (symmetry; apply Nat.leb_le; lia).
  replace (length candidate <=? length suffix)%nat with true
    by (symmetry; apply Nat.leb_le; lia).
  rewrite drop_app_ge by lia.
  replace (length base + length suffix - length candidate - length base)%nat
    with (length suffix - length candidate)%nat by lia.
  reflexivity.
Qed.

End Symbols.

(** Normalising a symbol is idempotent; a symbol with a slash is returned
    as it is; on a symbol without one the result only adds a slash
    (removing it gives the symbol back), and it does add one whenever the
    symbol has more than three characters. *)
Theorem normalize_symbol_round_trip (symbol : Helpers.str) :
  Helpers.normalize_symbol (Helpers.normalize_symbol symbol)
    = Helpers.normalize_symbol symbol ∧
  (Helpers.has_slash symbol = true → Helpers.normalize_symbol symbol = symbol) ∧
  (Helpers.has_slash symbol = false →
   Spec.without_slash (Helpers.normalize_symbol symbol) = symbol ∧
   ((3 < length symbol)%nat →
    Helpers.has_slash (Helpers.normalize_symbol symbol) = true)).
Proof.
  destruct (Helpers.has_slash symbol) eqn:H.
  - rewrite !(normalize_with_slash symbol H).
    split; [reflexivity |].
    split; [intros _; reflexivity | discriminate].
  - destruct (normalize_shapes symbol H) as [[E Hlen] | (base & quote & E & Es)].
    + rewrite !E. split; [reflexivity |]. split; [discriminate | intros _].
      split; [apply without_slash_id, H | lia].
    + rewrite !E.
      split; [apply normalize_with_slash, has_slash_pair |].
      split; [discriminate | intros _].
      split; [| intros _; apply has_slash_pair].
      rewrite <- Es. apply without_slash_pair. rewrite Es. exact H.
Qed.

(** "ETHBTC" has no stablecoin suffix: the last four characters become
    the quote, and removing the slash gives the symbol back. *)
Lemma normalize_symbol_round_trip_witness :
  Helpers.normalize_symbol (String.list_ascii_of_string "ETHBTC")
    = String.list_ascii_of_string "ET/HBTC" ∧
  Spec.without_slash (Helpers.normalize_symbol (String.list_ascii_of_string "ETHBTC"))
    = String.list_ascii_of_string "ETHBTC".
Proof.
  split; [vm_compute; reflexivity |].
  apply (normalize_symbol_round_trip (String.list_ascii_of_string "ETHBTC"));
    vm_compute; reflexivity.
Defined.

(** The stablecoins are tried in the order of the list, so the quote is
    USDT or USDC when the symbol ends with it, while a symbol ending with
    BUSD or TUSD is split before its last three characters, with the
    quote USD. *)
Theorem normalize_symbol_stablecoins (base : Helpers.str) :
  Helpers.has_slash base = false →
  let s := String.list_ascii_of_string in
  Helpers.normalize_symbol (base ++ s "USDT") = Helpers.pair base (s "USDT") ∧
  Helpers.normalize_symbol (base ++ s "USDC") = Helpers.pair base (s "USDC") ∧
  Helpers.normalize_symbol (base ++ s "BUSD")
    = Helpers.pair (base ++ s "B") (s "USD") ∧
  Helpers.normalize_symbol (base ++ s "TUSD")
    = Helpers.pair (base ++ s "T") (s "USD").
Proof.
  intros H s.
  assert (Hs : ∀ suffix, Helpers.has_slash (s suffix) = false →
                         Helpers.has_slash (base ++ s suffix) = false).
  { intros suffix Hsuf. rewrite has_slash_app, H, Hsuf. reflexivity. }
  assert (Hcut : ∀ (suffix : Helpers.str) k,
            (k <= length suffix)%nat →
            Helpers.but_last k (base ++ suffix)
            = base ++ take (length suffix - k) suffix).
  { intros suffix k Hk. unfold Helpers.but_last.
    rewrite length_app, take_app_ge by lia.
    do 2 f_equal. lia. }
  unfold Helpers.normalize_symbol, Helpers.stablecoins.
  cbn [fmap list_fmap Helpers.first_suffix].
  rewrite !Hs by reflexivity.
  rewrite !endswith_app by (cbn; lia).
  subst s. cbn [Helpers.endswith]. repeat split.
  - change (Helpers.endswith (String.list_ascii_of_string "USDT")
              (String.list_ascii_of_string "USDT")) with true.
    cbv iota. rewrite Hcut by (cbn; lia). cbn [length take Nat.sub].
    rewrite app_nil_r. reflexivity.
  - change (Helpers.endswith (String.list_ascii_of_string "USDC")
              (String.list_ascii_of_string "USDT")) with false.
    change (Helpers.endswith (String.list_ascii_of_string "USDC")
              (String.list_ascii_of_string "USD")) with false.
    change (Helpers.endswith (String.list_ascii_of_string "USDC")
              (String.list_ascii_of_string "USDC")) with true.
    cbv iota. rewrite Hcut by (cbn; lia). cbn [length take Nat.sub].
    rewrite app_nil_r. reflexivity.
  - change (Helpers.endswith (String.list_ascii_of_string "BUSD")
              (String.list_ascii_of_string "USDT")) with false.
    change (Helpers.endswith (String.list_ascii_of_string "BUSD")
              (String.list_ascii_of_string "USD")) with true.
    cbv iota. rewrite Hcut by (cbn; lia). reflexivity.
  - change (Helpers.endswith (String.list_ascii_of_string "TUSD")
              (String.list_ascii_of_string "USDT")) with false.
    change (Helpers.endswith (String.list_ascii_of_string "TUSD")
              (String.list_ascii_of_string "USD")) with true.
    cbv iota. rewrite Hcut by (cbn; lia). reflexivity.
Qed.

(** "BTCBUSD" comes out as "BTCB/USD". *)
Lemma normalize_symbol_stablecoins_witness :
  Helpers.normalize_symbol
    (String.list_ascii_of_string "BTC" ++ String.list_ascii_of_string "BUSD")
  = String.list_ascii_of_string "BTCB/USD".
Proof.
  destruct (normalize_symbol_stablecoins (String.list_ascii_of_string "BTC"))
    as (_ & _ & H & _); [reflexivity |].
  rewrite H. reflexivity.
Defined.

(** * Properties of the report formatter *)

Section RiskReport.
Import SignalGenerator.

(** The position size is the ratio's tenth, capped at 30%, on the
    handler's defaults too. *)
Lemma position_from_ratio (entry stop target : Q) (d : Direction)
    (ar : AnalysisResult) :
  let rp := _calculate_risk_parameters entry stop target d ar in
  position_size_percent rp == Py.min (0.1 * risk_reward_ratio rp) 0.3 * 100.
Proof.
  cbv zeta. unfold _calculate_risk_parameters.
  destruct (Py.eqb entry 0); [vm_compute; reflexivity | reflexivity].
Qed.



End RiskReport.

(** In the risk section of the report of a generated signal, the position
    is never called aggressive and the ratio never excellent: the position
    label is '适中' or '保守', the ratio label '良好', '一般' or '较差'; a
    conservative position always comes with a poor ratio and a good ratio
    always with a moderate position. *)
Theorem report_position_and_ratio (F : ReportFormatter.Formatting)
    (params : SignalGenerator.Params) (now : Z) (ar : option AnalysisResult)
    (s : Signal) :
  SignalGenerator.generate_signal params now ar = Some s →
  let position :=
    ReportFormatter.position_label (position_size_percent (risk_params s)) in
  let ratio :=
    ReportFormatter.ratio_label (risk_reward_ratio (risk_params s)) in
  ReportFormatter._format_risk_management F s !! 3%nat =
    Some ("• 建议仓位: " +:+
          ReportFormatter.fixed F 1 (position_size_percent (risk_params s)) +:+
          "% (" +:+ position +:+ "仓位)") ∧
  ReportFormatter._format_risk_management F s !! 6%nat =
    Some ("• 风险回报比: " +:+
          ReportFormatter.fixed F 2 (risk_reward_ratio (risk_params s)) +:+
          " (" +:+ ratio +:+ ")") ∧
  (position = "适中" ∨ position = "保守") ∧
  (ratio = "良好" ∨ ratio = "一般" ∨ ratio = "较差") ∧
  (position = "保守" → ratio = "较差") ∧
  (ratio = "良好" → position = "适中").
Proof.
  unfold SignalGenerator.generate_signal.
  destruct ar as [ar |]; cbn [mbind option_bind]; [| discriminate].
  destruct (last_price ar) as [price |]; [| discriminate].
  intros [= <-]. cbv zeta.
  split; [reflexivity |]. split; [reflexivity |].
  cbn [risk_params].
  match goal with
  | |- context [SignalGenerator._calculate_risk_parameters ?e ?st ?t ?d ?a] =>
      pose proof (ratio_and_position e st t d a (target_within_twice _ _ _ _))
        as [Hr _];
      pose proof (position_from_ratio e st t d a) as Hp;
      cbv zeta in Hr, Hp;
      set (rp := SignalGenerator._calculate_risk_parameters e st t d a) in *
  end.
  destruct (min_spec (0.1 * risk_reward_ratio rp) 0.3) as [[Hm E] | [Hm E]];
    rewrite E in Hp; clear E;
    unfold ReportFormatter.position_label, ReportFormatter.ratio_label;
    compare_floats;
    repeat split; intros; try congruence; auto; exfalso; lra.
Qed.

(** The signal of the unit-test analysis, ratio 1 and position 10%: a
    moderate position with a poor ratio. *)
Lemma report_position_and_ratio_witness :
  match SignalGenerator.generate_signal Examples.generator_params 0
          (Some Examples.test_analysis) with
  | Some s =>
      let position :=
        ReportFormatter.position_label (position_size_percent (risk_params s)) in
      let ratio :=
        ReportFormatter.ratio_label (risk_reward_ratio (risk_params s)) in
      (position = "适中" ∨ position = "保守") ∧
      (ratio = "良好" ∨ ratio = "一般" ∨ ratio = "较差") ∧
      (position = "保守" → ratio = "较差") ∧
      (ratio = "良好" → position = "适中")
  | None => False
  end.
Proof.
  destruct (SignalGenerator.generate_signal _ _ _) as [s |] eqn:E.
  - exact (proj2 (proj2 (report_position_and_ratio Examples.formatting
                           _ _ _ _ E))).
  - vm_compute in E. discriminate.
Defined.



Section AnalysisReport.
Import MarketAnalyzer ReportFormatter.

(** The result of [analyze] on a frame. *)
Lemma analyze_fields (T : Talib) (S : Stats) (round2 : Q → Q) (p : Params)
    (df : DataFrame) (funding : option (list Q)) (sym tf : string)
    (ar : AnalysisResult) :
  analyze T S round2 p (Some df) funding sym tf = Some ar →
  df ≠ [] ∧
  ar = mkAnalysis (Some sym) (Some tf)
         (_calculate_indicators T p df)
         (_identify_support_resistance T df 2)
         (_analyze_market_structure df (_calculate_indicators T p df))
         (_analyze_sentiment round2 df funding (_calculate_indicators T p df))
         (_determine_trend T df (_calculate_indicators T p df))
         (_analyze_volatility S df)
         (Some (List.last (col_close df) 0)).
Proof.
  unfold analyze. cbn [mbind option_bind].
  destruct df as [| b df'] eqn:E; [discriminate |].
  intros [= <-]. split; [discriminate | reflexivity].
Qed.

Lemma funding_description_agrees (rate : option Q) :
  (_get_funding_rate_description (default 0 rate) = "正向，多单支付费用" ↔
   funding_impact rate = "long_pay") ∧
  (_get_funding_rate_description (default 0 rate) = "负向，空单支付费用" ↔
   funding_impact rate = "short_pay").
Proof.
  unfold _get_funding_rate_description, funding_impact.
  destruct rate as [f |]; cbn [default from_option id];
    compare_floats; repeat split; intros; try congruence; exfalso; lra.
Qed.

Lemma sentiment_description_agrees (points : Q) (s : Sentiment)
    (ar : AnalysisResult) :
  sentiment ar = s → overall s = Some (overall_label points) →
  (_get_sentiment_description ar = "看涨" ↔ 70 <= points) ∧
  (_get_sentiment_description ar = "看跌" ↔ points <= 30).
Proof.
  intros Hs Ho. subst s. unfold _get_sentiment_description. rewrite Ho.
  cbn [default from_option id]. unfold overall_label.
  compare_floats; cbn [String.eqb Ascii.eqb Bool.eqb];
    repeat split; intros; try congruence; try lra.
Qed.

Lemma market_state_agrees (ind : gmap string Q) (s : Sentiment)
    (ar : AnalysisResult) :
  sentiment ar = s → state s = Some (rsi_state ind) →
  (_get_market_state ar = "超买状态" ↔ ∃ rsi, ind !! "rsi" = Some rsi ∧ 70 < rsi) ∧
  (_get_market_state ar = "超卖状态" ↔ ∃ rsi, ind !! "rsi" = Some rsi ∧ rsi < 30).
Proof.
  intros Hs Ho. subst s. unfold _get_market_state. rewrite Ho.
  cbn [default from_option id]. unfold rsi_state.
  destruct (ind !! "rsi") as [rsi |].
  - compare_floats; cbn [String.eqb Ascii.eqb Bool.eqb];
      repeat split; intros; try congruence; eauto;
      match goal with
      | H : ∃ _, _ |- _ => destruct H as (x & [= <-] & ?); exfalso; lra
      end.
  - cbn [String.eqb Ascii.eqb Bool.eqb].
    repeat split; intros H; try congruence; destruct H as (x & [=] & _).
Qed.


End AnalysisReport.

(** The report describes the analysis it is given without contradicting
    it.  For the analysis of a frame: the funding rate is described as
    positive exactly when the analysis says the longs pay and as negative
    exactly when the shorts pay, also when the frame has no funding column
    and the report shows 0; the sentiment reads '看涨' exactly when the
    sentiment score is at least 70 and '看跌' exactly when it is at most 30;
    the market state reads overbought exactly when there is an RSI above 70
    and oversold exactly when there is one below 30. *)
Theorem report_describes_sentiment (T : MarketAnalyzer.Talib)
    (S : MarketAnalyzer.Stats) (round2 : Q → Q) (p : MarketAnalyzer.Params)
    (df : DataFrame) (funding : option (list Q)) (sym tf : string)
    (ar : AnalysisResult) :
  MarketAnalyzer.analyze T S round2 p (Some df) funding sym tf = Some ar →
  let rate := ReportFormatter.funding_rate_of df funding in
  let points :=
    MarketAnalyzer.sentiment_points (indicators ar)
      (MarketAnalyzer.last_funding df funding) in
  (ReportFormatter._get_funding_rate_description rate = "正向，多单支付费用" ↔
   funding_rate_impact (sentiment ar) = Some "long_pay") ∧
  (ReportFormatter._get_funding_rate_description rate = "负向，空单支付费用" ↔
   funding_rate_impact (sentiment ar) = Some "short_pay") ∧
  (ReportFormatter._get_sentiment_description ar = "看涨" ↔ 70 <= points) ∧
  (ReportFormatter._get_sentiment_description ar = "看跌" ↔ points <= 30) ∧
  (ReportFormatter._get_market_state ar = "超买状态" ↔
   ∃ rsi, indicators ar !! "rsi" = Some rsi ∧ 70 < rsi) ∧
  (ReportFormatter._get_market_state ar = "超卖状态" ↔
   ∃ rsi, indicators ar !! "rsi" = Some rsi ∧ rsi < 30).
Proof.
  intros H rate points. apply analyze_fields in H as [_ E].
  assert (Es : sentiment ar =
               MarketAnalyzer._analyze_sentiment round2 df funding (indicators ar))
    by (rewrite E; reflexivity).
  destruct (funding_description_agrees (MarketAnalyzer.last_funding df funding))
    as [F1 F2].
  destruct (sentiment_description_agrees points _ ar Es eq_refl) as [S1 S2].
  destruct (market_state_agrees (indicators ar) _ ar Es eq_refl) as [M1 M2].
  rewrite Es at 1 2. cbn [funding_rate_impact MarketAnalyzer._analyze_sentiment].
  subst rate. unfold ReportFormatter.funding_rate_of.
  split; [rewrite F1; split; [intros ->; reflexivity | intros [= ->]; reflexivity] |].
  split; [rewrite F2; split; [intros ->; reflexivity | intros [= ->]; reflexivity] |].
  split; [exact S1 |]. split; [exact S2 |]. split; [exact M1 | exact M2].
Qed.

(** The analysis of the rising series, which has no funding column and an
    RSI of 50: the report calls the funding neutral, the sentiment
    neither bullish nor bearish and the state normal. *)
Lemma report_describes_sentiment_witness :
  match MarketAnalyzer.analyze Examples.talib Examples.stats (λ x, x)
          Examples.analyzer_params (Some Examples.rising) None
          "BTC/USDT" "1h" with
  | Some ar =>
      funding_rate_impact (sentiment ar) ≠ Some "long_pay" ∧
      ReportFormatter._get_market_state ar ≠ "超买状态"
  | None => False
  end.
Proof.
  destruct (MarketAnalyzer.analyze _ _ _ _ _ _ _ _) as [ar |] eqn:E.
  - destruct (report_describes_sentiment _ _ _ _ _ _ _ _ _ E)
      as (F1 & _ & _ & _ & M1 & _).
    vm_compute in E. injection E as <-. split.
    + rewrite <- F1. vm_compute. congruence.
    + vm_compute. congruence.
  - vm_compute in E. discriminate.
Defined.


